(** * Revenue-intelligence scoring engine: a shallow embedding and its properties

    The development follows [scoring.py] (lead scoring, churn detection,
    trial conversion), the tables and bucket function of [config.py], the
    account lookup of [data_store.py] and the [get_conversion_insights] arm of
    [server.call_tool].

    Python [float]s are IEEE-754 binary64 numbers; they are embedded as Rocq's
    primitive [float]s, whose operations are the same binary64 operations
    (round to nearest, ties to even).  Python [int]s are unbounded and are
    embedded as [Z].  A signals bag is a Python [dict] with string keys and
    dynamically typed values: a [gmap string pyobj].  Exceptions are the
    [Raise] results of an error monad.

    The engines are first embedded as functions of the contents of their
    bags.  To compare two calls made one after the other, the dictionaries
    are then taken as what they are, objects of a heap that [score_lead]
    updates in place ([Objects]). *)

From Stdlib Require Import ZArith Floats Lia Sorted.
From stdpp Require Import gmap strings list pretty.

Set Warnings "-inexact-float".
Local Open Scope Z_scope.

(** ** The fragment of the Python runtime the engine relies on *)

Module Py.

(** Dynamically typed values found in signal bags and tool arguments. *)
Inductive pyobj :=
| VNone
| VBool (b : bool)
| VInt (n : Z)
| VFloat (f : float)
| VStr (s : string).

Inductive exn :=
| TypeError
| OverflowError
| ZeroDivisionError
| KeyError (k : string)
| ValueError (msg : string).

Inductive result (A : Type) :=
| Ok (a : A)
| Raise (e : exn).
Arguments Ok {A} a.
Arguments Raise {A} e.

(** Sequencing: an exception raised by [m] propagates. *)
Definition bind {A B : Type} (m : result A) (k : A -> result B) : result B :=
  match m with
  | Ok a => k a
  | Raise e => Raise e
  end.

Notation "'let*' x := m 'in' k" := (bind m (fun x => k))
  (at level 10, x pattern, m at level 200, k at level 200, only parsing).

(** [d.get(k, dflt)]: a key that is present wins, whatever it holds. *)
Definition dict_get (d : gmap string pyobj) (k : string) (dflt : pyobj) : pyobj :=
  default dflt (d !! k).

(** [d[k]]. *)
Definition dict_item (d : gmap string pyobj) (k : string) : result pyobj :=
  match d !! k with
  | Some v => Ok v
  | None => Raise (KeyError k)
  end.

(** [float(n)] for an [int]: the nearest double, ties to even. *)
Definition SF_of_Z (n : Z) : spec_float := binary_normalize prec emax n 0 false.
Definition Z2F (n : Z) : float := SF2Prim (SF_of_Z n).

(** The conversion an [int] operand of a float operation undergoes; Python
    raises [OverflowError] when the integer is beyond the double range. *)
Definition float_of_int (n : Z) : result float :=
  match SF_of_Z n with
  | S754_infinity _ => Raise OverflowError
  | f => Ok (SF2Prim f)
  end.

(** [bool] is a subclass of [int]. *)
Definition as_int (v : pyobj) : option Z :=
  match v with
  | VInt n => Some n
  | VBool b => Some (Z.b2z b)
  | _ => None
  end.

(** Coercion of an operand of [*] or [+] whose other operand is a float. *)
Definition float_of (v : pyobj) : result float :=
  match v with
  | VFloat f => Ok f
  | VInt n => float_of_int n
  | VBool b => float_of_int (Z.b2z b)
  | VNone | VStr _ => Raise TypeError
  end.

(** An integer as an exact (not normalised) binary float [±n·2^0]. *)
Definition exact_int (n : Z) : spec_float :=
  match n with
  | Z0 => S754_zero false
  | Zpos p => S754_finite false p 0
  | Zneg p => S754_finite true p 0
  end.

(** [a / b] on two [int]s: the correctly rounded quotient, whatever the size
    of the operands; [OverflowError] when it is beyond the double range. *)
Definition int_truediv (a b : Z) : result float :=
  if b =? 0 then Raise ZeroDivisionError
  else match SFdiv prec emax (exact_int a) (exact_int b) with
       | S754_infinity _ => Raise OverflowError
       | q => Ok (SF2Prim q)
       end.

(** [a / b] (true division). *)
Definition truediv (a b : pyobj) : result float :=
  match as_int a, as_int b with
  | Some x, Some y => int_truediv x y
  | _, _ =>
      let* x := float_of a in
      let* y := float_of b in
      if is_zero y then Raise ZeroDivisionError else Ok (x / y)%float
  end.

(** Comparisons of a bag value with an integer literal of the source.  Two
    [int]s compare as integers; a float compares with the literal as a
    double (the literals of the engine are at most 1000, hence exact). *)
Definition gt_int (v : pyobj) (c : Z) : result bool :=
  match v with
  | VInt n => Ok (c <? n)
  | VBool b => Ok (c <? Z.b2z b)
  | VFloat f => Ok (Z2F c <? f)%float
  | VNone | VStr _ => Raise TypeError
  end.

Definition ge_int (v : pyobj) (c : Z) : result bool :=
  match v with
  | VInt n => Ok (c <=? n)
  | VBool b => Ok (c <=? Z.b2z b)
  | VFloat f => Ok (Z2F c <=? f)%float
  | VNone | VStr _ => Raise TypeError
  end.

Definition lt_int (v : pyobj) (c : Z) : result bool :=
  match v with
  | VInt n => Ok (n <? c)
  | VBool b => Ok (Z.b2z b <? c)
  | VFloat f => Ok (f <? Z2F c)%float
  | VNone | VStr _ => Raise TypeError
  end.

Definition le_int (v : pyobj) (c : Z) : result bool :=
  match v with
  | VInt n => Ok (n <=? c)
  | VBool b => Ok (Z.b2z b <=? c)
  | VFloat f => Ok (f <=? Z2F c)%float
  | VNone | VStr _ => Raise TypeError
  end.

(** [float >= int literal], as in [final_score >= 70]. *)
Definition fge_int (f : float) (c : Z) : bool := (Z2F c <=? f)%float.

(** Truth value of an object in a condition. *)
Definition truthy (v : pyobj) : bool :=
  match v with
  | VNone => false
  | VBool b => b
  | VInt n => negb (n =? 0)
  | VFloat f => negb (f =? 0)%float
  | VStr s => negb (String.eqb s "")
  end.

(** [min(c, x)]: the first argument stays unless the second is smaller.
    The engine calls it with the literal [100] first; the literal is kept
    as the double [100.0], which is what every later use converts it to. *)
Definition py_min (c x : float) : float := if (x <? c)%float then x else c.

(** Nearest integer to [a / b] for [b > 0], ties to the even one. *)
Definition round_half_even_div (a b : Z) : Z :=
  let q := a / b in
  match 2 * (a mod b) ?= b with
  | Lt => q
  | Gt => q + 1
  | Eq => if Z.even q then q else q + 1
  end.

(** Nearest integer to [m·2^e·10^ndigits], ties to even. *)
Definition decimal_scaled (ndigits : Z) (m : positive) (e : Z) : Z :=
  if 0 <=? e then Z.pos m * 2 ^ e * 10 ^ ndigits
  else round_half_even_div (Z.pos m * 10 ^ ndigits) (2 ^ (- e)).

Definition signed_int (s : bool) (n : Z) : spec_float :=
  match n with
  | Zpos p => S754_finite s p 0
  | _ => S754_zero s
  end.

(** [round(x, ndigits)] for a float and [ndigits >= 0]: the exact binary
    value is rounded to [ndigits] decimals (ties to even), and the decimal
    obtained is read back as the nearest double.  Zeros, infinities and
    NaN are returned unchanged. *)
Definition py_round (x : float) (ndigits : Z) : float :=
  match Prim2SF x with
  | S754_finite s m e =>
      SF2Prim (SFdiv prec emax (signed_int s (decimal_scaled ndigits m e))
                 (exact_int (10 ^ ndigits)))
  | _ => x
  end.

(** Left-pads a decimal numeral with zeros up to [n] characters. *)
Fixpoint pad_zeros (n : nat) (s : string) : string :=
  match n with
  | O => s
  | S n' => if (String.length s <? n)%nat then pad_zeros n' ("0" +:+ s) else s
  end.

(** [format(x, ".<ndigits>f")] for [ndigits >= 1]. *)
Definition format_fixed (x : float) (ndigits : Z) : string :=
  match Prim2SF x with
  | S754_nan => "nan"
  | S754_infinity s => if s then "-inf" else "inf"
  | S754_zero s =>
      (if s then "-" else "") +:+ "0." +:+ pad_zeros (Z.to_nat ndigits) ""
  | S754_finite s m e =>
      let n := decimal_scaled ndigits m e in
      (if s then "-" else "") +:+ pretty (n / 10 ^ ndigits) +:+ "." +:+
      pad_zeros (Z.to_nat ndigits) (pretty (n mod 10 ^ ndigits))
  end.

(** The interpreter converts an [int] to decimal text only when it has at
    most [sys.get_int_max_str_digits()] digits, 4300 unless the program
    changes it, which this one never does.  [str], [repr] and a field of an
    f-string raise [ValueError] on a longer one. *)
Definition INT_MAX_STR_DIGITS : Z := 4300.

Definition DIGITS_ERROR : exn :=
  ValueError
    ("Exceeds the limit (4300 digits) for integer string conversion; " +:+
     "use sys.set_int_max_str_digits() to increase the limit").

(** Whether [str(v)] is produced.  Only the text of a long [int] is refused;
    a [bool] prints as [True] or [False] and a float always has a [repr]. *)
Definition check_str (v : pyobj) : result unit :=
  match v with
  | VInt n =>
      if Z.abs n <? 10 ^ INT_MAX_STR_DIGITS then Ok tt else Raise DIGITS_ERROR
  | _ => Ok tt
  end.

(** [", ".join(l)]. *)
Fixpoint join (sep : string) (l : list string) : string :=
  match l with
  | [] => ""
  | [s] => s
  | s :: rest => s +:+ sep +:+ join sep rest
  end.

(** [needle in s] on strings. *)
Fixpoint str_in (needle s : string) : bool :=
  if String.prefix needle s then true
  else match s with
       | EmptyString => false
       | String _ s' => str_in needle s'
       end.

(** [list(set(l))]: the distinct elements, in an order Python does not
    specify. *)
Definition list_set (l : list string) : list string :=
  elements (list_to_set l : gset string).

End Py.
Import Py.

#[global] Instance float_inhabited : Inhabited float := populate 0%float.

(** ** [config.py]: model parameters, thresholds and feature weights *)

Module Config.

Definition MODEL_VERSION : string := "v1.2.3".

(** Lead scoring feature weights. *)
Definition LEAD_SCORE_WEIGHTS : gmap string float :=
  list_to_map
    [ ("company_size", 0.20%float);
      ("engagement_signals", 0.40%float);
      ("industry_fit", 0.20%float);
      ("intent_signals", 0.20%float) ].

Definition LEAD_TIER_THRESHOLDS : gmap string Z :=
  list_to_map [ ("hot", 70); ("warm", 40); ("cold", 0) ].

Definition CHURN_RISK_THRESHOLDS : gmap string Z :=
  list_to_map [ ("critical", 70); ("high", 50); ("medium", 30); ("low", 0) ].

Definition CONVERSION_THRESHOLDS : gmap string float :=
  list_to_map [ ("high", 0.70%float); ("medium", 0.40%float); ("low", 0.0%float) ].

(** Industry fit scoring; ["default"] is the fallback for unknown industries. *)
Definition INDUSTRY_FIT_TABLE : list (string * Z) :=
  [ ("technology", 90);
    ("saas", 85);
    ("data_analytics", 95);
    ("finance", 80);
    ("healthcare", 75);
    ("insurance", 75);
    ("manufacturing", 70);
    ("energy", 70);
    ("professional_services", 65);
    ("education", 60);
    ("retail", 55);
    ("logistics", 50);
    ("real_estate", 45);
    ("agriculture", 40);
    ("hospitality", 35);
    ("nonprofit", 30);
    ("default", 50) ].

Definition INDUSTRY_FIT_SCORES : gmap string Z := list_to_map INDUSTRY_FIT_TABLE.

(** Company size scoring (employee count buckets). *)
Definition get_company_size_score (employee_count : pyobj) : result Z :=
  let* c := ge_int employee_count 1000 in
  if c then Ok 100 else
  let* c := ge_int employee_count 500 in
  if c then Ok 90 else
  let* c := ge_int employee_count 200 in
  if c then Ok 80 else
  let* c := ge_int employee_count 100 in
  if c then Ok 70 else
  let* c := ge_int employee_count 50 in
  if c then Ok 60 else
  let* c := ge_int employee_count 20 in
  if c then Ok 50 else
  Ok 30.

End Config.
Import Config.

(** ** [scoring.py] *)

Module Attribution.
Record t := mk {
  feature_name : string;
  contribution : float;
  value : pyobj;
  impact : string
}.
End Attribution.

Module PredictionResult.
Record t := mk {
  score : float;
  tier : string;
  feature_attributions : list Attribution.t;
  explanation : string;
  model_version : string;
  timestamp : string
}.
End PredictionResult.

(** An account of the record store, with the keys the engines read. *)
Module Account.
Record t := mk {
  id : string;
  company : string;
  plan : string;
  usage_signals : gmap string pyobj
}.
End Account.

Module ChurnResult.
Record t := mk {
  account_id : string;
  company : string;
  risk_score : float;
  risk_tier : string;
  declining_signals : list string;
  suggested_interventions : list string;
  model_version : string;
  timestamp : string
}.
End ChurnResult.

Module ConversionResult.
Record t := mk {
  account_id : string;
  company : string;
  trial_day : Z;
  conversion_probability : float;
  probability_tier : string;
  key_engagement_signals : list string;
  recommended_actions : list string;
  model_version : string;
  timestamp : string
}.
End ConversionResult.

Module Scoring.

Local Open Scope float_scope.

(** Calculate engagement score based on lead signals: the score and the
    feature attributions. *)
Definition calculate_engagement_score (signals : gmap string pyobj)
  : result (float * list Attribution.t) :=
  (* Website visits (0-100 scale, cap at 50 visits = 100) *)
  let website_visits := dict_get signals "website_visits_30d" (VInt 0) in
  let* q := truediv website_visits (VInt 50) in
  let website_score := py_min 100 (q * 100) in
  let* positive := gt_int website_visits 20 in
  let a_visits :=
    Attribution.mk "website_visits_30d" 25.0 website_visits
      (if positive then "positive" else "neutral") in
  (* Email engagement (0-100 scale) *)
  let email_score := dict_get signals "email_engagement_score" (VInt 0) in
  let* positive := gt_int email_score 60 in
  let a_email :=
    Attribution.mk "email_engagement_score" 30.0 email_score
      (if positive then "positive" else "neutral") in
  (* Demo requested (binary, worth 20 points) *)
  let demo_requested := dict_get signals "demo_requested" (VBool false) in
  let demo_score := if truthy demo_requested then 100 else 0 in
  let a_demo :=
    Attribution.mk "demo_requested" 20.0 demo_requested
      (if truthy demo_requested then "positive" else "negative") in
  (* Free trial started (binary, worth 15 points) *)
  let trial_started := dict_get signals "free_trial_started" (VBool false) in
  let trial_score := if truthy trial_started then 100 else 0 in
  let a_trial :=
    Attribution.mk "free_trial_started" 15.0 trial_started
      (if truthy trial_started then "positive" else "neutral") in
  (* Whitepaper downloads (cap at 5 = 100) *)
  let whitepaper_downloads := dict_get signals "whitepaper_downloads" (VInt 0) in
  let* q := truediv whitepaper_downloads (VInt 5) in
  let whitepaper_score := py_min 100 (q * 100) in
  let* positive := gt_int whitepaper_downloads 2 in
  let a_whitepaper :=
    Attribution.mk "whitepaper_downloads" 10.0 whitepaper_downloads
      (if positive then "positive" else "neutral") in
  let attributions := [a_visits; a_email; a_demo; a_trial; a_whitepaper] in
  (* Calculate weighted average *)
  let* email := float_of email_score in
  let total_score :=
    website_score * 0.25 +
    email * 0.30 +
    demo_score * 0.20 +
    trial_score * 0.15 +
    whitepaper_score * 0.10 in
  Ok (total_score, attributions).

(** Calculate intent/buying signal score. *)
Definition calculate_intent_score (signals : gmap string pyobj)
  : Z * list Attribution.t :=
  (* LinkedIn engagement (binary) *)
  let linkedin := dict_get signals "linkedin_engagement" (VBool false) in
  let linkedin_score := if truthy linkedin then 100%Z else 40%Z in
  let attributions :=
    [ Attribution.mk "linkedin_engagement" 100.0 linkedin
        (if truthy linkedin then "positive" else "neutral") ] in
  (linkedin_score, attributions).

(** The in-place update [attr["contribution"] = attr["contribution"] * w]. *)
Definition scale_contribution (w : float) (attr : Attribution.t) : Attribution.t :=
  Attribution.mk (Attribution.feature_name attr)
    (Attribution.contribution attr * w)
    (Attribution.value attr) (Attribution.impact attr).

(** Generate human-readable explanation for lead score. *)
Definition generate_lead_explanation
    (company_name : string) (score : float) (tier : string)
    (signals : gmap string pyobj) (industry : string) (employee_count : pyobj)
  : result string :=
  let explanation_parts :=
    [ company_name +:+ " scored " +:+ format_fixed score 1 +:+ "/100 (" +:+
      tier +:+ " tier)." ] in
  (* Key positive signals *)
  let positives := [] in
  let positives :=
    if truthy (dict_get signals "demo_requested" VNone)
    then positives ++ ["demo requested"] else positives in
  let positives :=
    if truthy (dict_get signals "free_trial_started" VNone)
    then positives ++ ["free trial started"] else positives in
  let* c := gt_int (dict_get signals "email_engagement_score" (VInt 0)) 70 in
  let positives :=
    if c then positives ++ ["high email engagement"] else positives in
  let* c := ge_int employee_count 500 in
  let positives :=
    if c then positives ++ ["enterprise size"] else positives in
  let explanation_parts :=
    match positives with
    | [] => explanation_parts
    | _ => explanation_parts ++
             [" Strong signals: " +:+ join ", " positives +:+ "."]
    end in
  (* Areas for improvement *)
  let concerns := [] in
  let* c := lt_int (dict_get signals "website_visits_30d" (VInt 0)) 10 in
  let concerns :=
    if c then concerns ++ ["low website engagement"] else concerns in
  let concerns :=
    if truthy (dict_get signals "demo_requested" VNone)
    then concerns else concerns ++ ["no demo requested"] in
  let* c := lt_int employee_count 50 in
  let concerns :=
    if c then concerns ++ ["small company size"] else concerns in
  let explanation_parts :=
    match concerns with
    | [] => explanation_parts
    | _ => if String.eqb tier "hot" then explanation_parts
           else explanation_parts ++
                  [" Areas to improve: " +:+ join ", " concerns +:+ "."]
    end in
  Ok (join "" explanation_parts).

(** The four weighted sub-scores of a lead and the attribution list, in
    evaluation order (steps 1 to 4 of [score_lead]). *)
Definition lead_sub_scores
    (signals : gmap string pyobj) (industry : string) (employee_count : pyobj)
  : result (Z * float * Z * Z * list Attribution.t) :=
  let all_attributions := [] in
  (* 1. Company size score (20% weight) *)
  let* company_size_score := get_company_size_score employee_count in
  let all_attributions :=
    all_attributions ++
    [ Attribution.mk "company_size"
        (LEAD_SCORE_WEIGHTS !!! "company_size" * 100) employee_count
        (if (70 <? company_size_score)%Z then "positive" else "neutral") ] in
  (* 2. Engagement signals (40% weight) *)
  let* (engagement_score, engagement_attrs) := calculate_engagement_score signals in
  let all_attributions :=
    all_attributions ++
    map (scale_contribution (LEAD_SCORE_WEIGHTS !!! "engagement_signals"))
      engagement_attrs in
  (* 3. Industry fit (20% weight) *)
  let industry_score :=
    default (INDUSTRY_FIT_SCORES !!! "default") (INDUSTRY_FIT_SCORES !! industry) in
  let all_attributions :=
    all_attributions ++
    [ Attribution.mk "industry_fit"
        (LEAD_SCORE_WEIGHTS !!! "industry_fit" * 100) (VStr industry)
        (if (70 <? industry_score)%Z then "positive" else "neutral") ] in
  (* 4. Intent signals (20% weight) *)
  let '(intent_score, intent_attrs) := calculate_intent_score signals in
  let all_attributions :=
    all_attributions ++
    map (scale_contribution (LEAD_SCORE_WEIGHTS !!! "intent_signals"))
      intent_attrs in
  Ok (company_size_score, engagement_score, industry_score, intent_score,
      all_attributions).

(** The final weighted score, before it is rounded for the result. *)
Definition weighted_score
    (company_size_score : Z) (engagement_score : float)
    (industry_score intent_score : Z) : float :=
  Z2F company_size_score * LEAD_SCORE_WEIGHTS !!! "company_size" +
  engagement_score * LEAD_SCORE_WEIGHTS !!! "engagement_signals" +
  Z2F industry_score * LEAD_SCORE_WEIGHTS !!! "industry_fit" +
  Z2F intent_score * LEAD_SCORE_WEIGHTS !!! "intent_signals".

Definition lead_tier (final_score : float) : string :=
  if fge_int final_score (LEAD_TIER_THRESHOLDS !!! "hot") then "hot"
  else if fge_int final_score (LEAD_TIER_THRESHOLDS !!! "warm") then "warm"
  else "cold".

(** [final_score] of [score_lead], as the function computes it before it
    determines the tier. *)
Definition lead_final_score
    (signals : gmap string pyobj) (industry : string) (employee_count : pyobj)
  : result float :=
  let* (company_size_score, engagement_score, industry_score, intent_score, _) :=
    lead_sub_scores signals industry employee_count in
  Ok (weighted_score company_size_score engagement_score industry_score
        intent_score).

(** Score a lead based on company attributes and engagement signals.
    [now] is the reading of the clock, [datetime.utcnow().isoformat() + "Z"]. *)
Definition score_lead
    (now : string) (company_name : string) (signals : gmap string pyobj)
    (industry : string) (employee_count : pyobj)
  : result PredictionResult.t :=
  (* logger.info(f"Scoring lead: {company_name} ({industry}, {employee_count}
     employees)"): the message is built before anything else, and building
     it converts [employee_count] to text.  The text itself only reaches
     the log. *)
  let* _ := check_str employee_count in
  let* (company_size_score, engagement_score, industry_score, intent_score,
    all_attributions) := lead_sub_scores signals industry employee_count in
  (* Calculate final weighted score *)
  let final_score :=
    weighted_score company_size_score engagement_score industry_score
      intent_score in
  (* Determine tier *)
  let tier := lead_tier final_score in
  (* Generate explanation *)
  let* explanation :=
    generate_lead_explanation company_name final_score tier signals industry
      employee_count in
  Ok (PredictionResult.mk (py_round final_score 2) tier all_attributions
        explanation MODEL_VERSION now).

(** Generate suggested interventions based on risk factors. *)
Definition interventions_of_factor (factor : string) : list string :=
  (if str_in "NPS" factor || str_in "support ticket" factor
   then ["Schedule executive business review to address concerns"] else []) ++
  (if str_in "daily active" factor || str_in "login" factor
   then ["Provide personalized onboarding/training session"] else []) ++
  (if str_in "feature adoption" factor
   then ["Demonstrate advanced features relevant to their use case"] else []).

Definition generate_intervention_suggestions
    (risk_factors : list string) (account_data : Account.t) : list string :=
  let interventions :=
    foldl (fun interventions factor =>
             interventions ++ interventions_of_factor factor)
      [] risk_factors in
  (* Add account-specific suggestions *)
  let interventions :=
    if String.eqb (Account.plan account_data) "starter"
    then interventions ++ ["Explore upsell to Professional tier with more features"]
    else interventions in
  (* Remove duplicates *)
  list_set interventions.

(** The rule checks of [detect_churn_risk]: the accumulated [risk_score]
    and the [risk_factors] list, in rule-evaluation order. *)
Definition churn_rules (usage : gmap string pyobj)
  : result (float * list string) :=
  let risk_factors : list string := [] in
  let risk_score := 0.0 in
  (* Factor 1: Low daily active users relative to expected *)
  let dau := dict_get usage "daily_active_users" (VInt 0) in
  let* (risk_score, risk_factors) :=
    (let* c := lt_int dau 5 in
     if c then Ok (risk_score + 30, risk_factors ++ ["Very low daily active users"])
     else
       let* c := lt_int dau 10 in
       if c then Ok (risk_score + 15, risk_factors ++ ["Low daily active users"])
       else Ok (risk_score, risk_factors)) in
  (* Factor 2: Poor NPS score *)
  let nps := dict_get usage "nps_score" VNone in
  let* (risk_score, risk_factors) :=
    match nps with
    | VNone => Ok (risk_score, risk_factors)
    | _ =>
        let* c := le_int nps 4 in
        if c then Ok (risk_score + 25, risk_factors ++ ["Low NPS score (detractor)"])
        else
          let* c := le_int nps 6 in
          if c then Ok (risk_score + 10, risk_factors ++ ["Below-average NPS"])
          else Ok (risk_score, risk_factors)
    end in
  (* Factor 3: High support ticket volume *)
  let support_tickets := dict_get usage "support_tickets_30d" (VInt 0) in
  let* (risk_score, risk_factors) :=
    (let* c := gt_int support_tickets 5 in
     if c then Ok (risk_score + 20, risk_factors ++ ["High support ticket volume"])
     else
       let* c := gt_int support_tickets 3 in
       if c then Ok (risk_score + 10, risk_factors ++ ["Elevated support tickets"])
       else Ok (risk_score, risk_factors)) in
  (* Factor 4: Declining login frequency *)
  let login_freq := dict_get usage "login_frequency_7d" (VInt 0) in
  let* (risk_score, risk_factors) :=
    (let* c := lt_int login_freq 5 in
     if c then Ok (risk_score + 15, risk_factors ++ ["Declining login frequency"])
     else Ok (risk_score, risk_factors)) in
  (* Factor 5: Low feature adoption *)
  let features_adopted := dict_get usage "features_adopted" (VInt 0) in
  let* (risk_score, risk_factors) :=
    (let* c := lt_int features_adopted 3 in
     if c then Ok (risk_score + 10, risk_factors ++ ["Low feature adoption"])
     else Ok (risk_score, risk_factors)) in
  Ok (risk_score, risk_factors).

Definition churn_tier (risk_score : float) : string :=
  if fge_int risk_score (CHURN_RISK_THRESHOLDS !!! "critical") then "critical"
  else if fge_int risk_score (CHURN_RISK_THRESHOLDS !!! "high") then "high"
  else if fge_int risk_score (CHURN_RISK_THRESHOLDS !!! "medium") then "medium"
  else "low".

(** Calculate churn risk for an existing account. *)
Definition detect_churn_risk (now : string) (account_data : Account.t)
  : result ChurnResult.t :=
  let company := Account.company account_data in
  let usage := Account.usage_signals account_data in
  let* (risk_score, risk_factors) := churn_rules usage in
  (* Determine risk tier *)
  let risk_tier := churn_tier risk_score in
  (* Generate intervention suggestions *)
  let interventions := generate_intervention_suggestions risk_factors account_data in
  Ok (ChurnResult.mk (Account.id account_data) company (py_round risk_score 2)
        risk_tier risk_factors interventions MODEL_VERSION now).

(** Determine tier based on probability. *)
Definition get_probability_tier (probability : float) : string :=
  if CONVERSION_THRESHOLDS !!! "high" <=? probability then "high"
  else if CONVERSION_THRESHOLDS !!! "medium" <=? probability then "medium"
  else "low".

(** The bonus a signal adds to the probability: the first band, from the
    highest threshold down, that the signal reaches; nothing below the
    lowest band. *)
Definition band_bonus (v : pyobj) (t1 t2 t3 : Z) (b1 b2 b3 : float)
    (probability : float) : result float :=
  let* c := ge_int v t1 in
  if c then Ok (probability + b1) else
  let* c := ge_int v t2 in
  if c then Ok (probability + b2) else
  let* c := ge_int v t3 in
  if c then Ok (probability + b3) else
  Ok probability.

(** The additive probability of [calculate_conversion_probability]. *)
Definition conversion_score (usage : gmap string pyobj) : result float :=
  (* Simple scoring model *)
  let probability := 0.0 in
  (* High DAU is strong signal *)
  let dau := dict_get usage "daily_active_users" (VInt 0) in
  let* probability := band_bonus dau 15 10 5 0.30 0.20 0.10 probability in
  (* Feature adoption *)
  let features := dict_get usage "features_adopted" (VInt 0) in
  let* probability := band_bonus features 5 3 2 0.25 0.15 0.05 probability in
  (* API usage *)
  let api_calls := dict_get usage "api_calls_per_day" (VInt 0) in
  let* probability := band_bonus api_calls 300 150 50 0.20 0.10 0.05 probability in
  (* Login frequency *)
  let login_freq := dict_get usage "login_frequency_7d" (VInt 0) in
  let* probability := band_bonus login_freq 14 10 5 0.25 0.15 0.05 probability in
  Ok probability.

Section Conversion.

(** [repr] of a float (the shortest decimal that reads back as the same
    double), which the f-strings of the engagement summary apply to a
    signal that is a float.  It is left as a parameter. *)
Variable float_repr : float -> string.

(** The text [str(v)], for a value that has one (see [check_str]). *)
Definition py_str (v : pyobj) : string :=
  match v with
  | VNone => "None"
  | VBool b => if b then "True" else "False"
  | VInt n => pretty n
  | VFloat f => float_repr f
  | VStr s => s
  end.

(** A field [{v}] of an f-string: [str(v)], or the [ValueError] of an [int]
    too long to print. *)
Definition format_field (v : pyobj) : result string :=
  let* _ := check_str v in
  Ok (py_str v).

(** Calculate probability of trial conversion to paid. *)
Definition calculate_conversion_probability
    (now : string) (account_data : Account.t) : result ConversionResult.t :=
  let company := Account.company account_data in
  let usage := Account.usage_signals account_data in
  let* probability := conversion_score usage in
  let dau := dict_get usage "daily_active_users" (VInt 0) in
  let features := dict_get usage "features_adopted" (VInt 0) in
  let api_calls := dict_get usage "api_calls_per_day" (VInt 0) in
  (* Determine trial day (mock calculation) *)
  let trial_day := 10%Z in
  (* Key engagement signals *)
  let engagement_signals := [] in
  let* c := ge_int dau 10 in
  let* engagement_signals :=
    if c then
      let* text := format_field dau in
      Ok (engagement_signals ++ ["Strong daily usage (" +:+ text +:+ " DAU)"])
    else Ok engagement_signals in
  let* c := ge_int features 3 in
  let* engagement_signals :=
    if c then
      let* text := format_field features in
      Ok (engagement_signals ++
            ["Good feature adoption (" +:+ text +:+ " features)"])
    else Ok engagement_signals in
  let* c := ge_int api_calls 150 in
  let* engagement_signals :=
    if c then
      let* text := format_field api_calls in
      Ok (engagement_signals ++
            ["Active API integration (" +:+ text +:+ " calls/day)"])
    else Ok engagement_signals in
  (* Recommendations *)
  let recommendations :=
    if CONVERSION_THRESHOLDS !!! "high" <=? probability then
      [ "Send upgrade prompt with success stories";
        "Offer onboarding call to ensure success" ]
    else if CONVERSION_THRESHOLDS !!! "medium" <=? probability then
      [ "Provide feature tutorial to drive adoption";
        "Share case study from similar customer" ]
    else
      [ "Increase engagement with personalized outreach";
        "Identify and remove adoption blockers" ] in
  Ok (ConversionResult.mk (Account.id account_data) company trial_day
        (py_round probability 3) (get_probability_tier probability)
        engagement_signals recommendations MODEL_VERSION now).

End Conversion.

End Scoring.

(** ** [data_store.py]: the record store *)

Module DataStore.

(** [a == b] between a string and an arbitrary object. *)
Definition str_eq_obj (s : string) (v : pyobj) : bool :=
  match v with
  | VStr s' => String.eqb s s'
  | _ => false
  end.

(** Retrieve account by ID: the first account of the store whose ["id"]
    equals [account_id], or [None]. *)
Definition get_account (ACCOUNTS : list Account.t) (account_id : pyobj)
  : option Account.t :=
  List.find (fun account => str_eq_obj (Account.id account) account_id) ACCOUNTS.

(** A JSON document, as [json.dumps] receives it. *)
#[local] Unset Elimination Schemes.
Inductive json :=
| JNull
| JBool (b : bool)
| JInt (n : Z)
| JFloat (f : float)
| JStr (s : string)
| JList (l : list json)
| JObj (fields : list (string * json)).
#[local] Set Elimination Schemes.

Definition json_of_obj (v : pyobj) : json :=
  match v with
  | VNone => JNull
  | VBool b => JBool b
  | VInt n => JInt n
  | VFloat f => JFloat f
  | VStr s => JStr s
  end.

(** An entry of the append-only prediction log. *)
Record log_entry := mk_log {
  log_id : string;
  log_timestamp : string;
  prediction_type : string;
  input_data : json;
  prediction_result : json;
  log_model_version : string
}.

(** Store a prediction log entry: [PREDICTION_LOGS.append(log_entry)].
    [uuid] is the identifier [uuid.uuid4()] draws and [now] the clock. *)
Definition store_prediction_log
    (uuid now : string) (PREDICTION_LOGS : list log_entry)
    (prediction_type : string) (input_data prediction_result : json)
    (model_version : string) : list log_entry :=
  PREDICTION_LOGS ++
  [ mk_log uuid now prediction_type input_data prediction_result model_version ].

End DataStore.
Import DataStore.

(** ** [server.py]: the [get_conversion_insights] arm of [call_tool] *)

Module Server.

(** [types.TextContent]; [text] holds the document that [json.dumps]
    serialises. *)
Record TextContent := mk_text { type : string; text : json }.

Definition json_of_conversion (r : ConversionResult.t) : json :=
  JObj
    [ ("account_id", JStr (ConversionResult.account_id r));
      ("company", JStr (ConversionResult.company r));
      ("trial_day", JInt (ConversionResult.trial_day r));
      ("conversion_probability", JFloat (ConversionResult.conversion_probability r));
      ("probability_tier", JStr (ConversionResult.probability_tier r));
      ("key_engagement_signals",
        JList (map JStr (ConversionResult.key_engagement_signals r)));
      ("recommended_actions",
        JList (map JStr (ConversionResult.recommended_actions r)));
      ("model_version", JStr (ConversionResult.model_version r));
      ("timestamp", JStr (ConversionResult.timestamp r)) ].

Section Gateway.

Variable float_repr : float -> string.
(** [str(e)]: the interpreter's message for an exception. *)
Variable exn_str : exn -> string.
(** The clock readings and the identifier drawn while the call runs. *)
Variables now log_now uuid : string.

(** The body of the [try] block for [name == "get_conversion_insights"]:
    the response and the prediction log after the call. *)
Definition get_conversion_insights
    (ACCOUNTS : list Account.t) (PREDICTION_LOGS : list log_entry)
    (arguments : gmap string pyobj)
  : result (list TextContent * list log_entry) :=
  let* account_id := dict_item arguments "account_id" in
  match get_account ACCOUNTS account_id with
  | None =>
      Raise (ValueError ("Account not found: " +:+
                         Scoring.py_str float_repr account_id))
  | Some account =>
      if negb (String.eqb (Account.plan account) "trial") then
        Ok ([ mk_text "text"
                (JObj [ ("error",
                         JStr ("Account " +:+ Scoring.py_str float_repr account_id +:+
                               " is not a trial account (plan: " +:+
                               Account.plan account +:+ ")")) ]) ],
            PREDICTION_LOGS)
      else
        let* result :=
          Scoring.calculate_conversion_probability float_repr now account in
        (* Log the prediction *)
        let logs :=
          store_prediction_log uuid log_now PREDICTION_LOGS
            "conversion_probability"
            (JObj [("account_id", json_of_obj account_id)])
            (json_of_conversion result) MODEL_VERSION in
        Ok ([ mk_text "text" (json_of_conversion result) ], logs)
  end.

(** [call_tool("get_conversion_insights", arguments)]: the body above
    under the [except Exception] handler of [call_tool]. *)
Definition call_tool_get_conversion_insights
    (ACCOUNTS : list Account.t) (PREDICTION_LOGS : list log_entry)
    (arguments : gmap string pyobj)
  : list TextContent * list log_entry :=
  match get_conversion_insights ACCOUNTS PREDICTION_LOGS arguments with
  | Ok response => response
  | Raise e =>
      ([ mk_text "text"
           (JObj [ ("error", JStr (exn_str e));
                   ("tool", JStr "get_conversion_insights") ]) ],
       PREDICTION_LOGS)
  end.

End Gateway.

End Server.

(** ** The data model and the tables of the specification *)

Module Spec.

(** A count signal: absent, or an [int >= 0]. *)
Definition count_ok (bag : gmap string pyobj) (k : string) : Prop :=
  match bag !! k with
  | None => True
  | Some (VInt n) => 0 <= n
  | Some _ => False
  end.

(** A boolean signal: absent, or a [bool]. *)
Definition bool_ok (bag : gmap string pyobj) (k : string) : Prop :=
  match bag !! k with
  | None | Some (VBool _) => True
  | Some _ => False
  end.

(** [email_engagement_score]: absent, or a number in [[0, 100]]. *)
Definition email_ok (bag : gmap string pyobj) : Prop :=
  match bag !! "email_engagement_score" with
  | None => True
  | Some (VInt n) => 0 <= n <= 100
  | Some (VFloat f) => (0 <=? f)%float = true /\ (f <=? 100)%float = true
  | Some _ => False
  end.

(** [nps_score]: absent, null, or an [int] in [[0, 10]]. *)
Definition nps_ok (bag : gmap string pyobj) : Prop :=
  match bag !! "nps_score" with
  | None | Some VNone => True
  | Some (VInt n) => 0 <= n <= 10
  | Some _ => False
  end.

(** A well-typed signals bag of a lead. *)
Definition signals_ok (signals : gmap string pyobj) : Prop :=
  count_ok signals "website_visits_30d" /\
  count_ok signals "whitepaper_downloads" /\
  email_ok signals /\
  bool_ok signals "demo_requested" /\
  bool_ok signals "free_trial_started" /\
  bool_ok signals "linkedin_engagement".

(** A well-typed usage-signals bag of an account. *)
Definition usage_ok (usage : gmap string pyobj) : Prop :=
  count_ok usage "daily_active_users" /\
  count_ok usage "features_adopted" /\
  count_ok usage "api_calls_per_day" /\
  count_ok usage "support_tickets_30d" /\
  nps_ok usage /\
  count_ok usage "login_frequency_7d".

(** The value of a count signal, [0] when it is absent. *)
Definition count (bag : gmap string pyobj) (k : string) : Z :=
  match bag !! k with
  | Some (VInt n) => n
  | _ => 0
  end.

(** An [int] the interpreter converts to text: one of at most 4300 digits. *)
Definition printable (n : Z) : Prop := Z.abs n < 10 ^ INT_MAX_STR_DIGITS.

(** The counts the engagement summary of a trial prints are printable. *)
Definition printable_usage (usage : gmap string pyobj) : Prop :=
  printable (count usage "daily_active_users") /\
  printable (count usage "features_adopted") /\
  printable (count usage "api_calls_per_day").

(** The NPS score, when there is one. *)
Definition nps (bag : gmap string pyobj) : option Z :=
  match bag !! "nps_score" with
  | Some (VInt n) => Some n
  | _ => None
  end.

(** *** The churn table: points and factor text of each signal *)

Definition dau_risk (dau : Z) : Z * list string :=
  if dau <? 5 then (30, ["Very low daily active users"])
  else if dau <? 10 then (15, ["Low daily active users"])
  else (0, []).

Definition nps_risk (nps : option Z) : Z * list string :=
  match nps with
  | None => (0, [])
  | Some n =>
      if n <=? 4 then (25, ["Low NPS score (detractor)"])
      else if n <=? 6 then (10, ["Below-average NPS"])
      else (0, [])
  end.

Definition tickets_risk (tickets : Z) : Z * list string :=
  if 5 <? tickets then (20, ["High support ticket volume"])
  else if 3 <? tickets then (10, ["Elevated support tickets"])
  else (0, []).

Definition login_risk (login : Z) : Z * list string :=
  if login <? 5 then (15, ["Declining login frequency"]) else (0, []).

Definition features_risk (features : Z) : Z * list string :=
  if features <? 3 then (10, ["Low feature adoption"]) else (0, []).

Definition churn_bands (usage : gmap string pyobj) : list (Z * list string) :=
  [ dau_risk (count usage "daily_active_users");
    nps_risk (nps usage);
    tickets_risk (count usage "support_tickets_30d");
    login_risk (count usage "login_frequency_7d");
    features_risk (count usage "features_adopted") ].

(** The additive risk: the sum of the points of the bands that fire. *)
Definition churn_points (usage : gmap string pyobj) : Z :=
  foldr Z.add 0 (map fst (churn_bands usage)).

(** The factor texts of the bands that fire, in rule order. *)
Definition churn_factors (usage : gmap string pyobj) : list string :=
  concat (map snd (churn_bands usage)).

Definition churn_tier (points : Z) : string :=
  if 70 <=? points then "critical"
  else if 50 <=? points then "high"
  else if 30 <=? points then "medium"
  else "low".

(** *** The conversion table, in hundredths *)

Definition band (v t1 t2 t3 b1 b2 b3 : Z) : Z :=
  if t1 <=? v then b1 else if t2 <=? v then b2 else if t3 <=? v then b3 else 0.

Definition dau_bonus (usage : gmap string pyobj) : Z :=
  band (count usage "daily_active_users") 15 10 5 30 20 10.
Definition features_bonus (usage : gmap string pyobj) : Z :=
  band (count usage "features_adopted") 5 3 2 25 15 5.
Definition api_bonus (usage : gmap string pyobj) : Z :=
  band (count usage "api_calls_per_day") 300 150 50 20 10 5.
Definition login_bonus (usage : gmap string pyobj) : Z :=
  band (count usage "login_frequency_7d") 14 10 5 25 15 5.

(** The conversion probability in percent: the sum of the four bonuses. *)
Definition conversion_percent (usage : gmap string pyobj) : Z :=
  dau_bonus usage + features_bonus usage + api_bonus usage + login_bonus usage.

(** The tier the thresholds assign to a probability given in percent. *)
Definition percent_tier (percent : Z) : string :=
  if 70 <=? percent then "high"
  else if 40 <=? percent then "medium"
  else "low".

(** *** The engagement summary and the advice of a trial *)

(** The summary lines, from the counts: one for each of the three signals
    that reaches its mark, in this order, with the count in decimal. *)
Definition engagement_summary (usage : gmap string pyobj) : list string :=
  (if 10 <=? count usage "daily_active_users"
   then ["Strong daily usage (" +:+ pretty (count usage "daily_active_users") +:+
         " DAU)"]
   else []) ++
  (if 3 <=? count usage "features_adopted"
   then ["Good feature adoption (" +:+ pretty (count usage "features_adopted") +:+
         " features)"]
   else []) ++
  (if 150 <=? count usage "api_calls_per_day"
   then ["Active API integration (" +:+ pretty (count usage "api_calls_per_day") +:+
         " calls/day)"]
   else []).

(** The two recommended actions of a probability tier. *)
Definition advice (tier : string) : list string :=
  if String.eqb tier "high" then
    [ "Send upgrade prompt with success stories";
      "Offer onboarding call to ensure success" ]
  else if String.eqb tier "medium" then
    [ "Provide feature tutorial to drive adoption";
      "Share case study from similar customer" ]
  else
    [ "Increase engagement with personalized outreach";
      "Identify and remove adoption blockers" ].

(** *** Impact labels *)





(** *** Interventions *)

Definition REVIEW : string := "Schedule executive business review to address concerns".
Definition TRAINING : string := "Provide personalized onboarding/training session".
Definition FEATURES : string := "Demonstrate advanced features relevant to their use case".
Definition UPSELL : string := "Explore upsell to Professional tier with more features".

(** [needle] occurs in [s]. *)
Definition substring (needle s : string) : Prop :=
  exists pre post, s = pre +:+ needle +:+ post.

(** Some declining signal contains one of the [needles]. *)
Definition mentions (needles : list string) (factors : list string) : Prop :=
  exists factor needle, factor ∈ factors /\ needle ∈ needles /\ substring needle factor.

(** *** Results up to the clock *)

Definition lead_at (now : string) (r : PredictionResult.t) : PredictionResult.t :=
  PredictionResult.mk (PredictionResult.score r) (PredictionResult.tier r)
    (PredictionResult.feature_attributions r) (PredictionResult.explanation r)
    (PredictionResult.model_version r) now.

Definition churn_at (now : string) (r : ChurnResult.t) : ChurnResult.t :=
  ChurnResult.mk (ChurnResult.account_id r) (ChurnResult.company r)
    (ChurnResult.risk_score r) (ChurnResult.risk_tier r)
    (ChurnResult.declining_signals r) (ChurnResult.suggested_interventions r)
    (ChurnResult.model_version r) now.

Definition conversion_at (now : string) (r : ConversionResult.t) : ConversionResult.t :=
  ConversionResult.mk (ConversionResult.account_id r) (ConversionResult.company r)
    (ConversionResult.trial_day r) (ConversionResult.conversion_probability r)
    (ConversionResult.probability_tier r) (ConversionResult.key_engagement_signals r)
    (ConversionResult.recommended_actions r) (ConversionResult.model_version r) now.

Definition map_result {A B : Type} (f : A -> B) (m : result A) : result B :=
  match m with
  | Ok a => Ok (f a)
  | Raise e => Raise e
  end.

End Spec.

(** ** Example inputs *)

Module Examples.

(** The hot lead of the test suite. *)
Definition hot_signals : gmap string pyobj :=
  list_to_map
    [ ("website_visits_30d", VInt 60);
      ("demo_requested", VBool true);
      ("whitepaper_downloads", VInt 5);
      ("email_engagement_score", VInt 90);
      ("linkedin_engagement", VBool true);
      ("free_trial_started", VBool true) ].

(** The at-risk account of the test suite. *)
Definition at_risk_usage : gmap string pyobj :=
  list_to_map
    [ ("daily_active_users", VInt 3);
      ("features_adopted", VInt 2);
      ("support_tickets_30d", VInt 8);
      ("nps_score", VInt 3);
      ("login_frequency_7d", VInt 2) ].

Definition at_risk_account : Account.t :=
  Account.mk "acc_test" "AtRisk Co" "professional" at_risk_usage.

(** The active trial of the test suite. *)
Definition active_trial_usage : gmap string pyobj :=
  list_to_map
    [ ("daily_active_users", VInt 20);
      ("features_adopted", VInt 6);
      ("api_calls_per_day", VInt 500);
      ("login_frequency_7d", VInt 18) ].

Definition active_trial : Account.t :=
  Account.mk "acc_trial" "ActiveTrial Co" "trial" active_trial_usage.

(** A trial whose bonuses add up to forty hundredths: 0.30 + 0.05 + 0.05. *)
Definition forty_percent_usage : gmap string pyobj :=
  list_to_map
    [ ("daily_active_users", VInt 15);
      ("features_adopted", VInt 2);
      ("api_calls_per_day", VInt 50);
      ("login_frequency_7d", VInt 0) ].

Definition forty_percent_trial : Account.t :=
  Account.mk "acc_forty" "Forty Co" "trial" forty_percent_usage.

(** Two log entries stamped half a second apart, as [store_prediction_log]
    stamps them, with [datetime.utcnow().isoformat() + "Z"]: the first on
    the second, the other 500000 microseconds later. *)
Definition logged_on_the_second : log_entry :=
  mk_log "log_a" "2024-11-01T00:00:00Z" "lead_score" JNull JNull "v1.2.3".

Definition logged_half_a_second_later : log_entry :=
  mk_log "log_b" "2024-11-01T00:00:00.500000Z" "lead_score" JNull JNull "v1.2.3".

(** A lead whose visit count is beyond the range of doubles. *)
Definition huge_visits : gmap string pyobj :=
  {[ "website_visits_30d" := VInt (50 * 2 ^ 1024) ]}.

(** A lead whose weighted score, 20 + 0.4 * (99.975 * 0.30) + 18 + 20, is
    just below the cut-off 70. *)
Definition just_below_hot : gmap string pyobj :=
  list_to_map
    [ ("email_engagement_score", VFloat 99.975%float);
      ("linkedin_engagement", VBool true) ].

End Examples.

(** ** Magnitudes of binary64 numbers, for the rounding lemmas *)

Module Binary64.

(** A non-negative finite double is a multiple of [2^-1074]: its magnitude
    in these units.  [+inf] is given the first magnitude no finite double
    has. *)
Definition INF : Z := 2 ^ 2098.

Definition ulps (x : spec_float) : Z :=
  match x with
  | S754_finite false m e => Z.pos m * 2 ^ (e + 1074)
  | S754_infinity false => INF
  | _ => 0
  end.

(** Zeros, positive finite numbers and [+inf]. *)
Definition nonneg (x : spec_float) : bool :=
  match x with
  | S754_zero _ | S754_finite false _ _ | S754_infinity false => true
  | _ => false
  end.

(** Zeros and positive finite numbers. *)
Definition nonneg_finite (x : spec_float) : bool :=
  match x with
  | S754_zero _ | S754_finite false _ _ => true
  | _ => false
  end.

(** The double with mantissa [m] at exponent [e], renormalised when the
    mantissa has reached [2^53], and [+inf] beyond the largest exponent. *)
Definition pack (m e : Z) : spec_float :=
  if m =? 0 then S754_zero false
  else
    let '(m', e') := if m =? 2 ^ 53 then (2 ^ 52, e + 1) else (m, e) in
    if e' <=? 971 then S754_finite false (Z.to_pos m') e'
    else S754_infinity false.

(** Rounding to binary64 of the exact magnitude [X], given in units of
    [2^-2148], to a magnitude in units of [2^-1074]: the mantissa keeps 53
    bits (fewer below the normal range), nearest, ties to even. *)
Definition round_ulps (X : Z) : Z :=
  let E := Z.max (Zdigits2 X - 53) 1074 in
  round_half_even_div X (2 ^ E) * 2 ^ (E - 1074).

(** [lo <= x <= hi] on doubles. *)
Definition within (lo hi x : float) : Prop :=
  (lo <=? x)%float = true /\ (x <=? hi)%float = true.

(** Interval endpoints: finite and not negative. *)
Definition endpoint (x : float) : bool := nonneg_finite (Prim2SF x).

End Binary64.

(** ** [data_store.py]: leads and reading the prediction log *)

Module Lead.
Record t := mk {
  id : string;
  company : string;
  industry : string;
  employee_count : pyobj;
  signals : gmap string pyobj
}.
End Lead.

Module PredictionLog.

(** Retrieve lead by ID. *)
Definition get_lead (LEADS : list Lead.t) (lead_id : pyobj) : option Lead.t :=
  List.find (fun lead => str_eq_obj (Lead.id lead) lead_id) LEADS.

(** Retrieve all accounts. *)
Definition get_all_accounts (ACCOUNTS : list Account.t) : list Account.t :=
  ACCOUNTS.

(** The dictionary [store_prediction_log] returns after the append. *)
Definition store_prediction_log_receipt (uuid now : string) : json :=
  JObj [ ("log_id", JStr uuid);
         ("timestamp", JStr now);
         ("stored_successfully", JBool true) ].

(** Get count of predictions: [len(PREDICTION_LOGS)]. *)
Definition get_prediction_count_24h (PREDICTION_LOGS : list log_entry) : Z :=
  Z.of_nat (length PREDICTION_LOGS).

(** [sorted(logs, key=lambda x: x["timestamp"], reverse=True)]: the sort is
    stable, also when reversed, so an entry goes in front of the entries
    after it whose timestamp is not larger.  Strings compare by code
    points. *)
Fixpoint insert_desc (x : log_entry) (l : list log_entry) : list log_entry :=
  match l with
  | [] => [x]
  | y :: l' =>
      if String.ltb (log_timestamp x) (log_timestamp y)
      then y :: insert_desc x l'
      else x :: l
  end.

Definition sorted_desc (l : list log_entry) : list log_entry :=
  foldr insert_desc [] l.

(** The timestamp of [a], as text, is not below the timestamp of [b] in
    code-point order.  This is the order in time of the two entries only
    between texts of the same form: [isoformat()] leaves the fraction out at a
    whole second, and ["Z"] sorts after ["."]. *)
Definition timestamp_not_below (a b : log_entry) : Prop :=
  String.ltb (log_timestamp a) (log_timestamp b) = false.

(** The slice [l[:limit]]: a negative [limit] counts from the end. *)
Definition slice_to {A : Type} (limit : Z) (l : list A) : list A :=
  if 0 <=? limit then take (Z.to_nat limit) l
  else take (Z.to_nat (Z.of_nat (length l) + limit)) l.

(** Retrieve prediction logs, optionally filtered by type, by descending
    timestamp text.  The filter applies when [prediction_type] is truthy:
    neither [None] nor the empty string. *)
Definition get_prediction_logs
    (PREDICTION_LOGS : list log_entry) (prediction_type : option string)
    (limit : Z) : list log_entry :=
  let logs := PREDICTION_LOGS in
  let logs :=
    match prediction_type with
    | Some t =>
        if String.eqb t "" then logs
        else List.filter (fun log => String.eqb (DataStore.prediction_type log) t) logs
    | None => logs
    end in
  let logs := sorted_desc logs in
  slice_to limit logs.

End PredictionLog.
Import PredictionLog.

(** ** [config.py]: model metadata *)

Module Metadata.

Definition TRAINING_DATE : string := "2024-10-15".

(** Model performance metrics (from last evaluation). *)
Definition MODEL_PERFORMANCE_TABLE : list (string * float) :=
  [ ("accuracy", 0.89%float);
    ("precision", 0.85%float);
    ("recall", 0.82%float);
    ("f1_score", 0.83%float);
    ("roc_auc", 0.91%float) ].

Definition MODEL_PERFORMANCE_METRICS : gmap string float :=
  list_to_map MODEL_PERFORMANCE_TABLE.

(** Feature importance (from training). *)
Definition FEATURE_IMPORTANCE : list (string * float) :=
  [ ("email_engagement_score", 0.25%float);
    ("website_visits", 0.18%float);
    ("demo_requested", 0.15%float);
    ("employee_count", 0.12%float);
    ("free_trial_started", 0.10%float);
    ("whitepaper_downloads", 0.08%float);
    ("linkedin_engagement", 0.07%float);
    ("industry_fit", 0.05%float) ].

Definition json_of_table (table : list (string * float)) : json :=
  JObj (map (fun kv => (kv.1, JFloat kv.2)) table).

End Metadata.
Import Metadata.

(** ** [server.py]: [read_resource] and two more arms of [call_tool] *)

Module Resources.

(** [s.replace(old, new)]: every occurrence of [old], found from left to
    right without overlap, becomes [new].  [skip] counts the characters of
    an occurrence still to be passed over.  With an empty [old], [new] goes
    before every character and at the end. *)
Fixpoint replace_from (old new : string) (skip : nat) (s : string) : string :=
  match s with
  | EmptyString => EmptyString
  | String c s' =>
      match skip with
      | S k => replace_from old new k s'
      | O =>
          if String.prefix old s
          then new +:+ replace_from old new (String.length old - 1) s'
          else String c (replace_from old new O s')
      end
  end.

Fixpoint intersperse (new s : string) : string :=
  match s with
  | EmptyString => new
  | String c s' => new +:+ String c (intersperse new s')
  end.

Definition str_replace (s old new : string) : string :=
  match old with
  | EmptyString => intersperse new s
  | _ => replace_from old new O s
  end.

(** The document a resource serialises with [json.dumps]. *)
Inductive resource :=
| AccountList (accounts : list Account.t)
| AccountDoc (account : Account.t)
| LeadDoc (lead : Lead.t)
| MetadataDoc (metadata : json).

(** Read a specific resource by URI.  Nothing catches the [ValueError]s. *)
Definition read_resource
    (ACCOUNTS : list Account.t) (LEADS : list Lead.t)
    (PREDICTION_LOGS : list log_entry) (uri : string) : result resource :=
  if String.prefix "crm://accounts/" uri then
    let account_id := str_replace uri "crm://accounts/" "" in
    if String.eqb account_id "list" then
      (* Return all accounts *)
      Ok (AccountList (get_all_accounts ACCOUNTS))
    else
      match get_account ACCOUNTS (VStr account_id) with
      | None => Raise (ValueError ("Account not found: " +:+ account_id))
      | Some account => Ok (AccountDoc account)
      end
  else if String.prefix "crm://leads/" uri then
    let lead_id := str_replace uri "crm://leads/" "" in
    match get_lead LEADS (VStr lead_id) with
    | None => Raise (ValueError ("Lead not found: " +:+ lead_id))
    | Some lead => Ok (LeadDoc lead)
    end
  else if String.eqb uri "models://lead_scorer/metadata" then
    (* Calculate drift status (simplified) *)
    let prediction_count := get_prediction_count_24h PREDICTION_LOGS in
    let drift_status :=
      if prediction_count <? 1000 then "normal" else "warning" in
    Ok (MetadataDoc
          (JObj [ ("model_version", JStr MODEL_VERSION);
                  ("training_date", JStr TRAINING_DATE);
                  ("performance_metrics", json_of_table MODEL_PERFORMANCE_TABLE);
                  ("feature_importance", json_of_table FEATURE_IMPORTANCE);
                  ("drift_status", JStr drift_status) ]))
  else Raise (ValueError ("Unknown resource URI: " +:+ uri)).

End Resources.
Import Resources.

Module Tools.

Definition json_of_churn (r : ChurnResult.t) : json :=
  JObj
    [ ("account_id", JStr (ChurnResult.account_id r));
      ("company", JStr (ChurnResult.company r));
      ("risk_score", JFloat (ChurnResult.risk_score r));
      ("risk_tier", JStr (ChurnResult.risk_tier r));
      ("declining_signals", JList (map JStr (ChurnResult.declining_signals r)));
      ("suggested_interventions",
        JList (map JStr (ChurnResult.suggested_interventions r)));
      ("model_version", JStr (ChurnResult.model_version r));
      ("timestamp", JStr (ChurnResult.timestamp r)) ].

Section Arms.

Variable float_repr : float -> string.
(** [str(e)]: the interpreter's message for an exception. *)
Variable exn_str : exn -> string.
(** The clock readings and the identifier drawn while the call runs. *)
Variables now log_now uuid : string.

(** The body of the [try] block for [name == "detect_churn_risk"]: the
    response and the prediction log after the call. *)
Definition detect_churn_risk_arm
    (ACCOUNTS : list Account.t) (PREDICTION_LOGS : list log_entry)
    (arguments : gmap string pyobj)
  : result (list Server.TextContent * list log_entry) :=
  let* account_id := dict_item arguments "account_id" in
  match get_account ACCOUNTS account_id with
  | None =>
      Raise (ValueError ("Account not found: " +:+
                         Scoring.py_str float_repr account_id))
  | Some account =>
      let* result := Scoring.detect_churn_risk now account in
      (* Log the prediction *)
      let logs :=
        store_prediction_log uuid log_now PREDICTION_LOGS "churn_risk"
          (JObj [("account_id", json_of_obj account_id)])
          (json_of_churn result) MODEL_VERSION in
      Ok ([ Server.mk_text "text" (json_of_churn result) ], logs)
  end.

(** [call_tool("detect_churn_risk", arguments)]: the body above under the
    [except Exception] handler of [call_tool]. *)
Definition call_tool_detect_churn_risk
    (ACCOUNTS : list Account.t) (PREDICTION_LOGS : list log_entry)
    (arguments : gmap string pyobj)
  : list Server.TextContent * list log_entry :=
  match detect_churn_risk_arm ACCOUNTS PREDICTION_LOGS arguments with
  | Ok response => response
  | Raise e =>
      ([ Server.mk_text "text"
           (JObj [ ("error", JStr (exn_str e));
                   ("tool", JStr "detect_churn_risk") ]) ],
       PREDICTION_LOGS)
  end.

(** The arm for [name == "check_model_health"]; [uptime_seconds] is
    [(datetime.utcnow() - SERVER_START_TIME).total_seconds()].  The log is
    read, not written. *)
Definition check_model_health
    (uptime_seconds : float) (PREDICTION_LOGS : list log_entry)
  : list Server.TextContent :=
  let uptime_hours := (uptime_seconds / 3600)%float in
  let prediction_count := get_prediction_count_24h PREDICTION_LOGS in
  (* Simple drift detection (would compare distributions in production) *)
  let drift_detected := 1000 <? prediction_count in
  [ Server.mk_text "text"
      (JObj [ ("model_version", JStr MODEL_VERSION);
              ("uptime_hours", JFloat (py_round uptime_hours 2));
              ("prediction_count_24h", JInt prediction_count);
              ("drift_detected", JBool drift_detected);
              ("accuracy_last_7d", JFloat (MODEL_PERFORMANCE_METRICS !!! "accuracy"));
              ("performance_metrics", json_of_table MODEL_PERFORMANCE_TABLE);
              ("alerts",
                JList (if drift_detected
                       then [JStr "High prediction volume - monitoring for drift"]
                       else [])) ]) ].

End Arms.

End Tools.

(** ** Reading a response document *)

Module Doc.

(** The value a serialised object holds for a key. *)
Definition json_field (k : string) (doc : json) : option json :=
  match doc with
  | JObj fields =>
      match List.find (fun kv => String.eqb kv.1 k) fields with
      | Some kv => Some kv.2
      | None => None
      end
  | _ => None
  end.

(** The document of a response that is a single text content. *)
Definition document (response : list Server.TextContent) : option json :=
  match response with
  | [content] => Some (Server.text content)
  | _ => None
  end.

End Doc.

(** ** Orders on the outcomes, to compare two calls *)

Module Rank.

Definition lead_tier_rank (tier : string) : Z :=
  if String.eqb tier "hot" then 2 else if String.eqb tier "warm" then 1 else 0.

Definition risk_tier_rank (tier : string) : Z :=
  if String.eqb tier "critical" then 3
  else if String.eqb tier "high" then 2
  else if String.eqb tier "medium" then 1 else 0.

Definition probability_tier_rank (tier : string) : Z :=
  if String.eqb tier "high" then 2 else if String.eqb tier "medium" then 1 else 0.

(** The keys [score_lead] reads in a signals bag. *)
Definition LEAD_KEYS : list string :=
  [ "website_visits_30d"; "email_engagement_score"; "demo_requested";
    "free_trial_started"; "whitepaper_downloads"; "linkedin_engagement" ].

(** The keys [detect_churn_risk] reads in the usage signals. *)
Definition CHURN_KEYS : list string :=
  [ "daily_active_users"; "nps_score"; "support_tickets_30d";
    "login_frequency_7d"; "features_adopted" ].

(** The keys [calculate_conversion_probability] reads in the usage signals. *)
Definition CONVERSION_KEYS : list string :=
  [ "daily_active_users"; "features_adopted"; "api_calls_per_day";
    "login_frequency_7d" ].

(** [usage'] is at least as healthy as [usage], signal by signal: not fewer
    daily users, logins and features, not more tickets, and an NPS that is
    absent or not lower. *)
Definition healthier (usage usage' : gmap string pyobj) : Prop :=
  Spec.count usage "daily_active_users" <= Spec.count usage' "daily_active_users" /\
  Spec.count usage "login_frequency_7d" <= Spec.count usage' "login_frequency_7d" /\
  Spec.count usage "features_adopted" <= Spec.count usage' "features_adopted" /\
  Spec.count usage' "support_tickets_30d" <= Spec.count usage "support_tickets_30d" /\
  match Spec.nps usage' with
  | None => True
  | Some n' => match Spec.nps usage with Some n => n <= n' | None => False end
  end.

(** [usage'] shows at least as much use as [usage] in the four signals of
    the conversion model. *)
Definition more_active (usage usage' : gmap string pyobj) : Prop :=
  Spec.count usage "daily_active_users" <= Spec.count usage' "daily_active_users" /\
  Spec.count usage "features_adopted" <= Spec.count usage' "features_adopted" /\
  Spec.count usage "api_calls_per_day" <= Spec.count usage' "api_calls_per_day" /\
  Spec.count usage "login_frequency_7d" <= Spec.count usage' "login_frequency_7d".

(** [signals'] shows at least as much engagement as [signals]: the same
    visits and downloads, an integer email score that is not lower, and
    every flag that is set in [signals] set in [signals'] too. *)
Definition flag (signals : gmap string pyobj) (k : string) : bool :=
  truthy (dict_get signals k (VBool false)).

Definition no_less_engaged (signals signals' : gmap string pyobj) : Prop :=
  signals' !! "website_visits_30d" = signals !! "website_visits_30d" /\
  signals' !! "whitepaper_downloads" = signals !! "whitepaper_downloads" /\
  Spec.count_ok signals "email_engagement_score" /\
  Spec.count_ok signals' "email_engagement_score" /\
  Spec.count signals "email_engagement_score" <=
    Spec.count signals' "email_engagement_score" /\
  (flag signals "demo_requested" = true -> flag signals' "demo_requested" = true) /\
  (flag signals "free_trial_started" = true ->
   flag signals' "free_trial_started" = true) /\
  (flag signals "linkedin_engagement" = true ->
   flag signals' "linkedin_engagement" = true).

(** Two doubles in order within an interval. *)
Definition ordered (lo hi x x' : float) : Prop :=
  Binary64.within lo hi x /\ Binary64.within lo hi x' /\ (x <=? x')%float = true.

(** [round(x, 2)] of the double nearest to [N / 100]. *)
Definition hundredths (N : Z) : float :=
  SF2Prim (SFdiv prec emax (signed_int false N) (exact_int (10 ^ 2))).

(** The band a signal reaches among three thresholds, from 3 (the highest)
    down to 0 (none), and the probability the bands of the four signals add
    up to, in the order of the source. *)
Definition BANDS : list Z := [0; 1; 2; 3].

Definition band_index (v t1 t2 t3 : Z) : Z :=
  if t1 <=? v then 3 else if t2 <=? v then 2 else if t3 <=? v then 1 else 0.

Definition add_bonus (b1 b2 b3 : float) (i : Z) (probability : float) : float :=
  if i =? 3 then (probability + b1)%float
  else if i =? 2 then (probability + b2)%float
  else if i =? 1 then (probability + b3)%float
  else probability.

Definition probability_of_bands (dau features api login : Z) : float :=
  add_bonus 0.25 0.15 0.05 login
    (add_bonus 0.20 0.10 0.05 api
       (add_bonus 0.25 0.15 0.05 features
          (add_bonus 0.30 0.20 0.10 dau 0.0))).

(** The order between two combinations of bands, as a check that can be
    evaluated: when the first is below the second band by band, so are the
    rounded probabilities and the tiers. *)
Definition conversion_order_check (a b c d a' b' c' d' : Z) : bool :=
  implb ((a <=? a') && (b <=? b') && (c <=? c') && (d <=? d'))
    ((py_round (probability_of_bands a b c d) 3 <=?
      py_round (probability_of_bands a' b' c' d') 3)%float &&
     (probability_tier_rank
        (Scoring.get_probability_tier (probability_of_bands a b c d)) <=?
      probability_tier_rank
        (Scoring.get_probability_tier (probability_of_bands a' b' c' d')))).

End Rank.

(** ** Dictionaries as objects: two calls in one process

    A Python dictionary is an object.  A list holds references to it, and an
    assignment to one of its keys is seen through every reference.
    [score_lead] relies on this: it rescales the ["contribution"] of the
    dictionaries that [calculate_engagement_score] and
    [calculate_intent_score] have just built, in place, and returns these same
    objects in its attribution list.  The signals bag it is given is an
    object of the caller as well.

    Here the dictionaries of a process live in a heap, an engine receives
    its bag as a reference into the heap, and a call leaves a heap behind on
    which the next call runs.  The values computed are those of the
    functions of [Scoring] applied to the contents of the bag. *)

Module Objects.

Local Open Scope float_scope.

(** The address of a dictionary. *)
Definition ref : Type := nat.

(** The dictionaries allocated so far, by address. *)
Definition heap : Type := list (gmap string pyobj).

(** The dictionary at an address. *)
Definition deref (h : heap) (r : ref) : gmap string pyobj := default ∅ (h !! r).

(** A computation on the heap: its outcome, and the heap it leaves, also
    when it raises. *)
Definition run (A : Type) : Type := heap -> result A * heap.

Definition ret {A : Type} (a : A) : run A := fun h => (Ok a, h).

(** A computation that does not touch the heap. *)
Definition lift {A : Type} (m : result A) : run A := fun h => (m, h).

Definition bind {A B : Type} (m : run A) (k : A -> run B) : run B :=
  fun h =>
    match m h with
    | (Ok a, h') => k a h'
    | (Raise e, h') => (Raise e, h')
    end.

Notation "'let!' x := m 'in' k" := (bind m (fun x => k))
  (at level 10, x pattern, m at level 200, k at level 200, only parsing).

(** A dictionary display [{...}]: a new object, at the next address. *)
Definition new (d : gmap string pyobj) : run ref :=
  fun h => (Ok (length h), h ++ [d]).

(** [d.get(k, dflt)] through a reference. *)
Definition get (d : ref) (k : string) (dflt : pyobj) : run pyobj :=
  fun h => (Ok (dict_get (deref h d) k dflt), h).

(** [d[k]] through a reference. *)
Definition item (d : ref) (k : string) : run pyobj :=
  fun h => (dict_item (deref h d) k, h).

(** [d[k] = v] through a reference: the object is updated where it is. *)
Definition set_item (d : ref) (k : string) (v : pyobj) : run unit :=
  fun h => (Ok tt, alter (insert k v) d h).

(** The whole dictionary, for a function that only reads it. *)
Definition read (d : ref) : run (gmap string pyobj) :=
  fun h => (Ok (deref h d), h).

(** The dictionary of one feature attribution. *)
Definition attribution
    (feature_name : string) (contribution : float) (value : pyobj)
    (impact : string) : gmap string pyobj :=
  <[ "feature_name" := VStr feature_name ]>
    (<[ "contribution" := VFloat contribution ]>
       (<[ "value" := value ]> {[ "impact" := VStr impact ]})).

(** Calculate engagement score based on lead signals: the score and the
    references to the attribution dictionaries it has built. *)
Definition calculate_engagement_score (signals : ref)
  : run (float * list ref) :=
  let attributions : list ref := [] in
  (* Website visits (0-100 scale, cap at 50 visits = 100) *)
  let! website_visits := get signals "website_visits_30d" (VInt 0) in
  let! q := lift (truediv website_visits (VInt 50)) in
  let website_score := py_min 100 (q * 100) in
  let! positive := lift (gt_int website_visits 20) in
  let! a :=
    new (attribution "website_visits_30d" 25.0 website_visits
           (if positive then "positive" else "neutral")) in
  let attributions := attributions ++ [a] in
  (* Email engagement (0-100 scale) *)
  let! email_score := get signals "email_engagement_score" (VInt 0) in
  let! positive := lift (gt_int email_score 60) in
  let! a :=
    new (attribution "email_engagement_score" 30.0 email_score
           (if positive then "positive" else "neutral")) in
  let attributions := attributions ++ [a] in
  (* Demo requested (binary, worth 20 points) *)
  let! demo_requested := get signals "demo_requested" (VBool false) in
  let demo_score := if truthy demo_requested then 100 else 0 in
  let! a :=
    new (attribution "demo_requested" 20.0 demo_requested
           (if truthy demo_requested then "positive" else "negative")) in
  let attributions := attributions ++ [a] in
  (* Free trial started (binary, worth 15 points) *)
  let! trial_started := get signals "free_trial_started" (VBool false) in
  let trial_score := if truthy trial_started then 100 else 0 in
  let! a :=
    new (attribution "free_trial_started" 15.0 trial_started
           (if truthy trial_started then "positive" else "neutral")) in
  let attributions := attributions ++ [a] in
  (* Whitepaper downloads (cap at 5 = 100) *)
  let! whitepaper_downloads := get signals "whitepaper_downloads" (VInt 0) in
  let! q := lift (truediv whitepaper_downloads (VInt 5)) in
  let whitepaper_score := py_min 100 (q * 100) in
  let! positive := lift (gt_int whitepaper_downloads 2) in
  let! a :=
    new (attribution "whitepaper_downloads" 10.0 whitepaper_downloads
           (if positive then "positive" else "neutral")) in
  let attributions := attributions ++ [a] in
  (* Calculate weighted average *)
  let! email := lift (float_of email_score) in
  let total_score :=
    website_score * 0.25 +
    email * 0.30 +
    demo_score * 0.20 +
    trial_score * 0.15 +
    whitepaper_score * 0.10 in
  ret (total_score, attributions).

(** Calculate intent/buying signal score. *)
Definition calculate_intent_score (signals : ref) : run (Z * list ref) :=
  let attributions : list ref := [] in
  (* LinkedIn engagement (binary) *)
  let! linkedin := get signals "linkedin_engagement" (VBool false) in
  let linkedin_score := if truthy linkedin then 100%Z else 40%Z in
  let! a :=
    new (attribution "linkedin_engagement" 100.0 linkedin
           (if truthy linkedin then "positive" else "neutral")) in
  let attributions := attributions ++ [a] in
  ret (linkedin_score, attributions).

(** The loop
    [for attr in attrs:
         attr["contribution"] = attr["contribution"] * w
         all_attributions.append(attr)]. *)
Fixpoint scale_into (w : float) (attrs : list ref) (all_attributions : list ref)
  : run (list ref) :=
  match attrs with
  | [] => ret all_attributions
  | attr :: attrs' =>
      let! c := item attr "contribution" in
      let! c := lift (float_of c) in
      let! _ := set_item attr "contribution" (VFloat (c * w)) in
      scale_into w attrs' (all_attributions ++ [attr])
  end.

(** Generate human-readable explanation for lead score: the function only
    reads [signals], and builds no dictionary. *)
Definition generate_lead_explanation
    (company_name : string) (score : float) (tier : string) (signals : ref)
    (industry : string) (employee_count : pyobj) : run string :=
  let! bag := read signals in
  lift (Scoring.generate_lead_explanation company_name score tier bag industry
          employee_count).

(** The dictionary [score_lead] returns, with its attributions as the list
    holds them ([A] is [ref]) or followed to the dictionaries ([A] is the
    type of dictionaries). *)
Record lead (A : Type) := mk_lead {
  score : float;
  tier : string;
  feature_attributions : list A;
  explanation : string;
  model_version : string;
  timestamp : string
}.
Arguments mk_lead {A}.
Arguments score {A}.
Arguments tier {A}.
Arguments feature_attributions {A}.
Arguments explanation {A}.
Arguments model_version {A}.
Arguments timestamp {A}.

(** Score a lead based on company attributes and engagement signals. *)
Definition score_lead
    (now : string) (company_name : string) (signals : ref)
    (industry : string) (employee_count : pyobj) : run (lead ref) :=
  let! _ := lift (check_str employee_count) in
  let all_attributions : list ref := [] in
  (* 1. Company size score (20% weight) *)
  let! company_size_score := lift (get_company_size_score employee_count) in
  let! a :=
    new (attribution "company_size"
           (LEAD_SCORE_WEIGHTS !!! "company_size" * 100) employee_count
           (if (70 <? company_size_score)%Z then "positive" else "neutral")) in
  let all_attributions := all_attributions ++ [a] in
  (* 2. Engagement signals (40% weight) *)
  let! (engagement_score, engagement_attrs) := calculate_engagement_score signals in
  let! all_attributions :=
    scale_into (LEAD_SCORE_WEIGHTS !!! "engagement_signals") engagement_attrs
      all_attributions in
  (* 3. Industry fit (20% weight) *)
  let industry_score :=
    default (INDUSTRY_FIT_SCORES !!! "default") (INDUSTRY_FIT_SCORES !! industry) in
  let! a :=
    new (attribution "industry_fit"
           (LEAD_SCORE_WEIGHTS !!! "industry_fit" * 100) (VStr industry)
           (if (70 <? industry_score)%Z then "positive" else "neutral")) in
  let all_attributions := all_attributions ++ [a] in
  (* 4. Intent signals (20% weight) *)
  let! (intent_score, intent_attrs) := calculate_intent_score signals in
  let! all_attributions :=
    scale_into (LEAD_SCORE_WEIGHTS !!! "intent_signals") intent_attrs
      all_attributions in
  (* Calculate final weighted score *)
  let final_score :=
    Scoring.weighted_score company_size_score engagement_score industry_score
      intent_score in
  (* Determine tier *)
  let tier := Scoring.lead_tier final_score in
  (* Generate explanation *)
  let! explanation :=
    generate_lead_explanation company_name final_score tier signals industry
      employee_count in
  ret (mk_lead (py_round final_score 2) tier all_attributions explanation
         MODEL_VERSION now).

(** What a reader of the result finds in a heap: every attribution
    reference followed to its dictionary. *)
Definition follow (h : heap) (r : lead ref) : lead (gmap string pyobj) :=
  mk_lead (score r) (tier r) (map (deref h) (feature_attributions r))
    (explanation r) (model_version r) (timestamp r).

(** A result of [Scoring.score_lead], with its attributions as
    dictionaries. *)
Definition dict_of (a : Attribution.t) : gmap string pyobj :=
  attribution (Attribution.feature_name a) (Attribution.contribution a)
    (Attribution.value a) (Attribution.impact a).

Definition shown (r : PredictionResult.t) : lead (gmap string pyobj) :=
  mk_lead (PredictionResult.score r) (PredictionResult.tier r)
    (map dict_of (PredictionResult.feature_attributions r))
    (PredictionResult.explanation r) (PredictionResult.model_version r)
    (PredictionResult.timestamp r).

(** An account whose usage signals are a dictionary of the heap. *)
Record account := mk_account {
  id : string;
  company : string;
  plan : string;
  usage_signals : ref
}.

(** The account as a reader of the heap finds it. *)
Definition account_in (h : heap) (a : account) : Account.t :=
  Account.mk (id a) (company a) (plan a) (deref h (usage_signals a)).

Section Process.

(** The order in which this process iterates over the set built from a
    list of strings.  It follows from the hashes of the strings, which the
    interpreter salts with a seed drawn when it starts: the order is one and
    the same within a process, and another process may have another. *)
Variable set_order : list string -> list string.

Variable float_repr : float -> string.

(** Generate suggested interventions based on risk factors; the last step
    is [list(set(interventions))]. *)
Definition generate_intervention_suggestions
    (risk_factors : list string) (plan : string) : list string :=
  let interventions :=
    foldl (fun interventions factor =>
             interventions ++ Scoring.interventions_of_factor factor)
      [] risk_factors in
  (* Add account-specific suggestions *)
  let interventions :=
    if String.eqb plan "starter"
    then interventions ++ ["Explore upsell to Professional tier with more features"]
    else interventions in
  (* Remove duplicates *)
  set_order interventions.

(** Calculate churn risk for an existing account.  The engine only reads
    the usage signals, and builds no dictionary before its result. *)
Definition detect_churn_risk (now : string) (account_data : account)
  : run ChurnResult.t :=
  let company := company account_data in
  let! usage := read (usage_signals account_data) in
  let! (risk_score, risk_factors) := lift (Scoring.churn_rules usage) in
  (* Determine risk tier *)
  let risk_tier := Scoring.churn_tier risk_score in
  (* Generate intervention suggestions *)
  let interventions :=
    generate_intervention_suggestions risk_factors (plan account_data) in
  ret (ChurnResult.mk (id account_data) company (py_round risk_score 2)
         risk_tier risk_factors interventions MODEL_VERSION now).

(** Calculate probability of trial conversion to paid.  The engine only
    reads the usage signals, and builds no dictionary before its result. *)
Definition calculate_conversion_probability (now : string) (account_data : account)
  : run ConversionResult.t :=
  let! usage := read (usage_signals account_data) in
  lift (Scoring.calculate_conversion_probability float_repr now
          (Account.mk (id account_data) (company account_data)
             (plan account_data) usage)).

End Process.

End Objects.

(** * Properties *)

Import Scoring.
Import Binary64.

(** ** Binary64 rounding *)

Lemma digits2_pos_size p : digits2_pos p = Pos.size p.
Proof. induction p; simpl; congruence. Qed.

Lemma Zdigits2_log2 p : Zdigits2 (Z.pos p) = Z.log2 (Z.pos p) + 1.
Proof.
  unfold Zdigits2. rewrite digits2_pos_size.
  destruct p; simpl; rewrite ?Pos2Z.inj_succ; lia.
Qed.

Lemma Zdigits2_bounds m :
  0 < m -> 2 ^ (Zdigits2 m - 1) <= m < 2 ^ Zdigits2 m.
Proof.
  intros Hm. destruct m as [|p|p]; try lia.
  rewrite Zdigits2_log2.
  pose proof (Z.log2_spec (Z.pos p) Hm) as H.
  replace (Z.log2 (Z.pos p) + 1 - 1) with (Z.log2 (Z.pos p)) by lia.
  replace (Z.log2 (Z.pos p) + 1) with (Z.succ (Z.log2 (Z.pos p))) by lia.
  exact H.
Qed.

Lemma Zdigits2_pos m : 0 < m -> 0 < Zdigits2 m.
Proof. destruct m; simpl; lia. Qed.

Lemma Zdigits2_unique m d :
  2 ^ (d - 1) <= m < 2 ^ d -> 0 < d -> Zdigits2 m = d.
Proof.
  intros [Hlo Hhi] Hd.
  assert (Hm : 0 < m) by (pose proof (Z.pow_pos_nonneg 2 (d - 1)); lia).
  destruct (Zdigits2_bounds m Hm) as [Hlo' Hhi'].
  pose proof (Zdigits2_pos m Hm).
  destruct (Z.lt_trichotomy (Zdigits2 m) d) as [Hlt|[Heq|Hgt]]; [|exact Heq|].
  - assert (2 ^ Zdigits2 m <= 2 ^ (d - 1)) by (apply Z.pow_le_mono_r; lia). lia.
  - assert (2 ^ d <= 2 ^ (Zdigits2 m - 1)) by (apply Z.pow_le_mono_r; lia). lia.
Qed.

Lemma iter_pos_nat {A} (f : A -> A) p x :
  @SpecFloat.iter_pos A f p x = @Nat.iter (Pos.to_nat p) A f x.
Proof.
  revert x. induction p as [p IH|p IH|]; intros x.
  - change (SpecFloat.iter_pos f (xI p) x) with (SpecFloat.iter_pos f p (SpecFloat.iter_pos f p (f x))).
    rewrite !IH, Pos2Nat.inj_xI, Nat.iter_succ_r.
    replace (2 * Pos.to_nat p)%nat with (Pos.to_nat p + Pos.to_nat p)%nat by lia.
    rewrite Nat.iter_add. reflexivity.
  - change (SpecFloat.iter_pos f (xO p) x) with (SpecFloat.iter_pos f p (SpecFloat.iter_pos f p x)).
    rewrite !IH, Pos2Nat.inj_xO.
    replace (2 * Pos.to_nat p)%nat with (Pos.to_nat p + Pos.to_nat p)%nat by lia.
    rewrite Nat.iter_add. reflexivity.
  - reflexivity.
Qed.

Lemma shr_1_nonneg m r s :
  0 <= m ->
  shr_1 (Build_shr_record m r s) = Build_shr_record (m / 2) (Z.odd m) (r || s).
Proof.
  intros Hm. destruct m as [|[p|p|]|]; try lia; simpl; try reflexivity.
  - f_equal. rewrite Pos2Z.inj_xI.
    apply (Z.div_unique _ _ _ 1); lia.
  - f_equal. rewrite Pos2Z.inj_xO.
    apply (Z.div_unique _ _ _ 0); lia.
Qed.

(** The record after [k + 1] one-bit shifts of a mantissa [m]. *)
Lemma shr_iter m r s k :
  0 <= m ->
  @Nat.iter (S k) shr_record shr_1 (Build_shr_record m r s) =
  Build_shr_record (m / 2 ^ Z.of_nat (S k))
    (Z.odd (m / 2 ^ Z.of_nat k))
    (r || s || negb (m mod 2 ^ Z.of_nat k =? 0)).
Proof.
  intros Hm. induction k as [|k IH].
  - unfold Nat.iter; cbn [nat_rect]. rewrite shr_1_nonneg by assumption.
    change (2 ^ Z.of_nat 1) with 2. change (2 ^ Z.of_nat 0) with 1.
    rewrite Z.div_1_r, Z.mod_1_r. simpl. rewrite orb_false_r. reflexivity.
  - rewrite Nat.iter_succ.
    rewrite IH, shr_1_nonneg by (apply Z.div_pos; lia).
    assert (Hp : 0 < 2 ^ Z.of_nat k) by (apply Z.pow_pos_nonneg; lia).
    replace (2 ^ Z.of_nat (S (S k))) with (2 ^ Z.of_nat (S k) * 2)
      by (rewrite (Nat2Z.inj_succ (S k)), Z.pow_succ_r; lia).
    rewrite Z.div_div by lia.
    f_equal.
    replace (2 ^ Z.of_nat (S k)) with (2 ^ Z.of_nat k * 2)
      by (rewrite (Nat2Z.inj_succ k), Z.pow_succ_r; lia).
    (* m mod (2^k * 2) = m mod 2^k + 2^k * ((m / 2^k) mod 2) *)
    rewrite Z.rem_mul_r by lia.
    pose proof (Z.mod_pos_bound m (2 ^ Z.of_nat k) Hp) as Hb.
    set (q := m / 2 ^ Z.of_nat k) in *.
    set (lo := m mod 2 ^ Z.of_nat k) in *.
    rewrite (Zmod_odd q).
    destruct (Z.odd q).
    + replace (lo + 2 ^ Z.of_nat k * 1 =? 0) with false
        by (symmetry; apply Z.eqb_neq; lia).
      destruct r, s; reflexivity.
    + rewrite Z.mul_0_r, Z.add_0_r.
      destruct (lo =? 0); destruct r, s; reflexivity.
Qed.

Lemma shr_nonneg m r s e n :
  0 <= m -> 0 < n ->
  shr (Build_shr_record m r s) e n =
  (Build_shr_record (m / 2 ^ n) (Z.odd (m / 2 ^ (n - 1)))
     (r || s || negb (m mod 2 ^ (n - 1) =? 0)), e + n).
Proof.
  intros Hm Hn. destruct n as [|p|p]; try lia.
  unfold shr. rewrite iter_pos_nat.
  destruct (Pos2Nat.is_succ p) as [k Hk]. rewrite Hk, shr_iter by assumption.
  replace (Z.of_nat (S k)) with (Z.pos p) by lia.
  replace (Z.of_nat k) with (Z.pos p - 1) by lia.
  reflexivity.
Qed.

Lemma fexp_eq e : fexp prec emax e = Z.max (e - 53) (-1074).
Proof. reflexivity. Qed.

(** Shifting an exact mantissa by [n] bits and rounding to nearest even is
    the nearest integer to [m / 2^n], ties to even. *)
Lemma shr_round_nearest_even m e n :
  0 <= m -> 0 < n ->
  let '(mrs, e') := shr (Build_shr_record m false false) e n in
  e' = e + n /\
  round_nearest_even (shr_m mrs) (loc_of_shr_record mrs) =
  round_half_even_div m (2 ^ n).
Proof.
  intros Hm Hn. rewrite shr_nonneg by assumption. split; [reflexivity|].
  cbn [shr_m orb]. unfold round_half_even_div.
  assert (Hp : 0 < 2 ^ (n - 1)) by (apply Z.pow_pos_nonneg; lia).
  assert (H2 : 2 ^ n = 2 ^ (n - 1) * 2).
  { replace n with (n - 1 + 1) at 1 by lia. rewrite Z.pow_add_r by lia. lia. }
  rewrite H2.
  rewrite Z.rem_mul_r by lia.
  pose proof (Z.mod_pos_bound m (2 ^ (n - 1)) Hp) as Hb.
  rewrite (Zmod_odd (m / 2 ^ (n - 1))).
  set (lo := m mod 2 ^ (n - 1)) in *.
  destruct (Z.odd (m / 2 ^ (n - 1))).
  - destruct (Z.eqb_spec lo 0) as [E|E]; cbn [negb loc_of_shr_record round_nearest_even].
    + replace (2 * (lo + 2 ^ (n - 1) * 1) ?= 2 ^ (n - 1) * 2) with Eq
        by (symmetry; apply Z.compare_eq_iff; lia).
      reflexivity.
    + replace (2 * (lo + 2 ^ (n - 1) * 1) ?= 2 ^ (n - 1) * 2) with Gt
        by (symmetry; apply Z.compare_gt_iff; lia).
      reflexivity.
  - replace (2 * (lo + 2 ^ (n - 1) * 0) ?= 2 ^ (n - 1) * 2) with Lt
      by (symmetry; apply Z.compare_lt_iff; lia).
    destruct (lo =? 0); reflexivity.
Qed.


Lemma round_nearest_even_step q l :
  round_nearest_even q l = q \/ round_nearest_even q l = q + 1.
Proof.
  destruct l as [|[]]; simpl; auto. destruct (Z.even q); auto.
Qed.

Lemma pow2_pos n : 0 <= n -> 0 < 2 ^ n.
Proof. intros. apply Z.pow_pos_nonneg; lia. Qed.

Lemma pow2_le a b : 0 <= a <= b -> 2 ^ a <= 2 ^ b.
Proof. intros. apply Z.pow_le_mono_r; lia. Qed.

Lemma pow2_split a b : 0 <= a -> 0 <= b -> 2 ^ (a + b) = 2 ^ a * 2 ^ b.
Proof. intros. apply Z.pow_add_r; lia. Qed.

(** First phase of [binary_round_aux]: the mantissa is shifted to the
    exponent of the format. *)
Lemma shr_fexp_shift m e l :
  0 < m ->
  let D := Zdigits2 m + e in
  let n := fexp prec emax D - e in
  0 <= n ->
  let q := m / 2 ^ n in
  exists mrs,
    shr_fexp prec emax m e l = (mrs, fexp prec emax D) /\
    shr_m mrs = q /\
    q < 2 ^ 53 /\
    (q < 2 ^ 52 -> fexp prec emax D = -1074) /\
    (l = loc_Exact ->
     round_nearest_even (shr_m mrs) (loc_of_shr_record mrs) =
     round_half_even_div m (2 ^ n)).
Proof.
  intros Hm D n Hn q.
  assert (Hq : q < 2 ^ 53 /\ (q < 2 ^ 52 -> fexp prec emax D = -1074)).
  { destruct (Zdigits2_bounds m Hm) as [Hlo Hhi].
    pose proof (Zdigits2_pos m Hm) as Hd.
    pose proof (pow2_pos n Hn) as Hpn.
    subst q n D. rewrite fexp_eq in *.
    destruct (Z.max_spec (Zdigits2 m + e - 53) (-1074)) as [[Hc Hmax]|[Hc Hmax]];
      rewrite Hmax in *.
    - (* subnormal range *)
      split; [|reflexivity].
      apply Z.div_lt_upper_bound; [assumption|].
      rewrite <- pow2_split by lia.
      eapply Z.lt_le_trans; [exact Hhi|]. apply pow2_le. lia.
    - (* normal range *)
      replace (Zdigits2 m + e - 53 - e) with (Zdigits2 m - 53) in * by lia.
      split.
      + apply Z.div_lt_upper_bound; [assumption|].
        rewrite <- pow2_split by lia.
        replace (Zdigits2 m - 53 + 53) with (Zdigits2 m) by lia. exact Hhi.
      + intros Hlt. exfalso.
        assert (2 ^ 52 <= m / 2 ^ (Zdigits2 m - 53)); [|lia].
        apply Z.div_le_lower_bound; [assumption|].
        rewrite <- pow2_split by lia.
        replace (Zdigits2 m - 53 + 52) with (Zdigits2 m - 1) by lia. exact Hlo. }
  destruct Hq as [Hq1 Hq2].
  unfold shr_fexp. fold D. fold n.
  destruct (Z.eq_dec n 0) as [E|E].
  - rewrite E. cbn [shr]. eexists. split; [f_equal; subst n; lia|].
    assert (Hqm : q = m) by (subst q; rewrite E; apply Z.div_1_r).
    repeat split; try assumption.
    + rewrite Hqm. destruct l as [|[]]; reflexivity.
    + intros ->. cbn [shr_record_of_loc shr_m loc_of_shr_record round_nearest_even].
      change (2 ^ 0) with 1. unfold round_half_even_div.
      rewrite Z.mod_1_r, Z.div_1_r. reflexivity.
  - assert (Hn' : 0 < n) by lia.
    assert (Hrec : exists r s, shr_record_of_loc m l = Build_shr_record m r s)
      by (destruct l as [|[]]; simpl; eauto).
    destruct Hrec as (r & s & Hrec). rewrite Hrec.
    rewrite shr_nonneg by lia. eexists. split; [f_equal; subst n; lia|].
    cbn [shr_m]. repeat split; try assumption.
    intros ->. injection Hrec as <- <-.
    pose proof (shr_round_nearest_even m e n ltac:(lia) Hn') as H.
    rewrite shr_nonneg in H by lia. apply H.
Qed.

(** Second phase of [binary_round_aux]: a carry out of the mantissa is
    renormalised, and the exponent is checked against the largest one. *)
Lemma round_finish m1 e1 :
  0 <= m1 <= 2 ^ 53 -> -1074 <= e1 -> (m1 < 2 ^ 52 -> e1 = -1074) ->
  (let '(mrs, e2) := shr_fexp prec emax m1 e1 loc_Exact in
   match shr_m mrs with
   | Z0 => S754_zero false
   | Zpos m => if e2 <=? emax - prec then S754_finite false m e2
               else S754_infinity false
   | Zneg _ => S754_nan
   end) = pack m1 e1.
Proof.
  intros Hm He Hsub. unfold pack.
  destruct (Z.eqb_spec m1 0) as [E0|E0].
  - subst m1. assert (e1 = -1074) as -> by (apply Hsub; lia). reflexivity.
  - assert (Hpos : 0 < m1) by lia.
    destruct (Z.eqb_spec m1 (2 ^ 53)) as [E|E].
    + subst m1. unfold shr_fexp.
      change (Zdigits2 (2 ^ 53)) with 54. rewrite fexp_eq.
      replace (Z.max (54 + e1 - 53) (-1074) - e1) with 1 by lia.
      cbn [shr_record_of_loc]. rewrite shr_nonneg by lia.
      cbn [shr_m]. change (2 ^ 53 / 2 ^ 1) with (2 ^ 52).
      change (emax - prec) with 971. reflexivity.
    + assert (Hd : Zdigits2 m1 <= 53).
      { destruct (Zdigits2_bounds m1 Hpos) as [Hlo _].
        destruct (Z_le_gt_dec (Zdigits2 m1) 53) as [|Hgt]; [assumption|].
        assert (2 ^ 53 <= 2 ^ (Zdigits2 m1 - 1)) by (apply pow2_le; lia). lia. }
      assert (Hn : fexp prec emax (Zdigits2 m1 + e1) - e1 = 0).
      { rewrite fexp_eq.
        destruct (Z_lt_ge_dec m1 (2 ^ 52)) as [Hlt|Hge].
        - rewrite (Hsub Hlt). lia.
        - assert (Zdigits2 m1 = 53); [|lia].
          apply Zdigits2_unique; lia. }
      unfold shr_fexp. rewrite Hn. cbn [shr shr_record_of_loc shr_m].
      change (emax - prec) with 971.
      destruct m1 as [|p|p]; try lia. reflexivity.
Qed.

(** [binary_round_aux] on a positive mantissa that has at least as many
    bits as the format keeps: the mantissa is shifted, rounded up or down by
    at most one, and packed. *)
Lemma binary_round_aux_pack m e l :
  0 < m ->
  let D := Zdigits2 m + e in
  let n := fexp prec emax D - e in
  0 <= n ->
  exists m1,
    binary_round_aux prec emax false m e l = pack m1 (fexp prec emax D) /\
    (m1 = m / 2 ^ n \/ m1 = m / 2 ^ n + 1) /\
    0 <= m1 <= 2 ^ 53 /\
    (m1 < 2 ^ 52 -> fexp prec emax D = -1074) /\
    (l = loc_Exact -> m1 = round_half_even_div m (2 ^ n)).
Proof.
  intros Hm D n Hn.
  destruct (shr_fexp_shift m e l Hm Hn) as (mrs & Hs & Hq & Hq53 & Hq52 & Hex).
  subst D n.
  set (D := Zdigits2 m + e) in *.
  set (n := fexp prec emax D - e) in *.
  set (m1 := round_nearest_even (shr_m mrs) (loc_of_shr_record mrs)) in *.
  assert (Hstep : m1 = m / 2 ^ n \/ m1 = m / 2 ^ n + 1).
  { subst m1. rewrite <- Hq. apply round_nearest_even_step. }
  assert (Hq0 : 0 <= m / 2 ^ n) by (apply Z.div_pos; [lia|apply pow2_pos; lia]).
  assert (Hfe : -1074 <= fexp prec emax D) by (rewrite fexp_eq; lia).
  exists m1. split; [|repeat split; try lia; assumption].
  unfold binary_round_aux. rewrite Hs. fold m1.
  apply round_finish; [lia|assumption|]. intros H. apply Hq52. lia.
Qed.

(** *** Canonical doubles and their order *)

Lemma bounded_bounds m e :
  bounded prec emax m e = true ->
  Z.pos m < 2 ^ 53 /\ -1074 <= e <= 971 /\ (Z.pos m < 2 ^ 52 -> e = -1074).
Proof.
  unfold bounded, canonical_mantissa. intros H.
  apply andb_true_iff in H as [Hc He].
  apply Z.eqb_eq in Hc. apply Z.leb_le in He. change (emax - prec) with 971 in He.
  rewrite fexp_eq in Hc.
  change (Z.pos (digits2_pos m)) with (Zdigits2 (Z.pos m)) in Hc.
  destruct (Zdigits2_bounds (Z.pos m) ltac:(lia)) as [Hlo Hhi].
  pose proof (Zdigits2_pos (Z.pos m) ltac:(lia)) as Hd.
  assert (Hd53 : Zdigits2 (Z.pos m) <= 53) by lia.
  repeat split; try lia.
  - eapply Z.lt_le_trans; [exact Hhi|]. apply pow2_le. lia.
  - intros Hlt.
    destruct (Z.eq_dec (Zdigits2 (Z.pos m)) 53) as [E|E]; [|lia].
    rewrite E in Hlo. change (2 ^ (53 - 1)) with (2 ^ 52) in Hlo. lia.
Qed.

Lemma ulps_finite_lt_INF m e :
  bounded prec emax m e = true -> Z.pos m * 2 ^ (e + 1074) < INF.
Proof.
  intros H. apply bounded_bounds in H as (Hm & He & _).
  unfold INF.
  assert (HP : 2 ^ (e + 1074) <= 2 ^ 2045) by (apply pow2_le; lia).
  pose proof (pow2_pos (e + 1074) ltac:(lia)) as HP0.
  change (2 ^ 2098) with (2 ^ 53 * 2 ^ 2045).
  generalize dependent (2 ^ 53). generalize dependent (2 ^ (e + 1074)).
  generalize dependent (2 ^ 2045). intros B P HP HP0 K Hm.
  assert (Z.pos m * P < K * P) by (apply Z.mul_lt_mono_pos_r; lia).
  assert (K * P <= K * B) by (apply Z.mul_le_mono_nonneg_l; lia).
  lia.
Qed.

Lemma ulps_order_exponent m1 e1 m2 e2 :
  bounded prec emax m1 e1 = true -> bounded prec emax m2 e2 = true ->
  e1 < e2 ->
  Z.pos m1 * 2 ^ (e1 + 1074) < Z.pos m2 * 2 ^ (e2 + 1074).
Proof.
  intros H1 H2 Hlt.
  apply bounded_bounds in H1 as (Hm1 & He1 & _).
  apply bounded_bounds in H2 as (Hm2 & He2 & Hs2).
  assert (Hge : 2 ^ 52 <= Z.pos m2).
  { destruct (Z_lt_ge_dec (Z.pos m2) (2 ^ 52)) as [Hc|Hc]; [|lia].
    specialize (Hs2 Hc). lia. }
  replace (e2 + 1074) with ((e2 - e1 - 1) + (1 + (e1 + 1074))) by lia.
  rewrite (pow2_split (e2 - e1 - 1)), (pow2_split 1) by lia.
  pose proof (pow2_pos (e1 + 1074) ltac:(lia)) as HP.
  pose proof (pow2_pos (e2 - e1 - 1) ltac:(lia)) as HQ.
  change (2 ^ 1) with 2. change (2 ^ 53) with (2 ^ 52 * 2) in Hm1.
  generalize dependent (2 ^ 52). generalize dependent (2 ^ (e1 + 1074)).
  generalize dependent (2 ^ (e2 - e1 - 1)). intros Q HQ P HP K Hm1 Hge.
  assert (Z.pos m1 * P < K * 2 * P) by (apply Z.mul_lt_mono_pos_r; lia).
  assert (K * (2 * P) <= Z.pos m2 * (2 * P)) by (apply Z.mul_le_mono_nonneg_r; lia).
  assert (Z.pos m2 * (2 * P) * 1 <= Z.pos m2 * (2 * P) * Q)
    by (apply Z.mul_le_mono_nonneg_l; lia).
  lia.
Qed.

(** On canonical doubles that are not negative, the comparison of IEEE-754
    is the comparison of magnitudes. *)
Lemma SFcompare_ulps x y :
  valid_binary x = true -> valid_binary y = true ->
  nonneg x = true -> nonneg y = true ->
  SFcompare x y = Some (ulps x ?= ulps y).
Proof.
  intros Vx Vy Nx Ny.
  assert (Hpos : forall m e, bounded prec emax m e = true ->
                             0 < Z.pos m * 2 ^ (e + 1074)).
  { intros m e H. apply bounded_bounds in H.
    pose proof (pow2_pos (e + 1074) ltac:(lia)). nia. }
  destruct x as [sx|[]| |[] mx ex], y as [sy|[]| |[] my ey];
    try discriminate; cbn [SFcompare ulps valid_binary] in *;
    try reflexivity; f_equal; symmetry.
  - apply Z.compare_lt_iff. auto.
  - apply Z.compare_gt_iff. apply ulps_finite_lt_INF. assumption.
  - apply Z.compare_gt_iff. auto.
  - apply Z.compare_lt_iff. apply ulps_finite_lt_INF. assumption.
  - destruct (Z.compare_spec ex ey) as [E|E|E].
    + subst ey. rewrite Pos.compare_cont_spec.
      replace (Pos.switch_Eq Eq (mx ?= my)%positive) with (mx ?= my)%positive
        by (destruct (mx ?= my)%positive; reflexivity).
      pose proof (pow2_pos (ex + 1074)
                    ltac:(apply bounded_bounds in Vx; lia)) as Hp.
      rewrite <- Zmult_compare_compat_r by lia. reflexivity.
    + apply Z.compare_lt_iff. apply ulps_order_exponent; assumption.
    + apply Z.compare_gt_iff. apply ulps_order_exponent; assumption.
Qed.

Lemma SFleb_ulps x y :
  valid_binary x = true -> valid_binary y = true ->
  nonneg x = true -> nonneg y = true ->
  SFleb x y = (ulps x <=? ulps y).
Proof.
  intros. unfold SFleb. rewrite SFcompare_ulps by assumption.
  unfold Z.leb. destruct (ulps x ?= ulps y); reflexivity.
Qed.

Lemma SFltb_ulps x y :
  valid_binary x = true -> valid_binary y = true ->
  nonneg x = true -> nonneg y = true ->
  SFltb x y = (ulps x <? ulps y).
Proof.
  intros. unfold SFltb. rewrite SFcompare_ulps by assumption.
  unfold Z.ltb. destruct (ulps x ?= ulps y); reflexivity.
Qed.

(** *** Packed results *)

Lemma bounded_intro m e :
  0 < m < 2 ^ 53 -> -1074 <= e <= 971 -> (m < 2 ^ 52 -> e = -1074) ->
  bounded prec emax (Z.to_pos m) e = true.
Proof.
  intros Hm He Hs. unfold bounded, canonical_mantissa.
  apply andb_true_iff. split; [|apply Z.leb_le; change (emax - prec) with 971; lia].
  apply Z.eqb_eq. rewrite fexp_eq.
  change (Z.pos (digits2_pos (Z.to_pos m))) with (Zdigits2 (Z.pos (Z.to_pos m))).
  rewrite Z2Pos.id by lia.
  destruct (Zdigits2_bounds m ltac:(lia)) as [Hlo Hhi].
  pose proof (Zdigits2_pos m ltac:(lia)) as Hd.
  assert (Hd53 : Zdigits2 m <= 53).
  { destruct (Z_le_gt_dec (Zdigits2 m) 53) as [|Hgt]; [assumption|].
    assert (2 ^ 53 <= 2 ^ (Zdigits2 m - 1)) by (apply pow2_le; lia). lia. }
  destruct (Z_lt_ge_dec m (2 ^ 52)) as [Hlt|Hge].
  - rewrite (Hs Hlt). lia.
  - assert (Zdigits2 m = 53); [|lia]. apply Zdigits2_unique; lia.
Qed.

Lemma pack_spec m e :
  0 <= m <= 2 ^ 53 -> -1074 <= e -> (m < 2 ^ 52 -> e = -1074) ->
  valid_binary (pack m e) = true /\
  nonneg (pack m e) = true /\
  ulps (pack m e) = Z.min (m * 2 ^ (e + 1074)) INF.
Proof.
  intros Hm He Hs. unfold pack.
  pose proof (pow2_pos (e + 1074) ltac:(lia)) as HP.
  destruct (Z.eqb_spec m 0) as [E0|E0].
  - subst m. repeat split.
  - destruct (Z.eqb_spec m (2 ^ 53)) as [E|E].
    + subst m. destruct (Z.leb_spec (e + 1) 971) as [Hle|Hgt].
      * assert (V : bounded prec emax (Z.to_pos (2 ^ 52)) (e + 1) = true)
          by (apply bounded_intro; lia).
        repeat split; [exact V|].
        pose proof (ulps_finite_lt_INF _ _ V) as Hlt.
        cbn [ulps] in *. change (Z.pos (Z.to_pos (2 ^ 52))) with (2 ^ 52) in *.
        replace (e + 1 + 1074) with (1 + (e + 1074)) in * by lia.
        rewrite (pow2_split 1) in * by lia.
        change (2 ^ 53) with (2 ^ 52 * 2 ^ 1). lia.
      * repeat split. cbn [ulps]. unfold INF.
        assert (2 ^ 2045 <= 2 ^ (e + 1074)) by (apply pow2_le; lia).
        change (2 ^ 2098) with (2 ^ 53 * 2 ^ 2045). 
        assert (2 ^ 53 * 2 ^ 2045 <= 2 ^ 53 * 2 ^ (e + 1074))
          by (apply Z.mul_le_mono_nonneg_l; lia).
        lia.
    + destruct (Z.leb_spec e 971) as [Hle|Hgt].
      * assert (V : bounded prec emax (Z.to_pos m) e = true)
          by (apply bounded_intro; lia).
        repeat split; [exact V|].
        pose proof (ulps_finite_lt_INF _ _ V) as Hlt.
        cbn [ulps]. rewrite Z2Pos.id in * by lia. lia.
      * repeat split. cbn [ulps]. unfold INF.
        assert (Hge : 2 ^ 52 <= m).
        { destruct (Z_lt_ge_dec m (2 ^ 52)) as [Hc|Hc]; [|lia].
          specialize (Hs Hc). lia. }
        assert (2 ^ 2046 <= 2 ^ (e + 1074)) by (apply pow2_le; lia).
        change (2 ^ 2098) with (2 ^ 52 * 2 ^ 2046).
        assert (2 ^ 52 * 2 ^ 2046 <= m * 2 ^ 2046)
          by (apply Z.mul_le_mono_nonneg_r; lia).
        assert (m * 2 ^ 2046 <= m * 2 ^ (e + 1074))
          by (apply Z.mul_le_mono_nonneg_l; lia).
        lia.
Qed.

(** *** Rounding is monotone *)

Lemma rhe_bounds a b :
  0 < b -> a / b <= round_half_even_div a b <= a / b + 1.
Proof.
  intros Hb. unfold round_half_even_div.
  destruct (2 * (a mod b) ?= b); [destruct (Z.even (a / b))| |]; lia.
Qed.

Lemma rhe_exact a b :
  0 < b -> a mod b = 0 -> round_half_even_div a b = a / b.
Proof.
  intros Hb H. unfold round_half_even_div. rewrite H.
  replace (2 * 0 ?= b) with Lt by (symmetry; apply Z.compare_lt_iff; lia).
  reflexivity.
Qed.

Lemma rhe_scale a b c :
  0 < b -> 0 < c ->
  round_half_even_div (a * c) (b * c) = round_half_even_div a b.
Proof.
  intros Hb Hc. unfold round_half_even_div.
  rewrite Z.div_mul_cancel_r by lia.
  rewrite Z.mul_mod_distr_r by lia.
  replace (2 * (a mod b * c) ?= b * c) with (2 * (a mod b) ?= b); [reflexivity|].
  rewrite Z.mul_assoc. apply Zmult_compare_compat_r. lia.
Qed.

Lemma rhe_mono a a' b :
  0 < b -> a <= a' -> round_half_even_div a b <= round_half_even_div a' b.
Proof.
  intros Hb Ha.
  pose proof (Z.div_le_mono a a' b Hb Ha) as Hq.
  destruct (Z.eq_dec (a / b) (a' / b)) as [E|E].
  - assert (Hr : a mod b <= a' mod b).
    { rewrite (Z.mod_eq a b), (Z.mod_eq a' b), E by lia. lia. }
    unfold round_half_even_div. rewrite E.
    destruct (Z.compare_spec (2 * (a mod b)) b),
             (Z.compare_spec (2 * (a' mod b)) b);
      try destruct (Z.even (a' / b)); lia.
  - pose proof (rhe_bounds a b Hb). pose proof (rhe_bounds a' b Hb). lia.
Qed.

Lemma Zdigits2_mono x y : 0 <= x <= y -> Zdigits2 x <= Zdigits2 y.
Proof.
  intros [Hx Hxy].
  destruct (Z.eq_dec x 0) as [->|Hx0].
  - destruct y; simpl; lia.
  - destruct (Zdigits2_bounds x ltac:(lia)) as [Hlo _].
    destruct (Zdigits2_bounds y ltac:(lia)) as [_ Hhi].
    pose proof (Zdigits2_pos x ltac:(lia)).
    destruct (Z_le_gt_dec (Zdigits2 x) (Zdigits2 y)) as [|Hgt]; [assumption|].
    assert (2 ^ Zdigits2 y <= 2 ^ (Zdigits2 x - 1)) by (apply pow2_le; split;
      [apply Z.lt_le_incl, Zdigits2_pos|]; lia).
    lia.
Qed.

Lemma Zdigits2_shift m k :
  0 < m -> 0 <= k -> Zdigits2 (m * 2 ^ k) = Zdigits2 m + k.
Proof.
  intros Hm Hk.
  destruct (Zdigits2_bounds m Hm) as [Hlo Hhi].
  pose proof (Zdigits2_pos m Hm) as Hd.
  pose proof (pow2_pos k Hk) as HP.
  apply Zdigits2_unique; [|lia]. split.
  - replace (Zdigits2 m + k - 1) with (Zdigits2 m - 1 + k) by lia.
    rewrite pow2_split by lia. apply Z.mul_le_mono_nonneg_r; lia.
  - rewrite pow2_split by lia. apply Z.mul_lt_mono_pos_r; lia.
Qed.

Lemma round_ulps_nonneg X : 0 <= X -> 0 <= round_ulps X.
Proof.
  intros HX. unfold round_ulps.
  set (E := Z.max (Zdigits2 X - 53) 1074).
  pose proof (pow2_pos E ltac:(lia)) as HE.
  pose proof (rhe_bounds X (2 ^ E) HE) as [Hlo _].
  pose proof (Z.div_pos X (2 ^ E) HX HE).
  pose proof (pow2_pos (E - 1074) ltac:(lia)). nia.
Qed.

Lemma round_ulps_mono X Y : 0 <= X <= Y -> round_ulps X <= round_ulps Y.
Proof.
  intros [HX HXY].
  destruct (Z.eq_dec X 0) as [->|HX0].
  { change (round_ulps 0) with 0. apply round_ulps_nonneg. lia. }
  pose proof (Zdigits2_mono X Y ltac:(lia)) as Hd.
  unfold round_ulps.
  set (EX := Z.max (Zdigits2 X - 53) 1074).
  set (EY := Z.max (Zdigits2 Y - 53) 1074).
  assert (HE : EX <= EY) by lia.
  pose proof (pow2_pos EX ltac:(lia)) as HPX.
  pose proof (pow2_pos EY ltac:(lia)) as HPY.
  destruct (Z.eq_dec EX EY) as [E|E].
  - rewrite <- E. apply Z.mul_le_mono_nonneg_r.
    + apply Z.lt_le_incl, pow2_pos. lia.
    + apply rhe_mono; lia.
  - (* the binade of [Y] is strictly above that of [X] *)
    destruct (Zdigits2_bounds X ltac:(lia)) as [_ HXhi].
    destruct (Zdigits2_bounds Y ltac:(lia)) as [HYlo _].
    assert (HqX : round_half_even_div X (2 ^ EX) <= 2 ^ 53).
    { pose proof (rhe_bounds X (2 ^ EX) HPX) as [_ Hhi].
      assert (X / 2 ^ EX < 2 ^ 53); [|lia].
      apply Z.div_lt_upper_bound; [assumption|].
      rewrite <- pow2_split by lia.
      eapply Z.lt_le_trans; [exact HXhi|]. apply pow2_le.
      pose proof (Zdigits2_pos X ltac:(lia)). lia. }
    assert (HqY : 2 ^ 52 <= round_half_even_div Y (2 ^ EY)).
    { pose proof (rhe_bounds Y (2 ^ EY) HPY) as [Hlo _].
      assert (2 ^ 52 <= Y / 2 ^ EY); [|lia].
      apply Z.div_le_lower_bound; [assumption|].
      rewrite <- pow2_split by lia.
      eapply Z.le_trans; [|exact HYlo]. apply pow2_le. lia. }
    replace (EY - 1074) with (1 + (EY - 1 - EX) + (EX - 1074)) by lia.
    rewrite (pow2_split (1 + (EY - 1 - EX))), (pow2_split 1) by lia.
    pose proof (pow2_pos (EX - 1074) ltac:(lia)) as HP1.
    pose proof (pow2_pos (EY - 1 - EX) ltac:(lia)) as HP2.
    change (2 ^ 1) with 2. change (2 ^ 53) with (2 ^ 52 * 2) in HqX.
    pose proof (pow2_pos 52 ltac:(lia)) as HK.
    generalize dependent (2 ^ 52). generalize dependent (2 ^ (EX - 1074)).
    generalize dependent (2 ^ (EY - 1 - EX)).
    generalize dependent (round_half_even_div X (2 ^ EX)).
    generalize dependent (round_half_even_div Y (2 ^ EY)).
    intros rY rX Q HQ P HP K; intros.
    assert (rX * P <= K * 2 * P) by (apply Z.mul_le_mono_nonneg_r; lia).
    assert (K * (2 * P) <= rY * (2 * P)) by (apply Z.mul_le_mono_nonneg_r; lia).
    assert (rY * (2 * P) * 1 <= rY * (2 * P) * Q)
      by (apply Z.mul_le_mono_nonneg_l; lia).
    lia.
Qed.

(** *** The magnitude of a rounded result *)

Lemma binary_round_aux_ulps m e :
  0 < m -> -2148 <= e -> 0 <= fexp prec emax (Zdigits2 m + e) - e ->
  let r := binary_round_aux prec emax false m e loc_Exact in
  valid_binary r = true /\ nonneg r = true /\
  ulps r = Z.min (round_ulps (m * 2 ^ (e + 2148))) INF.
Proof.
  intros Hm He Hn r.
  destruct (binary_round_aux_pack m e loc_Exact Hm Hn)
    as (m1 & Hr & _ & Hm1 & Hs & Hex).
  specialize (Hex eq_refl). subst r. rewrite Hr.
  set (D := Zdigits2 m + e) in *.
  assert (Hfe : -1074 <= fexp prec emax D) by (rewrite fexp_eq; lia).
  destruct (pack_spec m1 (fexp prec emax D) Hm1 Hfe Hs) as (V & N & U).
  repeat split; try assumption.
  rewrite U. f_equal. unfold round_ulps.
  rewrite Zdigits2_shift by lia.
  replace (Z.max (Zdigits2 m + (e + 2148) - 53) 1074)
    with (fexp prec emax D + 2148) by (rewrite fexp_eq; subst D; lia).
  replace (fexp prec emax D + 2148 - 1074) with (fexp prec emax D + 1074) by lia.
  f_equal. rewrite Hex.
  replace (fexp prec emax D + 2148) with ((fexp prec emax D - e) + (e + 2148)) by lia.
  rewrite (pow2_split (fexp prec emax D - e)) by lia.
  symmetry. apply rhe_scale; apply pow2_pos; lia.
Qed.

Lemma Pos_iter_xO m d : Z.pos (Pos.iter xO m d) = Z.pos m * 2 ^ Z.pos d.
Proof.
  induction d as [|d IH] using Pos.peano_ind.
  - simpl. lia.
  - rewrite Pos.iter_succ, Pos2Z.inj_xO, IH, Pos2Z.inj_succ, Z.pow_succ_r by lia.
    lia.
Qed.

Lemma shl_align_spec m e e' :
  let '(m', e'') := shl_align m e e' in
  e'' = Z.min e e' /\ Z.pos m' = Z.pos m * 2 ^ (e - e'').
Proof.
  unfold shl_align. destruct (e' - e) as [|d|d] eqn:E.
  - split; [lia|]. rewrite Z.sub_diag. lia.
  - split; [lia|]. rewrite Z.sub_diag. lia.
  - split; [lia|]. rewrite Pos_iter_xO. f_equal. f_equal. lia.
Qed.

Lemma binary_round_ulps m e :
  -2148 <= e ->
  let r := binary_round prec emax false m e in
  valid_binary r = true /\ nonneg r = true /\
  ulps r = Z.min (round_ulps (Z.pos m * 2 ^ (e + 2148))) INF.
Proof.
  intros He. unfold binary_round.
  change (Z.pos (digits2_pos m)) with (Zdigits2 (Z.pos m)).
  set (D := Zdigits2 (Z.pos m) + e).
  pose proof (shl_align_spec m e (fexp prec emax D)) as H.
  destruct (shl_align m e (fexp prec emax D)) as [mz ez].
  destruct H as [Hez Hmz].
  assert (Hfe : -1074 <= fexp prec emax D) by (rewrite fexp_eq; lia).
  assert (HD : Zdigits2 (Z.pos mz) + ez = D).
  { rewrite Hmz, Zdigits2_shift by lia. subst D. lia. }
  assert (HX : Z.pos mz * 2 ^ (ez + 2148) = Z.pos m * 2 ^ (e + 2148)).
  { rewrite Hmz, <- Z.mul_assoc, <- pow2_split by lia. f_equal. f_equal. lia. }
  rewrite <- HX.
  apply binary_round_aux_ulps; [lia|lia|]. rewrite HD. lia.
Qed.

(** Canonical doubles round to themselves. *)
Lemma round_ulps_canonical m e :
  bounded prec emax m e = true ->
  round_ulps (Z.pos m * 2 ^ (e + 1074) * 2 ^ 1074) = Z.pos m * 2 ^ (e + 1074).
Proof.
  intros V. pose proof (bounded_bounds m e V) as (Hm & He & _).
  unfold bounded, canonical_mantissa in V.
  apply andb_true_iff in V as [Hc _]. apply Z.eqb_eq in Hc.
  change (Z.pos (digits2_pos m)) with (Zdigits2 (Z.pos m)) in Hc.
  rewrite fexp_eq in Hc.
  rewrite <- Z.mul_assoc, <- pow2_split by lia.
  unfold round_ulps. rewrite Zdigits2_shift by lia.
  replace (Z.max (Zdigits2 (Z.pos m) + (e + 1074 + 1074) - 53) 1074)
    with (e + 1074 + 1074) by lia.
  pose proof (pow2_pos (e + 1074 + 1074) ltac:(lia)) as HP.
  rewrite rhe_exact by (try apply Z.mod_mul; lia).
  rewrite Z.div_mul by lia. f_equal. f_equal. lia.
Qed.

Lemma ulps_nonneg x : valid_binary x = true -> 0 <= ulps x.
Proof.
  destruct x as [| [] | | [] m e]; cbn [ulps valid_binary]; intros V;
    try (unfold INF; lia).
  all: apply bounded_bounds in V; pose proof (pow2_pos (e + 1074) ltac:(lia)); nia.
Qed.

Lemma ulps_finite x :
  valid_binary x = true -> nonneg_finite x = true ->
  round_ulps (ulps x * 2 ^ 1074) = ulps x /\ ulps x < INF.
Proof.
  destruct x as [| | | [] m e]; try discriminate; cbn [ulps valid_binary];
    intros V _.
  - split; [reflexivity | unfold INF; lia].
  - split; [apply round_ulps_canonical | apply ulps_finite_lt_INF]; assumption.
Qed.

(** *** Multiplication and addition of doubles that are not negative *)

Lemma SFmul_ulps x y :
  valid_binary x = true -> valid_binary y = true ->
  nonneg_finite x = true -> nonneg_finite y = true ->
  let r := SFmul prec emax x y in
  valid_binary r = true /\ nonneg r = true /\
  ulps r = Z.min (round_ulps (ulps x * ulps y)) INF.
Proof.
  intros Vx Vy Nx Ny.
  destruct x as [sx| | |[] mx ex], y as [sy| | |[] my ey]; try discriminate;
    cbn [SFmul ulps valid_binary xorb] in *;
    try (repeat split; rewrite ?Z.mul_0_l, ?Z.mul_0_r; reflexivity).
  pose proof (bounded_bounds _ _ Vx) as (Hmx & Hex & Hsx).
  pose proof (bounded_bounds _ _ Vy) as (Hmy & Hey & Hsy).
  replace (Z.pos mx * 2 ^ (ex + 1074) * (Z.pos my * 2 ^ (ey + 1074)))
    with (Z.pos (mx * my) * 2 ^ (ex + ey + 2148)).
  2:{ replace (ex + ey + 2148) with ((ex + 1074) + (ey + 1074)) by lia.
      rewrite pow2_split, Pos2Z.inj_mul by lia. ring. }
  apply binary_round_aux_ulps; [lia|lia|].
  rewrite fexp_eq.
  destruct (Z_lt_ge_dec (Z.pos mx) (2 ^ 52)) as [Hx|Hx];
    [destruct (Z_lt_ge_dec (Z.pos my) (2 ^ 52)) as [Hy|Hy]|].
  - rewrite (Hsx Hx), (Hsy Hy). lia.
  - assert (53 <= Zdigits2 (Z.pos (mx * my))); [|lia].
    change 53 with (Zdigits2 (2 ^ 52)). apply Zdigits2_mono.
    rewrite Pos2Z.inj_mul. nia.
  - assert (53 <= Zdigits2 (Z.pos (mx * my))); [|lia].
    change 53 with (Zdigits2 (2 ^ 52)). apply Zdigits2_mono.
    rewrite Pos2Z.inj_mul. nia.
Qed.

Lemma SFadd_ulps x y :
  valid_binary x = true -> valid_binary y = true ->
  nonneg_finite x = true -> nonneg_finite y = true ->
  let r := SFadd prec emax x y in
  valid_binary r = true /\ nonneg r = true /\
  ulps r = Z.min (round_ulps ((ulps x + ulps y) * 2 ^ 1074)) INF.
Proof.
  intros Vx Vy Nx Ny.
  destruct x as [sx| | |[] mx ex] eqn:Ex, y as [sy| | |[] my ey] eqn:Ey;
    try discriminate.
  - cbn [SFadd]. repeat split; destruct sx, sy; reflexivity.
  - cbn [SFadd]. repeat split; try assumption.
    destruct (ulps_finite y ltac:(subst; assumption) ltac:(subst; reflexivity))
      as [Hr Hlt]. subst y.
    change (ulps (S754_zero sx)) with 0. rewrite Z.add_0_l, Hr. lia.
  - cbn [SFadd]. repeat split; try assumption.
    destruct (ulps_finite x ltac:(subst; assumption) ltac:(subst; reflexivity))
      as [Hr Hlt]. subst x.
    change (ulps (S754_zero sy)) with 0. rewrite Z.add_0_r, Hr. lia.
  - cbn [SFadd cond_Zopp valid_binary ulps] in *.
    pose proof (bounded_bounds _ _ Vx) as (Hmx & Hex & _).
    pose proof (bounded_bounds _ _ Vy) as (Hmy & Hey & _).
    pose proof (shl_align_spec mx ex (Z.min ex ey)) as Hx.
    pose proof (shl_align_spec my ey (Z.min ex ey)) as Hy.
    destruct (shl_align mx ex (Z.min ex ey)) as [mx' ex'].
    destruct (shl_align my ey (Z.min ex ey)) as [my' ey'].
    destruct Hx as [Hex' Hmx'], Hy as [Hey' Hmy']. cbn [fst].
    change (Z.pos mx' + Z.pos my') with (Z.pos (mx' + my')).
    cbn [binary_normalize].
    replace ((Z.pos mx * 2 ^ (ex + 1074) + Z.pos my * 2 ^ (ey + 1074)) * 2 ^ 1074)
      with (Z.pos (mx' + my') * 2 ^ (Z.min ex ey + 2148)).
    2:{ rewrite Pos2Z.inj_add, Hmx', Hmy'.
        replace (ex + 1074) with ((ex - ex') + (ex' + 1074)) by lia.
        replace (ey + 1074) with ((ey - ey') + (ey' + 1074)) by lia.
        replace (Z.min ex ey + 2148) with ((ex' + 1074) + 1074) at 1 by lia.
        rewrite (pow2_split (ex' + 1074) 1074) by lia.
        rewrite (pow2_split (ex - ex') (ex' + 1074)) by lia.
        rewrite (pow2_split (ey - ey') (ey' + 1074)) by lia.
        replace (ey' + 1074) with (ex' + 1074) by lia. ring. }
    apply binary_round_ulps. lia.
Qed.

(** *** Primitive doubles *)

Lemma endpoint_nonneg x : endpoint x = true -> nonneg (Prim2SF x) = true.
Proof. unfold endpoint. destruct (Prim2SF x) as [|[]| |[]]; simpl; auto. Qed.

Lemma leb_ulps (x y : float) :
  nonneg (Prim2SF x) = true -> nonneg (Prim2SF y) = true ->
  (x <=? y)%float = (ulps (Prim2SF x) <=? ulps (Prim2SF y)).
Proof.
  intros. rewrite leb_spec. apply SFleb_ulps; auto using Prim2SF_valid.
Qed.

Lemma ltb_ulps (x y : float) :
  nonneg (Prim2SF x) = true -> nonneg (Prim2SF y) = true ->
  (x <? y)%float = (ulps (Prim2SF x) <? ulps (Prim2SF y)).
Proof.
  intros. rewrite ltb_spec. apply SFltb_ulps; auto using Prim2SF_valid.
Qed.

Lemma mul_ulps (x y : float) :
  endpoint x = true -> endpoint y = true ->
  nonneg (Prim2SF (x * y)) = true /\
  ulps (Prim2SF (x * y)) =
    Z.min (round_ulps (ulps (Prim2SF x) * ulps (Prim2SF y))) INF.
Proof.
  intros Hx Hy. rewrite mul_spec.
  apply (SFmul_ulps (Prim2SF x) (Prim2SF y)); auto using Prim2SF_valid.
Qed.

Lemma add_ulps (x y : float) :
  endpoint x = true -> endpoint y = true ->
  nonneg (Prim2SF (x + y)) = true /\
  ulps (Prim2SF (x + y)) =
    Z.min (round_ulps ((ulps (Prim2SF x) + ulps (Prim2SF y)) * 2 ^ 1074)) INF.
Proof.
  intros Hx Hy. rewrite add_spec.
  apply (SFadd_ulps (Prim2SF x) (Prim2SF y)); auto using Prim2SF_valid.
Qed.

Lemma prim_ulps_nonneg (x : float) : 0 <= ulps (Prim2SF x).
Proof. apply ulps_nonneg, Prim2SF_valid. Qed.

(** A double between two finite non-negative doubles is one of them. *)
Lemma within_endpoint lo hi x :
  endpoint lo = true -> endpoint hi = true -> within lo hi x ->
  endpoint x = true.
Proof.
  unfold endpoint, within. rewrite !leb_spec. unfold SFleb.
  destruct (Prim2SF lo) as [| | |[]], (Prim2SF hi) as [| | |[]],
    (Prim2SF x) as [|[]| |[]];
    cbn [SFcompare nonneg_finite]; intros ? ? [? ?];
    try discriminate; reflexivity.
Qed.

Lemma within_ulps lo hi x :
  endpoint lo = true -> endpoint hi = true -> within lo hi x ->
  ulps (Prim2SF lo) <= ulps (Prim2SF x) <= ulps (Prim2SF hi).
Proof.
  intros Hlo Hhi Hw. pose proof (within_endpoint lo hi x Hlo Hhi Hw) as Hx.
  destruct Hw as [H1 H2].
  rewrite leb_ulps in H1, H2 by auto using endpoint_nonneg.
  apply Z.leb_le in H1, H2. lia.
Qed.

Lemma within_intro lo hi x :
  nonneg (Prim2SF lo) = true -> nonneg (Prim2SF hi) = true ->
  nonneg (Prim2SF x) = true ->
  ulps (Prim2SF lo) <= ulps (Prim2SF x) <= ulps (Prim2SF hi) ->
  within lo hi x.
Proof.
  intros Hlo Hhi Hx [H1 H2]. unfold within.
  rewrite !leb_ulps by assumption. split; apply Z.leb_le; assumption.
Qed.

(** Multiplication by a finite non-negative constant keeps bounds. *)
Lemma within_mul lo hi c x :
  endpoint lo = true -> endpoint hi = true -> endpoint c = true ->
  within lo hi x -> within (lo * c) (hi * c) (x * c).
Proof.
  intros Hlo Hhi Hc Hw.
  pose proof (within_endpoint lo hi x Hlo Hhi Hw) as Hx.
  pose proof (within_ulps lo hi x Hlo Hhi Hw) as [H1 H2].
  destruct (mul_ulps lo c Hlo Hc) as [Nl Ul].
  destruct (mul_ulps hi c Hhi Hc) as [Nh Uh].
  destruct (mul_ulps x c Hx Hc) as [Nx Ux].
  pose proof (prim_ulps_nonneg c). pose proof (prim_ulps_nonneg lo).
  apply within_intro; try assumption.
  rewrite Ul, Uh, Ux.
  assert (round_ulps (ulps (Prim2SF lo) * ulps (Prim2SF c)) <=
          round_ulps (ulps (Prim2SF x) * ulps (Prim2SF c)))
    by (apply round_ulps_mono; split;
        [apply Z.mul_nonneg_nonneg; lia | apply Z.mul_le_mono_nonneg_r; lia]).
  assert (round_ulps (ulps (Prim2SF x) * ulps (Prim2SF c)) <=
          round_ulps (ulps (Prim2SF hi) * ulps (Prim2SF c)))
    by (apply round_ulps_mono; split;
        [apply Z.mul_nonneg_nonneg; lia | apply Z.mul_le_mono_nonneg_r; lia]).
  lia.
Qed.

(** Addition keeps bounds. *)
Lemma within_add lo1 hi1 x lo2 hi2 y :
  endpoint lo1 = true -> endpoint hi1 = true ->
  endpoint lo2 = true -> endpoint hi2 = true ->
  within lo1 hi1 x -> within lo2 hi2 y ->
  within (lo1 + lo2) (hi1 + hi2) (x + y).
Proof.
  intros Hlo1 Hhi1 Hlo2 Hhi2 Hw1 Hw2.
  pose proof (within_endpoint _ _ _ Hlo1 Hhi1 Hw1) as Hx.
  pose proof (within_endpoint _ _ _ Hlo2 Hhi2 Hw2) as Hy.
  pose proof (within_ulps _ _ _ Hlo1 Hhi1 Hw1) as [H1 H2].
  pose proof (within_ulps _ _ _ Hlo2 Hhi2 Hw2) as [H3 H4].
  destruct (add_ulps lo1 lo2 Hlo1 Hlo2) as [Nl Ul].
  destruct (add_ulps hi1 hi2 Hhi1 Hhi2) as [Nh Uh].
  destruct (add_ulps x y Hx Hy) as [Nx Ux].
  pose proof (prim_ulps_nonneg lo1). pose proof (prim_ulps_nonneg lo2).
  apply within_intro; try assumption.
  rewrite Ul, Uh, Ux. clear Ul Uh Ux.
  pose proof (pow2_pos 1074 ltac:(lia)) as HP.
  generalize dependent (2 ^ 1074). intros P HP.
  assert (round_ulps ((ulps (Prim2SF lo1) + ulps (Prim2SF lo2)) * P) <=
          round_ulps ((ulps (Prim2SF x) + ulps (Prim2SF y)) * P))
    by (apply round_ulps_mono; split;
        [apply Z.mul_nonneg_nonneg; lia | apply Z.mul_le_mono_nonneg_r; lia]).
  assert (round_ulps ((ulps (Prim2SF x) + ulps (Prim2SF y)) * P) <=
          round_ulps ((ulps (Prim2SF hi1) + ulps (Prim2SF hi2)) * P))
    by (apply round_ulps_mono; split;
        [apply Z.mul_nonneg_nonneg; lia | apply Z.mul_le_mono_nonneg_r; lia]).
  lia.
Qed.

(** Bounds can be widened. *)
Lemma within_weaken lo hi lo' hi' x :
  endpoint lo = true -> endpoint hi = true ->
  endpoint lo' = true -> endpoint hi' = true ->
  (lo' <=? lo)%float = true -> (hi <=? hi')%float = true ->
  within lo hi x -> within lo' hi' x.
Proof.
  intros Hlo Hhi Hlo' Hhi' H1 H2 Hw.
  pose proof (within_endpoint _ _ _ Hlo Hhi Hw) as Hx.
  pose proof (within_ulps _ _ _ Hlo Hhi Hw) as [H3 H4].
  rewrite leb_ulps in H1, H2 by auto using endpoint_nonneg.
  apply Z.leb_le in H1, H2.
  apply within_intro; auto using endpoint_nonneg. lia.
Qed.

Lemma within_refl x : endpoint x = true -> within x x x.
Proof.
  intros Hx. apply within_intro; auto using endpoint_nonneg. lia.
Qed.

(** *** True division of integers *)

Lemma pack_finite m e :
  e + 1 <= 971 -> nonneg_finite (pack m e) = true.
Proof.
  intros He. unfold pack.
  destruct (m =? 0); [reflexivity|].
  destruct (m =? 2 ^ 53).
  - destruct (Z.leb_spec (e + 1) 971); [reflexivity|lia].
  - destruct (Z.leb_spec e 971); [reflexivity|lia].
Qed.

Lemma SFdiv_exact_int a b :
  0 < a -> 2 <= b < 2 ^ 64 ->
  let r := SFdiv prec emax (exact_int a) (exact_int b) in
  valid_binary r = true /\ nonneg r = true /\
  (a < 2 ^ 1024 -> nonneg_finite r = true).
Proof.
  intros Ha Hb r. subst r.
  destruct a as [|pa|pa]; try lia. destruct b as [|pb|pb]; try lia.
  cbn [exact_int SFdiv xorb]. unfold SFdiv_core_binary.
  set (a := Z.pos pa) in *. set (b := Z.pos pb) in *.
  destruct (Zdigits2_bounds a ltac:(lia)) as [Halo Hahi].
  destruct (Zdigits2_bounds b ltac:(lia)) as [Hblo Hbhi].
  pose proof (Zdigits2_pos a ltac:(lia)) as Hda.
  pose proof (Zdigits2_pos b ltac:(lia)) as Hdb.
  assert (Hda' : a < 2 ^ 1024 -> Zdigits2 a <= 1024).
  { intros Hlt.
    destruct (Z_le_gt_dec (Zdigits2 a) 1024) as [|Hgt]; [assumption|].
    assert (2 ^ 1024 <= 2 ^ (Zdigits2 a - 1)) by (apply pow2_le; lia). lia. }
  assert (Hdb' : Zdigits2 b <= 64).
  { destruct (Z_le_gt_dec (Zdigits2 b) 64) as [|Hgt]; [assumption|].
    assert (2 ^ 64 <= 2 ^ (Zdigits2 b - 1)) by (apply pow2_le; lia). lia. }
  rewrite fexp_eq.
  replace (Zdigits2 a + 0 - (Zdigits2 b + 0) - 53)
    with (Zdigits2 a - Zdigits2 b - 53) by lia.
  set (e' := Z.min (Z.max (Zdigits2 a - Zdigits2 b - 53) (-1074)) (0 - 0)).
  set (s := 0 - 0 - e').
  assert (Hs : 0 <= s /\ Zdigits2 b + 53 <= Zdigits2 a + s) by (subst s e'; lia).
  set (m' := match s with Z.pos _ => Z.shiftl a s | 0 => a | Z.neg _ => 0 end).
  assert (Hm' : m' = a * 2 ^ s).
  { subst m'. destruct s as [|p|p] eqn:E; try lia.
    rewrite Z.shiftl_mul_pow2 by lia. reflexivity. }
  pose proof (pow2_pos s ltac:(lia)) as HPs.
  assert (Hdiv : Z.div_eucl m' b = (m' / b, m' mod b)).
  { unfold Z.div, Z.modulo. destruct (Z.div_eucl m' b). reflexivity. }
  rewrite Hdiv.
  set (q := m' / b).
  assert (Hq52 : 2 ^ 52 <= q).
  { subst q. apply Z.div_le_lower_bound; [lia|].
    rewrite Hm'.
    assert (b * 2 ^ 52 <= 2 ^ Zdigits2 b * 2 ^ 52)
      by (apply Z.mul_le_mono_nonneg_r; lia).
    rewrite <- (pow2_split (Zdigits2 b) 52) in H by lia.
    assert (2 ^ (Zdigits2 b + 52) <= 2 ^ (Zdigits2 a - 1 + s))
      by (apply pow2_le; lia).
    rewrite (pow2_split (Zdigits2 a - 1) s) in H0 by lia.
    assert (2 ^ (Zdigits2 a - 1) * 2 ^ s <= a * 2 ^ s)
      by (apply Z.mul_le_mono_nonneg_r; lia).
    lia. }
  assert (Hqd : 53 <= Zdigits2 q)
    by (change 53 with (Zdigits2 (2 ^ 52)); apply Zdigits2_mono; lia).
  assert (Hqhi : a < 2 ^ 1024 -> Zdigits2 q + e' <= 1023).
  { intros Hbound. specialize (Hda' Hbound).
    assert (Hlt : q < 2 ^ (Zdigits2 a + s - 1)).
    { subst q. apply Z.div_lt_upper_bound; [lia|].
      rewrite Hm'.
      assert (a * 2 ^ s < 2 ^ Zdigits2 a * 2 ^ s)
        by (apply Z.mul_lt_mono_pos_r; lia).
      rewrite <- (pow2_split (Zdigits2 a) s) in H by lia.
      replace (Zdigits2 a + s) with (1 + (Zdigits2 a + s - 1)) in H by lia.
      rewrite (pow2_split 1) in H by lia. change (2 ^ 1) with 2 in H.
      pose proof (pow2_pos (Zdigits2 a + s - 1) ltac:(lia)). nia. }
    destruct (Zdigits2_bounds q ltac:(lia)) as [Hqlo _].
    destruct (Z_le_gt_dec (Zdigits2 q) (Zdigits2 a + s - 1)) as [|Hgt];
      [subst s; lia|].
    assert (2 ^ (Zdigits2 a + s - 1) <= 2 ^ (Zdigits2 q - 1))
      by (apply pow2_le; lia).
    lia. }
  destruct (binary_round_aux_pack q e' (new_location b (m' mod b)))
    as (m1 & Hr & _ & Hm1 & Hsub & _); [lia|rewrite fexp_eq; lia|].
  rewrite Hr.
  assert (Hfe : -1074 <= fexp prec emax (Zdigits2 q + e')) by (rewrite fexp_eq; lia).
  destruct (pack_spec m1 _ Hm1 Hfe Hsub) as (V & N & _).
  split; [exact V|]. split; [exact N|].
  intros Hbound. specialize (Hqhi Hbound).
  apply pack_finite. rewrite fexp_eq. lia.
Qed.

Lemma SFdiv_exact_int_nonneg a b :
  0 <= a -> 2 <= b < 2 ^ 64 ->
  let r := SFdiv prec emax (exact_int a) (exact_int b) in
  valid_binary r = true /\ nonneg r = true /\
  (a < 2 ^ 1024 -> nonneg_finite r = true).
Proof.
  intros Ha Hb.
  destruct (Z.eq_dec a 0) as [->|Hne].
  - destruct b; try lia. repeat split.
  - apply SFdiv_exact_int; lia.
Qed.

Lemma endpoint_SF2Prim r :
  valid_binary r = true -> nonneg_finite r = true -> endpoint (SF2Prim r) = true.
Proof.
  intros V N. unfold endpoint. rewrite (Prim2SF_SF2Prim _ V). exact N.
Qed.

(** A quotient of integers that [/] returns is finite and not negative. *)
Lemma int_truediv_ok a b q :
  0 <= a -> 2 <= b < 2 ^ 64 ->
  int_truediv a b = Ok q -> endpoint q = true.
Proof.
  intros Ha Hb. unfold int_truediv.
  destruct (Z.eqb_spec b 0) as [E|_]; [lia|].
  destruct (SFdiv_exact_int_nonneg a b Ha Hb) as (V & N & _).
  destruct (SFdiv prec emax (exact_int a) (exact_int b)) as [s|s| |[] m e] eqn:E;
    try discriminate N; try discriminate; intros H; injection H as <-.
  - apply (endpoint_SF2Prim (S754_zero s)); [exact V | exact N].
  - apply (endpoint_SF2Prim (S754_finite false m e)); [exact V | reflexivity].
Qed.

(** [/] returns on integers within the range of doubles. *)
Lemma int_truediv_total a b :
  0 <= a < 2 ^ 1024 -> 2 <= b < 2 ^ 64 ->
  exists q, int_truediv a b = Ok q.
Proof.
  intros Ha Hb. unfold int_truediv.
  destruct (Z.eqb_spec b 0) as [E|_]; [lia|].
  destruct (SFdiv_exact_int_nonneg a b ltac:(lia) Hb) as (_ & _ & N).
  specialize (N ltac:(lia)).
  destruct (SFdiv prec emax (exact_int a) (exact_int b)) as [s|s| |s m e];
    try discriminate N; eexists; reflexivity.
Qed.

(** ** Reading a well-typed bag *)

Lemma dict_get_count bag k :
  Spec.count_ok bag k -> dict_get bag k (VInt 0) = VInt (Spec.count bag k).
Proof.
  unfold Spec.count_ok, dict_get, Spec.count.
  destruct (bag !! k) as [[]|]; simpl; tauto.
Qed.

Lemma count_nonneg bag k : Spec.count_ok bag k -> 0 <= Spec.count bag k.
Proof.
  unfold Spec.count_ok, Spec.count.
  destruct (bag !! k) as [[]|]; simpl; try tauto; lia.
Qed.

Lemma dict_get_nps bag :
  Spec.nps_ok bag ->
  dict_get bag "nps_score" VNone =
  match Spec.nps bag with Some n => VInt n | None => VNone end.
Proof.
  unfold Spec.nps_ok, dict_get, Spec.nps.
  destruct (bag !! "nps_score") as [[]|]; simpl; tauto.
Qed.

Lemma check_str_printable n : Spec.printable n -> check_str (VInt n) = Ok tt.
Proof.
  unfold Spec.printable, check_str. intros H.
  destruct (Z.ltb_spec (Z.abs n) (10 ^ INT_MAX_STR_DIGITS)); [reflexivity | lia].
Qed.

Lemma check_str_inv v :
  check_str v = Ok tt \/ exists n, v = VInt n /\ ~ Spec.printable n /\
                                   check_str v = Raise DIGITS_ERROR.
Proof.
  unfold Spec.printable. destruct v as [| |n| |]; try (left; reflexivity).
  unfold check_str.
  destruct (Z.ltb_spec (Z.abs n) (10 ^ INT_MAX_STR_DIGITS)).
  - left. reflexivity.
  - right. exists n. split; [reflexivity|]. split; [lia | reflexivity].
Qed.

Lemma format_field_printable float_repr n :
  Spec.printable n -> format_field float_repr (VInt n) = Ok (pretty n).
Proof.
  intros H. unfold format_field. rewrite (check_str_printable n H). reflexivity.
Qed.

(** What [score_lead] has computed when it returns. *)
Lemma score_lead_returns now company_name signals industry employee_count r :
  score_lead now company_name signals industry employee_count = Ok r ->
  exists size engagement fit intent attrs explanation,
    check_str employee_count = Ok tt /\
    lead_sub_scores signals industry employee_count =
      Ok (size, engagement, fit, intent, attrs) /\
    generate_lead_explanation company_name
      (weighted_score size engagement fit intent)
      (lead_tier (weighted_score size engagement fit intent))
      signals industry employee_count = Ok explanation /\
    r = PredictionResult.mk
          (py_round (weighted_score size engagement fit intent) 2)
          (lead_tier (weighted_score size engagement fit intent))
          attrs explanation MODEL_VERSION now.
Proof.
  unfold score_lead. intros H.
  destruct (check_str employee_count) as [[]|] eqn:Ec; [|discriminate H].
  cbn [bind] in H.
  destruct (lead_sub_scores signals industry employee_count)
    as [[[[[size engagement] fit] intent] attrs]|] eqn:E; [|discriminate H].
  cbn [bind] in H.
  destruct (generate_lead_explanation _ _ _ _ _ _) as [s|] eqn:Es;
    [|discriminate H].
  cbn [bind] in H.
  pose proof (f_equal (fun x => match x with Ok v => v | Raise _ => r end) H) as Hr.
  cbv beta iota in Hr. clear H.
  exists size, engagement, fit, intent, attrs, s.
  split; [reflexivity|]. split; [reflexivity|]. split; [exact Es|].
  symmetry. exact Hr.
Qed.

(** Bounded universal statements over [Z] are settled by evaluation. *)
Lemma forall_range (P : Z -> bool) (lo len : nat) :
  forallb P (map Z.of_nat (seq lo len)) = true ->
  forall n, Z.of_nat lo <= n < Z.of_nat lo + Z.of_nat len -> P n = true.
Proof.
  intros H n Hn.
  rewrite forallb_forall in H. apply H.
  apply in_map_iff. exists (Z.to_nat n). split; [lia|].
  apply in_seq. lia.
Qed.

(** ** Churn risk *)

Lemma churn_rules_spec usage :
  Spec.usage_ok usage ->
  churn_rules usage = Ok (Z2F (Spec.churn_points usage), Spec.churn_factors usage).
Proof.
  intros (Hdau & Hfeat & _ & Htick & Hnps & Hlogin).
  unfold churn_rules, Spec.churn_points, Spec.churn_factors, Spec.churn_bands.
  rewrite !dict_get_count, dict_get_nps by assumption.
  generalize (Spec.count usage "daily_active_users"); intros dau.
  generalize (Spec.count usage "features_adopted"); intros features.
  generalize (Spec.count usage "support_tickets_30d"); intros tickets.
  generalize (Spec.count usage "login_frequency_7d"); intros login.
  generalize (Spec.nps usage); intros nps.
  unfold Spec.dau_risk, Spec.nps_risk, Spec.tickets_risk, Spec.login_risk,
    Spec.features_risk.
  cbn [lt_int le_int gt_int bind].
  destruct (dau <? 5); [|destruct (dau <? 10)];
    (destruct nps as [n|];
     [cbn [le_int bind]; destruct (n <=? 4); [|destruct (n <=? 6)]|]);
    (destruct (5 <? tickets); [|destruct (3 <? tickets)]);
    destruct (login <? 5); destruct (features <? 3);
    vm_compute; reflexivity.
Qed.

Lemma churn_points_range usage : 0 <= Spec.churn_points usage <= 100.
Proof.
  unfold Spec.churn_points, Spec.churn_bands, Spec.dau_risk, Spec.nps_risk,
    Spec.tickets_risk, Spec.login_risk, Spec.features_risk.
  repeat match goal with
         | |- context [if ?b then _ else _] => destruct b
         | |- context [match ?o with Some _ => _ | None => _ end] => destruct o
         end; simpl; lia.
Qed.

(** Integral scores up to 100 are doubles that [round] leaves alone, and the
    churn tier of such a double is the tier of the integer. *)
Lemma churn_score_exact p :
  0 <= p <= 100 ->
  py_round (Z2F p) 2 = Z2F p /\ churn_tier (Z2F p) = Spec.churn_tier p.
Proof.
  intros Hp.
  pose (P := fun p => andb (PrimFloat.Leibniz.eqb (py_round (Z2F p) 2) (Z2F p))
                           (String.eqb (churn_tier (Z2F p)) (Spec.churn_tier p))).
  assert (H : P p = true).
  { apply (forall_range P 0 101); [vm_compute; reflexivity | lia]. }
  unfold P in H. apply andb_true_iff in H as [H1 H2].
  apply FloatAxioms.Leibniz.eqb_spec in H1. apply String.eqb_eq in H2. auto.
Qed.

(** C3. For every well-typed usage bag the risk score is the sum of the
    points of the bands that fire, at most one band per signal, the highest
    severity first, and an absent or null NPS adds nothing; the declining
    signals are the texts of these bands in rule order and the tier is read
    off the sum.  With dau=3, nps=3, tickets=8, login=2, features=2 the risk
    is 100, the tier critical, and five signals are declining. *)
Theorem churn_risk_is_additive :
  (forall now account,
      let usage := Account.usage_signals account in
      Spec.usage_ok usage ->
      exists r,
        detect_churn_risk now account = Ok r /\
        ChurnResult.risk_score r = Z2F (Spec.churn_points usage) /\
        ChurnResult.declining_signals r = Spec.churn_factors usage /\
        ChurnResult.risk_tier r = Spec.churn_tier (Spec.churn_points usage) /\
        (Spec.nps usage = None ->
         Spec.churn_points usage =
           (Spec.dau_risk (Spec.count usage "daily_active_users")).1 +
           ((Spec.tickets_risk (Spec.count usage "support_tickets_30d")).1 +
            ((Spec.login_risk (Spec.count usage "login_frequency_7d")).1 +
             (Spec.features_risk (Spec.count usage "features_adopted")).1)))) /\
  (forall now,
      exists r,
        detect_churn_risk now Examples.at_risk_account = Ok r /\
        ChurnResult.risk_score r = 100%float /\
        ChurnResult.risk_tier r = "critical" /\
        length (ChurnResult.declining_signals r) = 5%nat).
Proof.
  split.
  - intros now account usage Hok.
    unfold detect_churn_risk. fold usage.
    rewrite (churn_rules_spec usage Hok). cbn [bind].
    destruct (churn_score_exact _ (churn_points_range usage)) as [Hround Htier].
    eexists. split; [reflexivity|]. cbn [ChurnResult.risk_score
      ChurnResult.declining_signals ChurnResult.risk_tier].
    repeat split; try assumption.
    intros Hnps. unfold Spec.churn_points, Spec.churn_bands. rewrite Hnps.
    simpl. lia.
  - intros now. eexists. split; [vm_compute; reflexivity|].
    vm_compute. repeat split.
Qed.

Lemma churn_risk_is_additive_witness :
  exists r,
    detect_churn_risk "2024-11-01T00:00:00Z" Examples.at_risk_account = Ok r /\
    ChurnResult.risk_score r = Z2F (Spec.churn_points Examples.at_risk_usage) /\
    ChurnResult.declining_signals r = Spec.churn_factors Examples.at_risk_usage.
Proof.
  destruct (proj1 churn_risk_is_additive "2024-11-01T00:00:00Z"
              Examples.at_risk_account) as (r & H1 & H2 & H3 & _).
  - vm_compute. intuition discriminate.
  - exists r. auto.
Defined.

(** ** Lead scoring *)

(** Splits a hypothesis [let* x := m in k = Ok r] on the result of [m]. *)
Ltac bind_inv H :=
  cbv beta zeta delta [bind] in H;
  repeat match type of H with
         | match ?m with Ok _ => _ | Raise _ => _ end = Ok _ =>
             let E := fresh "E" in
             destruct m eqn:E; [|discriminate H]
         | context [match ?p with pair _ _ => _ end] => is_var p; destruct p
         end.

Lemma engagement_attributions signals s attrs :
  calculate_engagement_score signals = Ok (s, attrs) ->
  map Attribution.feature_name attrs =
    [ "website_visits_30d"; "email_engagement_score"; "demo_requested";
      "free_trial_started"; "whitepaper_downloads" ] /\
  map Attribution.contribution attrs = [25; 30; 20; 15; 10]%float.
Proof.
  intros H. unfold calculate_engagement_score in H. bind_inv H.
  injection H as _ <-. split; reflexivity.
Qed.

Lemma map_scale_contribution w attrs :
  map Attribution.contribution (map (scale_contribution w) attrs) =
  map (fun c => (c * w)%float) (map Attribution.contribution attrs).
Proof. induction attrs; simpl; congruence. Qed.

Lemma map_scale_feature_name w attrs :
  map Attribution.feature_name (map (scale_contribution w) attrs) =
  map Attribution.feature_name attrs.
Proof. induction attrs; simpl; congruence. Qed.

Lemma sub_scores_attributions signals industry employee_count a b c d attrs :
  lead_sub_scores signals industry employee_count = Ok (a, b, c, d, attrs) ->
  map Attribution.feature_name attrs =
    [ "company_size"; "website_visits_30d"; "email_engagement_score";
      "demo_requested"; "free_trial_started"; "whitepaper_downloads";
      "industry_fit"; "linkedin_engagement" ] /\
  map Attribution.contribution attrs = map Z2F [20; 10; 12; 8; 6; 4; 20; 20].
Proof.
  intros H. unfold lead_sub_scores in H. bind_inv H.
  unfold calculate_intent_score in H. cbv zeta iota beta in H.
  pose proof (f_equal (fun r => match r with
                                | Ok (_, _, _, _, l) => l | Raise _ => [] end) H) as Hl.
  cbv beta iota in Hl. clear H. subst attrs.
  match goal with
  | E : calculate_engagement_score _ = _ |- _ =>
      apply engagement_attributions in E as [Hn Hc]
  end.
  repeat first [rewrite List.map_cons | rewrite List.map_app].
  rewrite !map_scale_contribution, !map_scale_feature_name, Hn, Hc.
  split; [reflexivity | vm_compute; reflexivity].
Qed.

(** C10. Whenever [score_lead] returns, its attribution list has the eight
    entries company_size, website_visits_30d, email_engagement_score,
    demo_requested, free_trial_started, whitepaper_downloads, industry_fit,
    linkedin_engagement in this order, the rescaled contributions are the
    doubles 20, 10, 12, 8, 6, 4, 20, 20, and they sum to exactly 100. *)
Theorem lead_attributions_fixed :
  forall now company_name signals industry employee_count r,
    score_lead now company_name signals industry employee_count = Ok r ->
    let attrs := PredictionResult.feature_attributions r in
    map Attribution.feature_name attrs =
      [ "company_size"; "website_visits_30d"; "email_engagement_score";
        "demo_requested"; "free_trial_started"; "whitepaper_downloads";
        "industry_fit"; "linkedin_engagement" ] /\
    map Attribution.contribution attrs = map Z2F [20; 10; 12; 8; 6; 4; 20; 20] /\
    foldr Z.add 0 [20; 10; 12; 8; 6; 4; 20; 20] = 100 /\
    foldl PrimFloat.add 0%float (map Attribution.contribution attrs) = 100%float.
Proof.
  intros now company_name signals industry employee_count r H attrs.
  unfold score_lead in H. bind_inv H.
  injection H as <-. subst attrs. cbn [PredictionResult.feature_attributions].
  match goal with
  | E : lead_sub_scores _ _ _ = _ |- _ =>
      apply sub_scores_attributions in E as [Hn Hc]
  end.
  rewrite Hn, Hc. repeat split; vm_compute; reflexivity.
Qed.

Lemma lead_attributions_fixed_witness :
  exists r,
    score_lead "2024-11-01T00:00:00Z" "Test Corp" Examples.hot_signals
      "technology" (VInt 1000) = Ok r /\
    length (PredictionResult.feature_attributions r) = 8%nat /\
    foldl PrimFloat.add 0%float
      (map Attribution.contribution (PredictionResult.feature_attributions r)) =
    100%float.
Proof.
  eexists. split; [vm_compute; reflexivity|].
  split; [reflexivity|].
  eapply (lead_attributions_fixed "2024-11-01T00:00:00Z" "Test Corp"
            Examples.hot_signals "technology" (VInt 1000)).
  vm_compute; reflexivity.
Defined.

(** C1. For the hot lead of the test suite (60 visits, demo requested, 5
    downloads, email score 90, LinkedIn engagement, free trial started;
    industry technology, 1000 employees) the sub-scores are 100 (company
    size), 97.0 (engagement), 90 (industry) and 100 (intent), the score of the
    result is 96.8 and the tier is hot. *)
Theorem score_lead_hot_example :
  forall now company_name,
  exists attrs r,
    lead_sub_scores Examples.hot_signals "technology" (VInt 1000) =
      Ok (100, 97.0%float, 90, 100, attrs) /\
    score_lead now company_name Examples.hot_signals "technology" (VInt 1000) =
      Ok r /\
    PredictionResult.score r = 96.8%float /\
    PredictionResult.tier r = "hot".
Proof.
  intros now company_name. eexists. eexists.
  split; [vm_compute; reflexivity|].
  split; [vm_compute; reflexivity|].
  split; reflexivity.
Qed.

(** ** Impact labels *)




(** ** Interventions *)

Lemma prefix_append n s :
  String.prefix n s = true <-> exists post, s = n +:+ post.
Proof.
  revert s. induction n as [|c n IH]; intros s.
  - split; [exists s; reflexivity | destruct s; reflexivity].
  - destruct s as [|c' s]; simpl.
    + split; [discriminate | intros [post H]; discriminate].
    + destruct (Ascii.ascii_dec c c') as [->|Hne].
      * rewrite IH. split; intros [post H]; exists post.
        -- rewrite H. reflexivity.
        -- change (String c' s = String c' (n +:+ post)) in H. congruence.
      * split; [discriminate|]. intros [post H].
        change (String c' s = String c (n +:+ post)) in H. congruence.
Qed.

Lemma str_in_unfold needle s :
  str_in needle s =
  if String.prefix needle s then true
  else match s with
       | EmptyString => false
       | String _ s' => str_in needle s'
       end.
Proof. destruct s; reflexivity. Qed.

Lemma str_in_substring needle s :
  str_in needle s = true <-> Spec.substring needle s.
Proof.
  unfold Spec.substring. induction s as [|c s IH]; rewrite str_in_unfold.
  - destruct (String.prefix needle "") eqn:E.
    + apply prefix_append in E as [post E]. split; [|reflexivity].
      intros _. exists "", post. exact E.
    + split; [discriminate|]. intros (pre & post & H).
      destruct pre; [|discriminate H].
      assert (String.prefix needle "" = true) by (apply prefix_append; eauto).
      congruence.
  - destruct (String.prefix needle (String c s)) eqn:E.
    + apply prefix_append in E as [post E]. split; [|reflexivity].
      intros _. exists "", post. exact E.
    + rewrite IH. split.
      * intros (pre & post & ->). exists (String c pre), post. reflexivity.
      * intros (pre & post & H). destruct pre as [|c' pre].
        -- assert (String.prefix needle (String c s) = true)
             by (apply prefix_append; eauto).
           congruence.
        -- change (String c s = String c' (pre +:+ needle +:+ post)) in H.
           injection H as _ ->. eauto.
Qed.

Lemma elem_of_interventions_loop (x : string) factors acc :
  x ∈ foldl (fun interventions factor =>
               interventions ++ interventions_of_factor factor) acc factors <->
  x ∈ acc \/ exists factor, factor ∈ factors /\ x ∈ interventions_of_factor factor.
Proof.
  revert acc. induction factors as [|f factors IH]; intros acc; simpl.
  - split; [auto|]. intros [H|(f & Hf & _)]; [assumption|]. inversion Hf.
  - rewrite IH, elem_of_app. split.
    + intros [[H|H]|(g & Hg & Hx)]; [auto| |].
      * right. exists f. split; [left|assumption].
      * right. exists g. split; [right; assumption|assumption].
    + intros [H|(g & Hg & Hx)]; [auto|].
      apply elem_of_cons in Hg as [->|Hg]; [auto|].
      right. exists g. auto.
Qed.

Lemma elem_of_interventions_of_factor (x : string) factor :
  x ∈ interventions_of_factor factor <->
  (x = Spec.REVIEW /\
   (Spec.substring "NPS" factor \/ Spec.substring "support ticket" factor)) \/
  (x = Spec.TRAINING /\
   (Spec.substring "daily active" factor \/ Spec.substring "login" factor)) \/
  (x = Spec.FEATURES /\ Spec.substring "feature adoption" factor).
Proof.
  unfold interventions_of_factor.
  rewrite <- !str_in_substring.
  destruct (str_in "NPS" factor), (str_in "support ticket" factor),
    (str_in "daily active" factor), (str_in "login" factor),
    (str_in "feature adoption" factor); cbn [orb app];
    rewrite ?elem_of_cons, ?elem_of_nil;
    unfold Spec.REVIEW, Spec.TRAINING, Spec.FEATURES;
    intuition (try discriminate; try congruence).
Qed.

Lemma mentions_two a b factors :
  Spec.mentions [a; b] factors <->
  exists factor, factor ∈ factors /\ (Spec.substring a factor \/ Spec.substring b factor).
Proof.
  unfold Spec.mentions. split.
  - intros (f & n & Hf & Hn & Hs). exists f. split; [assumption|].
    rewrite !elem_of_cons, elem_of_nil in Hn.
    destruct Hn as [->|[->|[]]]; auto.
  - intros (f & Hf & [H|H]); exists f; [exists a|exists b];
      rewrite !elem_of_cons; auto.
Qed.

Lemma mentions_one a factors :
  Spec.mentions [a] factors <->
  exists factor, factor ∈ factors /\ Spec.substring a factor.
Proof.
  unfold Spec.mentions. split.
  - intros (f & n & Hf & Hn & Hs). exists f. split; [assumption|].
    rewrite elem_of_cons, elem_of_nil in Hn. destruct Hn as [->|[]]. assumption.
  - intros (f & Hf & H). exists f, a. rewrite elem_of_cons. auto.
Qed.

(** C7. The suggested interventions are the deduplicated set of the
    suggestions the declining signals map to by substring match ("NPS" or
    "support ticket": executive business review; "daily active" or "login":
    onboarding/training session; "feature adoption": advanced features),
    plus the Professional-tier upsell exactly when the plan is "starter".
    The list has no duplicates and is characterised by its members: its
    order is not significant. *)
Theorem interventions_are_the_mapped_set :
  forall risk_factors account,
    let interventions := generate_intervention_suggestions risk_factors account in
    NoDup interventions /\
    forall s,
      s ∈ interventions <->
      (s = Spec.REVIEW /\ Spec.mentions ["NPS"; "support ticket"] risk_factors) \/
      (s = Spec.TRAINING /\ Spec.mentions ["daily active"; "login"] risk_factors) \/
      (s = Spec.FEATURES /\ Spec.mentions ["feature adoption"] risk_factors) \/
      (s = Spec.UPSELL /\ Account.plan account = "starter").
Proof.
  intros risk_factors account interventions. subst interventions.
  unfold generate_intervention_suggestions, list_set. split.
  - apply NoDup_elements.
  - intros s. rewrite elem_of_elements, elem_of_list_to_set.
    rewrite !mentions_two, mentions_one.
    assert (Hloop :
      s ∈ foldl (fun interventions factor =>
                   interventions ++ interventions_of_factor factor) [] risk_factors <->
      (s = Spec.REVIEW /\
       exists f, f ∈ risk_factors /\
                 (Spec.substring "NPS" f \/ Spec.substring "support ticket" f)) \/
      (s = Spec.TRAINING /\
       exists f, f ∈ risk_factors /\
                 (Spec.substring "daily active" f \/ Spec.substring "login" f)) \/
      (s = Spec.FEATURES /\
       exists f, f ∈ risk_factors /\ Spec.substring "feature adoption" f)).
    { rewrite elem_of_interventions_loop, elem_of_nil. split.
      - intros [[]|(f & Hf & Hs)].
        apply elem_of_interventions_of_factor in Hs.
        destruct Hs as [[-> H]|[[-> H]|[-> H]]]; eauto 6.
      - intros H. right.
        destruct H as [[-> (f & Hf & H)]|[[-> (f & Hf & H)]|[-> (f & Hf & H)]]];
          exists f; (split; [assumption|]);
          apply elem_of_interventions_of_factor; auto. }
    destruct (String.eqb_spec (Account.plan account) "starter") as [Hp|Hp].
    + rewrite elem_of_app, Hloop, elem_of_cons, elem_of_nil.
      unfold Spec.UPSELL. tauto.
    + rewrite Hloop. unfold Spec.UPSELL. tauto.
Qed.

(** ** The clock

    The reading of the clock reaches the timestamp of a result and nothing
    else. *)

Lemma score_lead_clock now1 now2 company_name signals industry employee_count :
  score_lead now2 company_name signals industry employee_count =
  Spec.map_result (Spec.lead_at now2)
    (score_lead now1 company_name signals industry employee_count).
Proof.
  unfold score_lead.
  destruct (check_str employee_count); [|reflexivity]. cbn [bind].
  destruct (lead_sub_scores signals industry employee_count)
    as [[[[[size engagement] fit] intent] attrs]|e]; [|reflexivity].
  cbn [bind].
  destruct (generate_lead_explanation _ _ _ _ _ _); reflexivity.
Qed.

Lemma detect_churn_risk_clock now1 now2 account :
  detect_churn_risk now2 account =
  Spec.map_result (Spec.churn_at now2) (detect_churn_risk now1 account).
Proof.
  unfold detect_churn_risk.
  destruct (churn_rules _) as [[risk factors]|e]; reflexivity.
Qed.

Lemma conversion_clock float_repr now1 now2 account :
  calculate_conversion_probability float_repr now2 account =
  Spec.map_result (Spec.conversion_at now2)
    (calculate_conversion_probability float_repr now1 account).
Proof.
  unfold calculate_conversion_probability.
  destruct (conversion_score _) as [p|e]; [|reflexivity]. cbn [bind].
  repeat match goal with
         | |- context [bind (ge_int ?v ?c) _] =>
             destruct (ge_int v c) as [[]|]; cbn [bind]
         | |- context [bind (format_field ?r ?v) _] =>
             destruct (format_field r v); cbn [bind]
         end; reflexivity.
Qed.

(** ** The gateway *)

(** C9. When the account the gateway resolves is not on the "trial" plan,
    [get_conversion_insights] returns, without raising, a response whose
    document is an object with the single key "error", and logs nothing; and
    the conversion engine does not read the plan: accounts that differ in
    their plan only get the same result. *)
Theorem non_trial_account_is_rejected_with_an_error_object :
  forall float_repr exn_str now log_now uuid ACCOUNTS PREDICTION_LOGS
         arguments account_id account,
    arguments !! "account_id" = Some account_id ->
    get_account ACCOUNTS account_id = Some account ->
    Account.plan account <> "trial" ->
    (exists msg,
        Server.get_conversion_insights float_repr now log_now uuid
          ACCOUNTS PREDICTION_LOGS arguments =
        Ok ([Server.mk_text "text" (JObj [("error", JStr msg)])], PREDICTION_LOGS) /\
        Server.call_tool_get_conversion_insights float_repr exn_str now log_now
          uuid ACCOUNTS PREDICTION_LOGS arguments =
        ([Server.mk_text "text" (JObj [("error", JStr msg)])], PREDICTION_LOGS)) /\
    (forall id company plan plan' usage,
        calculate_conversion_probability float_repr now
          (Account.mk id company plan usage) =
        calculate_conversion_probability float_repr now
          (Account.mk id company plan' usage)).
Proof.
  intros float_repr exn_str now log_now uuid ACCOUNTS LOGS arguments account_id
    account Harg Hacc Hplan.
  split; [|reflexivity].
  eexists.
  assert (Hbody :
    Server.get_conversion_insights float_repr now log_now uuid ACCOUNTS LOGS
      arguments =
    Ok ([Server.mk_text "text"
           (JObj [("error",
                   JStr ("Account " +:+ py_str float_repr account_id +:+
                         " is not a trial account (plan: " +:+
                         Account.plan account +:+ ")"))])], LOGS)).
  { unfold Server.get_conversion_insights, dict_item. rewrite Harg. cbn [bind].
    rewrite Hacc.
    destruct (String.eqb_spec (Account.plan account) "trial") as [E|E];
      [contradiction|reflexivity]. }
  split; [exact Hbody|].
  unfold Server.call_tool_get_conversion_insights. rewrite Hbody. reflexivity.
Qed.

Lemma non_trial_account_is_rejected_witness :
  let starter := Account.mk "acc_004" "Growth Co" "starter" ∅ in
  exists msg,
    Server.call_tool_get_conversion_insights (fun _ => "") (fun _ => "")
      "2024-11-01T00:00:00Z" "2024-11-01T00:00:01Z" "uuid"
      [Examples.active_trial; starter] [] {[ "account_id" := VStr "acc_004" ]} =
    ([Server.mk_text "text" (JObj [("error", JStr msg)])], []).
Proof.
  intros starter.
  destruct (non_trial_account_is_rejected_with_an_error_object
              (fun _ => "") (fun _ => "")
              "2024-11-01T00:00:00Z" "2024-11-01T00:00:01Z" "uuid"
              [Examples.active_trial; starter] []
              {[ "account_id" := VStr "acc_004" ]} (VStr "acc_004") starter)
    as [(msg & _ & H) _].
  - reflexivity.
  - reflexivity.
  - discriminate.
  - exists msg. exact H.
Defined.

(** ** Trial conversion *)

Lemma conversion_score_spec usage :
  Spec.usage_ok usage ->
  let percent := Spec.conversion_percent usage in
  exists p,
    conversion_score usage = Ok p /\
    py_round p 3 = (Z2F percent / 100)%float /\
    (percent = 40 \/ get_probability_tier p = Spec.percent_tier percent) /\
    0 <= percent <= 100.
Proof.
  intros (Hdau & Hfeat & Hapi & _ & _ & Hlogin).
  unfold conversion_score, Spec.conversion_percent, Spec.dau_bonus,
    Spec.features_bonus, Spec.api_bonus, Spec.login_bonus, Spec.band, band_bonus.
  rewrite !dict_get_count by assumption.
  generalize (Spec.count usage "daily_active_users"); intros dau.
  generalize (Spec.count usage "features_adopted"); intros features.
  generalize (Spec.count usage "api_calls_per_day"); intros api.
  generalize (Spec.count usage "login_frequency_7d"); intros login.
  cbn [ge_int bind].
  (destruct (15 <=? dau); [|destruct (10 <=? dau); [|destruct (5 <=? dau)]]);
    cbn [bind];
    (destruct (5 <=? features); [|destruct (3 <=? features); [|destruct (2 <=? features)]]);
    cbn [bind];
    (destruct (300 <=? api); [|destruct (150 <=? api); [|destruct (50 <=? api)]]);
    cbn [bind];
    (destruct (14 <=? login); [|destruct (10 <=? login); [|destruct (5 <=? login)]]);
    cbn [bind];
    (eexists; split; [reflexivity|]);
    (split; [vm_compute; reflexivity|]);
    (split; [first [right; vm_compute; reflexivity | left; reflexivity]|]);
    cbv zeta; lia.
Qed.

(** ** The range of the lead score *)

Ltac by_eval := vm_compute; reflexivity.

(** The scores that are integers in the source enter the weighted sums as
    the doubles of the same value. *)
Lemma Z2F_percent n :
  0 <= n <= 100 -> float_of_int n = Ok (Z2F n) /\ within 0 100 (Z2F n).
Proof.
  intros Hn.
  pose (P := fun n =>
    match SF_of_Z n with S754_infinity _ => false | _ => true end &&
    ((0 <=? Z2F n)%float && (Z2F n <=? 100)%float)).
  assert (H : P n = true).
  { apply (forall_range P 0 101); [by_eval | lia]. }
  unfold P in H. apply andb_true_iff in H as [H1 H2].
  apply andb_true_iff in H2 as [H2 H3].
  split; [|split; assumption].
  unfold float_of_int, Z2F. destruct (SF_of_Z n); try reflexivity; discriminate.
Qed.

(** [min(100, q * 100)] of a quotient of counts. *)
Lemma capped_score_within q :
  endpoint q = true -> within 0 100 (py_min 100 (q * 100)).
Proof.
  intros Hq.
  destruct (mul_ulps q 100 Hq ltac:(by_eval)) as [N _].
  unfold py_min. destruct (q * 100 <? 100)%float eqn:E.
  - rewrite ltb_ulps in E by (exact N || by_eval). apply Z.ltb_lt in E.
    apply within_intro; [by_eval | by_eval | exact N |].
    pose proof (prim_ulps_nonneg (q * 100)) as H0.
    replace (ulps (Prim2SF 0)) with 0 by by_eval. lia.
  - split; reflexivity.
Qed.

Ltac within_sum H1 H2 A :=
  match type of H1 with
  | within ?l1 ?h1 ?x =>
      match type of H2 with
      | within ?l2 ?h2 ?y =>
          assert (A : within (l1 + l2)%float (h1 + h2)%float (x + y)%float)
            by (apply within_add; solve [by_eval | assumption])
      end
  end.

Ltac within_scaled H c M :=
  match type of H with
  | within ?l ?h ?x =>
      assert (M : within (l * c)%float (h * c)%float (x * c)%float)
        by (apply within_mul; solve [by_eval | assumption])
  end.

(** The five weighted terms of the engagement score. *)
Lemma engagement_sum_within (w e d t p : float) :
  within 0 100 w -> within 0 100 e -> within 0 100 d -> within 0 100 t ->
  within 0 100 p ->
  within 0 100 (w * 0.25 + e * 0.30 + d * 0.20 + t * 0.15 + p * 0.10)%float.
Proof.
  intros Ww We Wd Wt Wp.
  within_scaled Ww 0.25%float M1.
  within_scaled We 0.30%float M2.
  within_scaled Wd 0.20%float M3.
  within_scaled Wt 0.15%float M4.
  within_scaled Wp 0.10%float M5.
  within_sum M1 M2 A1.
  within_sum A1 M3 A2.
  within_sum A2 M4 A3.
  within_sum A3 M5 A4.
  revert A4. apply within_weaken; by_eval.
Qed.

(** The four weighted terms of the final score. *)
Lemma weighted_score_within size engagement industry intent :
  0 <= size <= 100 -> within 0 100 engagement ->
  0 <= industry <= 100 -> 0 <= intent <= 100 ->
  within 0 100 (weighted_score size engagement industry intent).
Proof.
  intros Hs We Hi Ht.
  destruct (Z2F_percent size Hs) as [_ Ws].
  destruct (Z2F_percent industry Hi) as [_ Wi].
  destruct (Z2F_percent intent Ht) as [_ Wt].
  unfold weighted_score.
  replace (LEAD_SCORE_WEIGHTS !!! "company_size") with 0.20%float by by_eval.
  replace (LEAD_SCORE_WEIGHTS !!! "engagement_signals") with 0.40%float by by_eval.
  replace (LEAD_SCORE_WEIGHTS !!! "industry_fit") with 0.20%float by by_eval.
  replace (LEAD_SCORE_WEIGHTS !!! "intent_signals") with 0.20%float by by_eval.
  revert Ws We Wi Wt.
  generalize (Z2F size) (Z2F industry) (Z2F intent). intros s i t Ws We Wi Wt.
  within_scaled Ws 0.20%float M1.
  within_scaled We 0.40%float M2.
  within_scaled Wi 0.20%float M3.
  within_scaled Wt 0.20%float M4.
  within_sum M1 M2 A1.
  within_sum A1 M3 A2.
  within_sum A2 M4 A3.
  revert A3. apply within_weaken; by_eval.
Qed.

(** [round(x, 2)] keeps a score in range. *)
Lemma py_round_within x : within 0 100 x -> within 0 100 (py_round x 2).
Proof.
  intros Hw.
  pose proof (within_endpoint 0 100 x ltac:(by_eval) ltac:(by_eval) Hw) as Hx.
  pose proof (within_ulps 0 100 x ltac:(by_eval) ltac:(by_eval) Hw) as [_ Hu].
  pose proof (Prim2SF_valid x) as V.
  unfold py_round, endpoint in *.
  destruct (Prim2SF x) as [| | |[] m e]; try exact Hw; try discriminate Hx.
  cbn [valid_binary] in V. apply bounded_bounds in V as (_ & He & _).
  cbn [ulps] in Hu.
  replace (ulps (Prim2SF 100)) with (100 * 2 ^ 1074) in Hu by by_eval.
  assert (HN : 0 <= decimal_scaled 2 m e <= 10000).
  { unfold decimal_scaled. destruct (Z.leb_spec 0 e) as [H0|H0].
    - rewrite (pow2_split e 1074) in Hu by lia.
      pose proof (pow2_pos e H0) as Hp.
      pose proof (pow2_pos 1074 ltac:(lia)) as Hq.
      change (10 ^ 2) with 100.
      generalize dependent (2 ^ 1074). generalize dependent (2 ^ e).
      intros a Ha b Hb Hab. nia.
    - pose proof (pow2_pos (- e) ltac:(lia)) as Hp.
      assert (Hm : Z.pos m <= 100 * 2 ^ (- e)).
      { replace 1074 with ((e + 1074) + (- e)) in Hu at 2 by lia.
        rewrite (pow2_split (e + 1074) (- e)) in Hu by lia.
        pose proof (pow2_pos (e + 1074) ltac:(lia)) as Hq.
        generalize dependent (2 ^ (e + 1074)). generalize dependent (2 ^ (- e)).
        intros a Ha b Hb Hab. nia. }
      change (10 ^ 2) with 100. split.
      + pose proof (rhe_bounds (Z.pos m * 100) (2 ^ (- e)) Hp) as [Hl _].
        pose proof (Z.div_pos (Z.pos m * 100) (2 ^ (- e)) ltac:(lia) Hp). lia.
      + pose proof (rhe_mono (Z.pos m * 100) (10000 * 2 ^ (- e)) (2 ^ (- e)) Hp
                      ltac:(lia)) as Hle.
        rewrite (rhe_exact (10000 * 2 ^ (- e))) in Hle
          by (try assumption; apply Z.mod_mul; lia).
        rewrite Z.div_mul in Hle by lia. exact Hle. }
  revert HN. generalize (decimal_scaled 2 m e). intros N HN.
  pose (P := fun N =>
    let r := SF2Prim (SFdiv prec emax (signed_int false N) (exact_int (10 ^ 2))) in
    ((0 <=? r)%float && (r <=? 100)%float)).
  assert (H : P N = true).
  { apply (forall_range P 0 (Z.to_nat 10001)); [by_eval | lia]. }
  unfold P in H. apply andb_true_iff in H. exact H.
Qed.

(** On a score in range, [not (c <= x)] is [x < c]. *)
Lemma fge_int_false x c :
  within 0 100 x -> 0 <= c <= 100 ->
  fge_int x c = negb (x <? Z2F c)%float.
Proof.
  intros Hw Hc. unfold fge_int.
  pose proof (within_endpoint 0 100 x ltac:(by_eval) ltac:(by_eval) Hw) as Hx.
  destruct (Z2F_percent c Hc) as [_ Wc].
  pose proof (within_endpoint 0 100 _ ltac:(by_eval) ltac:(by_eval) Wc) as Hz.
  rewrite leb_ulps, ltb_ulps by auto using endpoint_nonneg.
  apply Z.leb_antisym.
Qed.

(** The tier of a final score in range, by its position relative to the
    cut-offs 70 and 40. *)
Lemma lead_tier_bands x :
  within 0 100 x ->
  ((70 <=? x)%float = true /\ lead_tier x = "hot") \/
  ((40 <=? x)%float = true /\ (x <? 70)%float = true /\ lead_tier x = "warm") \/
  ((x <? 40)%float = true /\ lead_tier x = "cold").
Proof.
  intros Hw. unfold lead_tier.
  replace (LEAD_TIER_THRESHOLDS !!! "hot") with 70 by by_eval.
  replace (LEAD_TIER_THRESHOLDS !!! "warm") with 40 by by_eval.
  pose proof (fge_int_false x 70 Hw ltac:(lia)) as H70.
  pose proof (fge_int_false x 40 Hw ltac:(lia)) as H40.
  change (Z2F 70) with 70%float in H70. change (Z2F 40) with 40%float in H40.
  change (fge_int x 70) with (70 <=? x)%float in *.
  change (fge_int x 40) with (40 <=? x)%float in *.
  destruct (70 <=? x)%float; [left; auto|].
  destruct (40 <=? x)%float.
  - right; left. destruct (x <? 70)%float; [auto | discriminate].
  - right; right. destruct (x <? 40)%float; [auto | discriminate].
Qed.

(** ** The sub-scores of a lead *)

Lemma company_size_range employee_count s :
  get_company_size_score employee_count = Ok s -> 0 <= s <= 100.
Proof.
  unfold get_company_size_score. intros H. bind_inv H.
  repeat match type of H with
         | (if ?b then _ else _) = _ => destruct b
         | match ?m with Ok _ => _ | Raise _ => _ end = Ok _ =>
             destruct m; [|discriminate H]
         end;
  injection H as <-; lia.
Qed.

Lemma company_size_total n : exists s, get_company_size_score (VInt n) = Ok s.
Proof.
  unfold get_company_size_score. cbn [ge_int bind].
  repeat match goal with
         | |- context [if ?b then _ else _] => destruct b
         end; eexists; reflexivity.
Qed.

Lemma industry_score_range industry :
  0 <= default (INDUSTRY_FIT_SCORES !!! "default") (INDUSTRY_FIT_SCORES !! industry)
    <= 100.
Proof.
  destruct (INDUSTRY_FIT_SCORES !! industry) as [z|] eqn:E;
    cbn [default from_option id].
  - apply elem_of_list_to_map_2, list_elem_of_In in E.
    assert (H : forallb (fun kv => (0 <=? snd kv) && (snd kv <=? 100))
                  INDUSTRY_FIT_TABLE = true) by by_eval.
    rewrite forallb_forall in H. apply H in E. cbn [snd] in E.
    apply andb_true_iff in E as [E1 E2]. apply Z.leb_le in E1, E2.
    lia.
  - replace (INDUSTRY_FIT_SCORES !!! "default") with 50 by by_eval. lia.
Qed.

Lemma intent_score_range signals :
  0 <= fst (calculate_intent_score signals) <= 100.
Proof.
  unfold calculate_intent_score. cbn [fst].
  destruct (truthy _); lia.
Qed.

(** The email signal of a well-typed bag: a number in range, which compares
    with any literal. *)
Lemma email_value signals :
  Spec.email_ok signals ->
  let email_score := dict_get signals "email_engagement_score" (VInt 0) in
  exists e, float_of email_score = Ok e /\ within 0 100 e /\
    forall c, exists b, gt_int email_score c = Ok b.
Proof.
  unfold Spec.email_ok, dict_get.
  destruct (signals !! "email_engagement_score") as [[| |n|f|]|];
    cbn [default from_option id float_of gt_int]; intros H; try contradiction.
  - destruct (Z2F_percent n H) as [-> W]. eauto.
  - exists f. split; [reflexivity|]. split; [exact H | eauto].
  - exists 0%float. split; [reflexivity|]. split; [split; reflexivity | eauto].
Qed.

Lemma flag_score_within (b : bool) : within 0 100 (if b then 100 else 0)%float.
Proof. destruct b; split; reflexivity. Qed.

Lemma engagement_score_within signals s attrs :
  Spec.signals_ok signals ->
  calculate_engagement_score signals = Ok (s, attrs) -> within 0 100 s.
Proof.
  intros (Hv & Hw & He & _) H.
  destruct (email_value signals He) as (e & Ee & We & _).
  unfold calculate_engagement_score in H.
  rewrite !(dict_get_count signals "website_visits_30d" Hv),
    !(dict_get_count signals "whitepaper_downloads" Hw), Ee in H.
  cbn [truediv as_int gt_int] in H.
  pose proof (count_nonneg _ _ Hv) as Nv. pose proof (count_nonneg _ _ Hw) as Nw.
  bind_inv H. injection H as <- _.
  apply engagement_sum_within; auto using flag_score_within.
  - apply capped_score_within. eapply int_truediv_ok; [| | eassumption]; [exact Nv | lia].
  - apply capped_score_within. eapply int_truediv_ok; [| | eassumption]; [exact Nw | lia].
Qed.

Lemma engagement_score_total signals :
  Spec.signals_ok signals ->
  Spec.count signals "website_visits_30d" < 2 ^ 1024 ->
  Spec.count signals "whitepaper_downloads" < 2 ^ 1024 ->
  exists r, calculate_engagement_score signals = Ok r.
Proof.
  intros (Hv & Hw & He & _) Bv Bw.
  destruct (email_value signals He) as (e & Ee & _ & Ge).
  destruct (Ge 60) as [b Eb].
  pose proof (count_nonneg _ _ Hv) as Nv. pose proof (count_nonneg _ _ Hw) as Nw.
  destruct (int_truediv_total (Spec.count signals "website_visits_30d") 50)
    as [q1 E1]; [lia | lia |].
  destruct (int_truediv_total (Spec.count signals "whitepaper_downloads") 5)
    as [q2 E2]; [lia | lia |].
  unfold calculate_engagement_score.
  rewrite !(dict_get_count signals "website_visits_30d" Hv),
    !(dict_get_count signals "whitepaper_downloads" Hw), Ee, Eb.
  cbn [truediv as_int gt_int]. rewrite E1, E2.
  eexists; reflexivity.
Qed.

Lemma lead_sub_scores_range
    signals industry employee_count size engagement fit intent attrs :
  Spec.signals_ok signals ->
  lead_sub_scores signals industry employee_count =
    Ok (size, engagement, fit, intent, attrs) ->
  0 <= size <= 100 /\ within 0 100 engagement /\
  0 <= fit <= 100 /\ 0 <= intent <= 100.
Proof.
  intros Hok H. unfold lead_sub_scores in H.
  destruct (get_company_size_score employee_count) as [s|] eqn:Es;
    [|discriminate H].
  destruct (calculate_engagement_score signals) as [[e ea]|] eqn:Ee;
    [|discriminate H].
  cbn [bind] in H.
  pose proof (intent_score_range signals) as Hi.
  destruct (calculate_intent_score signals) as [i ia]. cbn [fst] in Hi.
  pose proof (f_equal (fun r => match r with
                                | Ok (a, _, _, _, _) => a | Raise _ => s end) H) as H1.
  pose proof (f_equal (fun r => match r with
                                | Ok (_, b, _, _, _) => b | Raise _ => e end) H) as H2.
  pose proof (f_equal (fun r => match r with
                                | Ok (_, _, c, _, _) => c | Raise _ => s end) H) as H3.
  pose proof (f_equal (fun r => match r with
                                | Ok (_, _, _, d, _) => d | Raise _ => s end) H) as H4.
  cbv beta iota in H1, H2, H3, H4. clear H. subst size engagement fit intent.
  split; [eapply company_size_range; eassumption|].
  split; [eapply engagement_score_within; eassumption|].
  split; [apply industry_score_range | exact Hi].
Qed.

Lemma lead_sub_scores_total signals industry n :
  Spec.signals_ok signals ->
  Spec.count signals "website_visits_30d" < 2 ^ 1024 ->
  Spec.count signals "whitepaper_downloads" < 2 ^ 1024 ->
  exists r, lead_sub_scores signals industry (VInt n) = Ok r.
Proof.
  intros Hok Bv Bw.
  destruct (company_size_total n) as [s Es].
  destruct (engagement_score_total signals Hok Bv Bw) as [[e ea] Ee].
  unfold lead_sub_scores. rewrite Es, Ee. cbn [bind].
  destruct (calculate_intent_score signals). eexists; reflexivity.
Qed.

Lemma generate_lead_explanation_total company_name score tier signals industry n :
  Spec.signals_ok signals ->
  exists s,
    generate_lead_explanation company_name score tier signals industry (VInt n) =
    Ok s.
Proof.
  intros (Hv & _ & He & _).
  destruct (email_value signals He) as (_ & _ & _ & Ge).
  destruct (Ge 70) as [b Eb].
  unfold generate_lead_explanation.
  rewrite Eb, (dict_get_count signals "website_visits_30d" Hv).
  eexists; reflexivity.
Qed.

Lemma score_lead_total now company_name signals industry n :
  Spec.signals_ok signals ->
  Spec.count signals "website_visits_30d" < 2 ^ 1024 ->
  Spec.count signals "whitepaper_downloads" < 2 ^ 1024 ->
  Spec.printable n ->
  exists r, score_lead now company_name signals industry (VInt n) = Ok r.
Proof.
  intros Hok Bv Bw Hn.
  destruct (lead_sub_scores_total signals industry n Hok Bv Bw)
    as [[[[[size engagement] fit] intent] attrs] E].
  unfold score_lead. rewrite (check_str_printable n Hn), E. cbn [bind].
  destruct (generate_lead_explanation_total company_name
              (weighted_score size engagement fit intent)
              (lead_tier (weighted_score size engagement fit intent))
              signals industry n Hok) as [s Es].
  rewrite Es. eexists; reflexivity.
Qed.

Lemma detect_churn_risk_total now account :
  Spec.usage_ok (Account.usage_signals account) ->
  exists r, detect_churn_risk now account = Ok r.
Proof.
  intros Hok. unfold detect_churn_risk.
  rewrite (churn_rules_spec _ Hok). eexists; reflexivity.
Qed.

Lemma conversion_total float_repr now account :
  Spec.usage_ok (Account.usage_signals account) ->
  Spec.printable_usage (Account.usage_signals account) ->
  exists r, calculate_conversion_probability float_repr now account = Ok r.
Proof.
  intros Hok (Pdau & Pfeat & Papi).
  destruct (conversion_score_spec _ Hok) as (p & Ep & _).
  destruct Hok as (Hdau & Hfeat & Hapi & _).
  unfold calculate_conversion_probability. rewrite Ep.
  rewrite !(dict_get_count _ "daily_active_users" Hdau),
    !(dict_get_count _ "features_adopted" Hfeat),
    !(dict_get_count _ "api_calls_per_day" Hapi).
  rewrite (format_field_printable float_repr _ Pdau),
    (format_field_printable float_repr _ Pfeat),
    (format_field_printable float_repr _ Papi).
  cbn [bind ge_int].
  destruct (10 <=? _); cbn [bind]; destruct (3 <=? _); cbn [bind];
    destruct (150 <=? _); cbn [bind]; eexists; reflexivity.
Qed.

Lemma score_lead_unprintable now company_name signals industry n :
  ~ Spec.printable n ->
  score_lead now company_name signals industry (VInt n) = Raise DIGITS_ERROR.
Proof.
  intros Hn. unfold score_lead.
  destruct (check_str_inv (VInt n)) as [E|(m & Em & _ & E)].
  - exfalso. apply Hn. unfold Spec.printable. unfold check_str in E.
    destruct (Z.ltb_spec (Z.abs n) (10 ^ INT_MAX_STR_DIGITS));
      [assumption | discriminate E].
  - rewrite E. reflexivity.
Qed.

Lemma unprintable_is_large n : ~ Spec.printable n -> 0 <= n -> 300 <= n.
Proof.
  unfold Spec.printable. intros H Hn.
  assert (10 ^ 3 <= 10 ^ INT_MAX_STR_DIGITS)
    by (apply Z.pow_le_mono_r; unfold INT_MAX_STR_DIGITS; lia).
  lia.
Qed.

Lemma conversion_unprintable float_repr now account :
  Spec.usage_ok (Account.usage_signals account) ->
  ~ Spec.printable (Spec.count (Account.usage_signals account)
                      "daily_active_users") ->
  calculate_conversion_probability float_repr now account = Raise DIGITS_ERROR.
Proof.
  intros Hok Hn.
  destruct (conversion_score_spec _ Hok) as (p & Ep & _).
  destruct Hok as (Hdau & _).
  unfold calculate_conversion_probability. rewrite Ep.
  rewrite !(dict_get_count _ "daily_active_users" Hdau).
  pose proof (unprintable_is_large _ Hn (count_nonneg _ _ Hdau)) as Hl.
  cbn [bind ge_int].
  destruct (Z.leb_spec 10 (Spec.count (Account.usage_signals account)
                             "daily_active_users")); [|lia].
  unfold format_field.
  destruct (check_str_inv (VInt (Spec.count (Account.usage_signals account)
                                   "daily_active_users")))
    as [E|(m & Em & _ & E)].
  - exfalso. apply Hn. unfold Spec.printable. unfold check_str in E.
    destruct (Z.ltb_spec (Z.abs (Spec.count (Account.usage_signals account)
                                   "daily_active_users"))
                (10 ^ INT_MAX_STR_DIGITS)); [assumption | discriminate E].
  - rewrite E. reflexivity.
Qed.

Ltac bag_ok :=
  repeat split; vm_compute; try reflexivity; try exact I;
  try (intros ?; discriminate).

(** C2, as amended.  For every well-typed signals bag, whenever [score_lead]
    returns, the weighted score it computes is in [[0, 100]] and so is the
    score of the result, which is that value rounded to two decimals.  The
    tier is decided on the weighted score before it is rounded, with
    boundaries closed above: at least 70 is "hot", at least 40 and below 70
    is "warm", below 40 is "cold". *)
Theorem lead_score_in_range_tier_before_rounding
    now company_name signals industry employee_count r :
  Spec.signals_ok signals ->
  score_lead now company_name signals industry employee_count = Ok r ->
  exists final_score,
    lead_final_score signals industry employee_count = Ok final_score /\
    within 0 100 final_score /\
    PredictionResult.score r = py_round final_score 2 /\
    within 0 100 (PredictionResult.score r) /\
    (((70 <=? final_score)%float = true /\ PredictionResult.tier r = "hot") \/
     ((40 <=? final_score)%float = true /\ (final_score <? 70)%float = true /\
      PredictionResult.tier r = "warm") \/
     ((final_score <? 40)%float = true /\ PredictionResult.tier r = "cold")).
Proof.
  intros Hok H.
  apply score_lead_returns in H
    as (size & engagement & fit & intent & attrs & s & _ & E & _ & ->).
  cbn [PredictionResult.score PredictionResult.tier].
  destruct (lead_sub_scores_range _ _ _ _ _ _ _ _ Hok E) as (Hs & He & Hf & Hi).
  pose proof (weighted_score_within size engagement fit intent Hs He Hf Hi) as W.
  exists (weighted_score size engagement fit intent).
  split; [unfold lead_final_score; rewrite E; reflexivity|].
  split; [exact W|]. split; [reflexivity|].
  split; [apply py_round_within; exact W | apply lead_tier_bands; exact W].
Qed.

Lemma lead_score_in_range_witness :
  Spec.signals_ok Examples.hot_signals /\
  exists r,
    score_lead "2024-11-01T00:00:00Z" "Test Corp" Examples.hot_signals
      "technology" (VInt 1000) = Ok r /\
    within 0 100 (PredictionResult.score r) /\
    PredictionResult.tier r = "hot".
Proof.
  assert (Hok : Spec.signals_ok Examples.hot_signals) by bag_ok.
  split; [exact Hok|].
  eexists. split; [vm_compute; reflexivity|].
  destruct (lead_score_in_range_tier_before_rounding "2024-11-01T00:00:00Z"
              "Test Corp" Examples.hot_signals "technology" (VInt 1000) _ Hok
              eq_refl) as (final_score & _ & _ & _ & W & _).
  split; [exact W | reflexivity].
Defined.

(** The score of a result can be 70.0 while its tier is "warm": the tier was
    decided on 69.997, which the result shows rounded. *)
Lemma returned_score_seventy_with_tier_warm :
  Spec.signals_ok Examples.just_below_hot /\
  exists r,
    score_lead "2024-11-01T00:00:00Z" "Edge Co" Examples.just_below_hot
      "technology" (VInt 1000) = Ok r /\
    PredictionResult.score r = 70%float /\
    PredictionResult.tier r = "warm".
Proof.
  split; [bag_ok|].
  eexists. split; [vm_compute; reflexivity|]. split; reflexivity.
Qed.

(** ** Totality *)

(** C6, as amended.  Each engine returns on every well-typed input, absent
    keys being read as 0, false or null, within two limits of the
    interpreter.  [score_lead] returns provided the two counts it divides,
    website_visits_30d and whitepaper_downloads, are below 2^1024, and the
    employee count, which it prints in its log message, has at most 4300
    digits; beyond that limit it raises [ValueError], whatever the signals.
    [detect_churn_risk] returns on every well-typed account.
    [calculate_conversion_probability] returns provided the three counts its
    engagement summary prints (daily_active_users, features_adopted,
    api_calls_per_day) have at most 4300 digits, and raises [ValueError] when
    daily_active_users has more.  With an empty bag, industry technology and
    100 employees, [score_lead] returns the sub-scores 70 (company size), 0.0
    (engagement), 90 (industry) and 40 (intent), the score 40.0 and the tier
    warm. *)
Theorem engines_total_on_bounded_counts :
  (forall now company_name signals industry n,
      Spec.signals_ok signals ->
      Spec.count signals "website_visits_30d" < 2 ^ 1024 ->
      Spec.count signals "whitepaper_downloads" < 2 ^ 1024 ->
      Spec.printable n ->
      exists r, score_lead now company_name signals industry (VInt n) = Ok r) /\
  (forall now company_name signals industry n,
      ~ Spec.printable n ->
      score_lead now company_name signals industry (VInt n) =
      Raise DIGITS_ERROR) /\
  (forall now account,
      Spec.usage_ok (Account.usage_signals account) ->
      exists r, detect_churn_risk now account = Ok r) /\
  (forall float_repr now account,
      Spec.usage_ok (Account.usage_signals account) ->
      Spec.printable_usage (Account.usage_signals account) ->
      exists r, calculate_conversion_probability float_repr now account = Ok r) /\
  (forall float_repr now account,
      Spec.usage_ok (Account.usage_signals account) ->
      ~ Spec.printable (Spec.count (Account.usage_signals account)
                          "daily_active_users") ->
      calculate_conversion_probability float_repr now account =
      Raise DIGITS_ERROR) /\
  (forall now company_name,
      exists attrs r,
        lead_sub_scores ∅ "technology" (VInt 100) =
          Ok (70, 0%float, 90, 40, attrs) /\
        score_lead now company_name ∅ "technology" (VInt 100) = Ok r /\
        PredictionResult.score r = 40%float /\
        PredictionResult.tier r = "warm").
Proof.
  split; [intros; apply score_lead_total; assumption|].
  split; [intros; apply score_lead_unprintable; assumption|].
  split; [intros; apply detect_churn_risk_total; assumption|].
  split; [intros; apply conversion_total; assumption|].
  split; [intros; apply conversion_unprintable; assumption|].
  intros now company_name. eexists. eexists.
  split; [vm_compute; reflexivity|].
  split; [vm_compute; reflexivity|].
  split; reflexivity.
Qed.

Lemma engines_total_witness :
  exists r,
    score_lead "2024-11-01T00:00:00Z" "Test Corp" Examples.hot_signals
      "technology" (VInt 1000) = Ok r.
Proof.
  apply (proj1 engines_total_on_bounded_counts "2024-11-01T00:00:00Z"
           "Test Corp" Examples.hot_signals "technology" 1000).
  - bag_ok.
  - vm_compute; reflexivity.
  - vm_compute; reflexivity.
  - vm_compute; reflexivity.
Defined.

(** A well-typed lead on which [score_lead] raises: the quotient of its
    visit count by 50 is beyond the range of doubles. *)
Lemma score_lead_raises_on_huge_count :
  Spec.signals_ok Examples.huge_visits /\
  score_lead "2024-11-01T00:00:00Z" "Huge Co" Examples.huge_visits
    "technology" (VInt 100) = Raise OverflowError.
Proof.
  split; [bag_ok | vm_compute; reflexivity].
Qed.

(** ** Conversion probability *)

(** C4, at the trial with 15 daily users, 2 features, 50 API calls and no
    login.  Its bonuses 0.30 + 0.05 + 0.05 are forty hundredths, and the
    result reports the probability 0.4, for which the thresholds give
    "medium"; the sum of the doubles is 0.39999999999999997, and the tier of
    the result is "low". *)
Theorem forty_percent_trial_is_tiered_low :
  forall float_repr now,
  exists r,
    calculate_conversion_probability float_repr now Examples.forty_percent_trial =
      Ok r /\
    Spec.conversion_percent Examples.forty_percent_usage = 40 /\
    conversion_score Examples.forty_percent_usage = Ok 0.39999999999999997%float /\
    ConversionResult.conversion_probability r = 0.4%float /\
    ConversionResult.probability_tier r = "low" /\
    get_probability_tier (ConversionResult.conversion_probability r) = "medium".
Proof.
  intros float_repr now. eexists.
  split; [vm_compute; reflexivity|].
  repeat split; vm_compute; reflexivity.
Qed.

(** What [calculate_conversion_probability] has computed when it returns
    on a well-typed account. *)
Lemma conversion_returns float_repr now account r :
  Spec.usage_ok (Account.usage_signals account) ->
  calculate_conversion_probability float_repr now account = Ok r ->
  exists p,
    conversion_score (Account.usage_signals account) = Ok p /\
    r = ConversionResult.mk (Account.id account) (Account.company account) 10
          (py_round p 3) (get_probability_tier p)
          (Spec.engagement_summary (Account.usage_signals account))
          (Spec.advice (get_probability_tier p)) MODEL_VERSION now.
Proof.
  intros Hok H.
  destruct (conversion_score_spec _ Hok) as (p & Ep & _).
  exists p. split; [exact Ep|].
  destruct Hok as (Hdau & Hfeat & Hapi & _).
  unfold calculate_conversion_probability in H. rewrite Ep in H.
  rewrite !(dict_get_count _ "daily_active_users" Hdau),
    !(dict_get_count _ "features_adopted" Hfeat),
    !(dict_get_count _ "api_calls_per_day" Hapi) in H.
  unfold Spec.engagement_summary.
  revert H.
  generalize (Spec.count (Account.usage_signals account) "daily_active_users").
  generalize (Spec.count (Account.usage_signals account) "features_adopted").
  generalize (Spec.count (Account.usage_signals account) "api_calls_per_day").
  intros api features dau H.
  cbn [bind ge_int] in H. unfold format_field, check_str in H.
  assert (Ha : Spec.advice (get_probability_tier p) =
               if (CONVERSION_THRESHOLDS !!! "high" <=? p)%float then
                 [ "Send upgrade prompt with success stories";
                   "Offer onboarding call to ensure success" ]
               else if (CONVERSION_THRESHOLDS !!! "medium" <=? p)%float then
                 [ "Provide feature tutorial to drive adoption";
                   "Share case study from similar customer" ]
               else
                 [ "Increase engagement with personalized outreach";
                   "Identify and remove adoption blockers" ]).
  { unfold get_probability_tier.
    destruct (_ <=? p)%float; [reflexivity|].
    destruct (_ <=? p)%float; reflexivity. }
  rewrite Ha. clear Ha.
  destruct (10 <=? dau);
    [destruct (Z.abs dau <? _); cbn [bind] in H; [|discriminate H]|];
    cbn [bind] in H;
    (destruct (3 <=? features);
       [destruct (Z.abs features <? _); cbn [bind] in H; [|discriminate H]|]);
    cbn [bind] in H;
    (destruct (150 <=? api);
       [destruct (Z.abs api <? _); cbn [bind] in H; [|discriminate H]|]);
    cbn [bind] in H;
    pose proof (f_equal (fun x => match x with Ok v => v | Raise _ => r end) H)
      as Hr; cbv beta iota in Hr; rewrite <- Hr; reflexivity.
Qed.

(** On a well-typed account the number of hundredths of the bands
    reached is between 0 and 100.  The engine returns when the three counts
    its summary prints have at most 4300 digits; and whenever it returns,
    the probability of the result is that number divided by 100, it lies in
    [[0, 1]], and the tier is the one of that number, except possibly at
    forty hundredths. *)
Theorem conversion_probability_is_band_sum float_repr now account :
  Spec.usage_ok (Account.usage_signals account) ->
  let percent := Spec.conversion_percent (Account.usage_signals account) in
  0 <= percent <= 100 /\
  (Spec.printable_usage (Account.usage_signals account) ->
   exists r, calculate_conversion_probability float_repr now account = Ok r) /\
  (forall r,
      calculate_conversion_probability float_repr now account = Ok r ->
      ConversionResult.conversion_probability r = (Z2F percent / 100)%float /\
      within 0 1 (ConversionResult.conversion_probability r) /\
      (percent = 40 \/
       ConversionResult.probability_tier r = Spec.percent_tier percent)).
Proof.
  intros Hok percent.
  destruct (conversion_score_spec _ Hok) as (p & Ep & Hr & Ht & Hp).
  fold percent in Hr, Ht, Hp.
  split; [exact Hp|].
  split; [intros Hprint; apply conversion_total; assumption|].
  intros r H.
  destruct (conversion_returns float_repr now account r Hok H) as (p' & Ep' & ->).
  rewrite Ep in Ep'.
  pose proof (f_equal (fun x => match x with Ok v => v | Raise _ => p end) Ep')
    as Hpp.
  cbv beta iota in Hpp. subst p'.
  cbn [ConversionResult.conversion_probability ConversionResult.probability_tier].
  split; [exact Hr|]. split; [|exact Ht].
  rewrite Hr. revert Hp. generalize percent. intros n Hn.
  pose (P := fun n => ((0 <=? Z2F n / 100)%float && (Z2F n / 100 <=? 1)%float)).
  assert (H' : P n = true).
  { apply (forall_range P 0 101); [vm_compute; reflexivity | lia]. }
  apply andb_true_iff in H'. exact H'.
Qed.

Lemma conversion_probability_is_band_sum_witness :
  Spec.usage_ok Examples.active_trial_usage /\
  exists r,
    calculate_conversion_probability (fun _ => "") "2024-11-01T00:00:00Z"
      Examples.active_trial = Ok r /\
    ConversionResult.conversion_probability r = 1%float /\
    ConversionResult.probability_tier r = "high".
Proof.
  assert (Hok : Spec.usage_ok Examples.active_trial_usage) by bag_ok.
  split; [exact Hok|].
  destruct (conversion_probability_is_band_sum (fun _ => "")
              "2024-11-01T00:00:00Z" Examples.active_trial Hok)
    as (_ & Hex & Hall).
  destruct Hex as (r & Er); [repeat split; vm_compute; reflexivity|].
  destruct (Hall r Er) as (Hp & _ & Ht).
  exists r. split; [exact Er|].
  split; [rewrite Hp; vm_compute; reflexivity|].
  destruct Ht as [Ht|Ht]; [vm_compute in Ht; discriminate Ht|].
  rewrite Ht. vm_compute; reflexivity.
Defined.

(** The active trial of the test suite reaches every top band: the
    probability is exactly 1.0, the largest a trial can get, and the tier is
    high. *)
Theorem active_trial_reaches_the_maximum :
  forall float_repr now,
  exists r,
    calculate_conversion_probability float_repr now Examples.active_trial = Ok r /\
    Spec.conversion_percent Examples.active_trial_usage = 100 /\
    ConversionResult.conversion_probability r = 1%float /\
    ConversionResult.probability_tier r = "high".
Proof.
  intros float_repr now. eexists.
  split; [vm_compute; reflexivity|].
  repeat split; vm_compute; reflexivity.
Qed.

(** The four weights of the lead score add up to 1.0, as doubles and in the
    order of the table. *)
Theorem lead_weights_sum_to_one :
  (LEAD_SCORE_WEIGHTS !!! "company_size" +
   LEAD_SCORE_WEIGHTS !!! "engagement_signals" +
   LEAD_SCORE_WEIGHTS !!! "industry_fit" +
   LEAD_SCORE_WEIGHTS !!! "intent_signals")%float = 1%float.
Proof. vm_compute; reflexivity. Qed.

(** * Further properties of the code *)

(** ** The record store *)





(** ** The prediction log *)

Lemma ltb_asym (a b : string) : String.ltb a b = true -> String.ltb b a = false.
Proof.
  unfold String.ltb. rewrite (String.compare_antisym a b).
  destruct (String.compare b a); simpl; congruence.
Qed.

Lemma insert_desc_perm x l : insert_desc x l ≡ₚ x :: l.
Proof.
  induction l as [|y l IH]; simpl; [reflexivity|].
  destruct (String.ltb _ _); [|reflexivity].
  rewrite IH. apply Permutation_swap.
Qed.

Lemma sorted_desc_perm l : sorted_desc l ≡ₚ l.
Proof.
  induction l as [|x l IH]; simpl; [reflexivity|].
  rewrite insert_desc_perm, IH. reflexivity.
Qed.

Lemma insert_desc_sorted x l :
  Sorted timestamp_not_below l -> Sorted timestamp_not_below (insert_desc x l).
Proof.
  induction l as [|y l IH]; simpl; intros Hs.
  - repeat constructor.
  - destruct (String.ltb (log_timestamp x) (log_timestamp y)) eqn:E.
    + apply Sorted_inv in Hs as [Hs Hh]. constructor; [apply IH, Hs|].
      destruct l as [|z l]; simpl.
      * constructor. apply ltb_asym, E.
      * destruct (String.ltb (log_timestamp x) (log_timestamp z)).
        -- constructor. apply HdRel_inv in Hh. exact Hh.
        -- constructor. apply ltb_asym, E.
    + constructor; [exact Hs|]. constructor. exact E.
Qed.

Lemma sorted_desc_sorted l : Sorted timestamp_not_below (sorted_desc l).
Proof.
  induction l as [|x l IH]; simpl; [constructor | apply insert_desc_sorted, IH].
Qed.

Lemma Sorted_take {A : Type} (R : A -> A -> Prop) n l :
  Sorted R l -> Sorted R (take n l).
Proof.
  revert n. induction l as [|x l IH]; intros [|n] Hs; simpl; try constructor.
  - apply IH. apply Sorted_inv in Hs. tauto.
  - apply Sorted_inv in Hs as [_ Hh]. destruct n, l; simpl; constructor.
    apply HdRel_inv in Hh. exact Hh.
Qed.

Lemma slice_to_take {A : Type} limit (l : list A) :
  exists n, slice_to limit l = take n l /\
    (0 <= limit -> n = Z.to_nat limit) /\
    (limit < 0 -> n = Z.to_nat (Z.of_nat (length l) + limit)).
Proof.
  unfold slice_to. destruct (Z.leb_spec 0 limit); eexists; split;
    try reflexivity; split; intros; try lia; reflexivity.
Qed.

Lemma filter_sublist {A : Type} (f : A -> bool) l : List.filter f l `sublist_of` l.
Proof.
  induction l as [|x l IH]; simpl; [constructor|].
  destruct (f x); [apply sublist_skip | apply sublist_cons]; exact IH.
Qed.

Lemma elem_of_filter {A : Type} (f : A -> bool) l x :
  x ∈ List.filter f l <-> x ∈ l /\ f x = true.
Proof. rewrite !list_elem_of_In. apply filter_In. Qed.

(** The entries a query selects, before they are sorted and cut. *)
Lemma selected_logs LOGS prediction_type :
  exists sel,
    (forall limit,
        get_prediction_logs LOGS prediction_type limit =
        slice_to limit (sorted_desc sel)) /\
    sel `sublist_of` LOGS /\
    forall e, e ∈ sel <->
      e ∈ LOGS /\
      forall t, prediction_type = Some t -> t <> "" ->
                DataStore.prediction_type e = t.
Proof.
  unfold get_prediction_logs. cbv zeta.
  set (sel := match prediction_type with
              | Some t => if String.eqb t "" then LOGS else List.filter _ LOGS
              | None => LOGS
              end).
  exists sel. split; [reflexivity|]. split.
  - subst sel. destruct prediction_type as [t|]; [destruct (String.eqb t "")|];
      try reflexivity. apply filter_sublist.
  - subst sel. intros e. destruct prediction_type as [t|].
    + destruct (String.eqb_spec t "") as [->|Ht].
      * split; [|tauto]. intros He. split; [exact He|].
        intros t [= <-] Hne. contradiction.
      * rewrite elem_of_filter, String.eqb_eq. split.
        -- intros [He Ht']. split; [exact He|]. intros t' [= <-] _. exact Ht'.
        -- intros [He Ht']. split; [exact He|]. apply Ht'; [reflexivity|exact Ht].
    + split; [|tauto]. intros He. split; [exact He|]. discriminate.
Qed.

Lemma selected_entry_is_returned LOGS prediction_type limit e :
  get_prediction_count_24h LOGS <= limit ->
  e ∈ LOGS ->
  (forall t, prediction_type = Some t -> t <> "" ->
             DataStore.prediction_type e = t) ->
  e ∈ get_prediction_logs LOGS prediction_type limit.
Proof.
  intros Hc He Ht. unfold get_prediction_count_24h in Hc.
  destruct (selected_logs LOGS prediction_type) as (sel & E & Hsub & Hin).
  rewrite E.
  assert (Hlen : (length sel <= length LOGS)%nat) by (apply sublist_length, Hsub).
  assert (Hsl : length (sorted_desc sel) = length sel)
    by (apply Permutation_length, sorted_desc_perm).
  destruct (slice_to_take limit (sorted_desc sel)) as (n & -> & Hpos & _).
  rewrite take_ge by (rewrite Hsl, (Hpos ltac:(lia)); lia).
  rewrite sorted_desc_perm. apply Hin. auto.
Qed.

(** [get_prediction_logs] returns entries of the log, none more often
    than the log holds it, in descending order of their timestamp texts
    (compared as strings, by code points); with a non-empty type every entry
    has that type, and the empty string filters nothing, as [None].  A limit
    that is not negative bounds the length, and every selected entry is
    returned once the limit reaches the size of the log.  A negative limit
    instead drops that many entries from the end of the sorted list.  The
    order of the texts is not always the order in time: of two entries
    logged at 00:00:00 and at 00:00:00.500000, the earlier one comes first,
    and it is the one a query with limit 1 returns. *)
Theorem prediction_logs_are_selected_sorted_and_cut :
  (forall LOGS prediction_type limit,
    let logs := get_prediction_logs LOGS prediction_type limit in
    Sorted timestamp_not_below logs /\
    logs ⊆+ LOGS /\
    (forall t e, prediction_type = Some t -> t <> "" -> e ∈ logs ->
                 DataStore.prediction_type e = t) /\
    get_prediction_logs LOGS (Some "") limit = get_prediction_logs LOGS None limit /\
    (0 <= limit -> Z.of_nat (length logs) <= limit) /\
    (get_prediction_count_24h LOGS <= limit ->
     forall e, e ∈ LOGS ->
       (forall t, prediction_type = Some t -> t <> "" ->
                  DataStore.prediction_type e = t) ->
       e ∈ logs) /\
    (limit < 0 ->
     let all := get_prediction_logs LOGS prediction_type
                  (get_prediction_count_24h LOGS) in
     logs = take (Z.to_nat (Z.of_nat (length all) + limit)) all)) /\
  get_prediction_logs
    [Examples.logged_on_the_second; Examples.logged_half_a_second_later]
    None 10 =
    [Examples.logged_on_the_second; Examples.logged_half_a_second_later] /\
  get_prediction_logs
    [Examples.logged_on_the_second; Examples.logged_half_a_second_later]
    None 1 = [Examples.logged_on_the_second].
Proof.
  split; [|split; reflexivity].
  intros LOGS prediction_type limit logs. subst logs.
  destruct (selected_logs LOGS prediction_type) as (sel & E & Hsub & Hin).
  assert (Hlen : (length sel <= length LOGS)%nat) by (apply sublist_length, Hsub).
  assert (Hsl : length (sorted_desc sel) = length sel)
    by (apply Permutation_length, sorted_desc_perm).
  destruct (slice_to_take limit (sorted_desc sel)) as (n & En & Hpos & Hneg).
  split; [|split; [|split; [|split; [reflexivity|split; [|split]]]]].
  - rewrite E, En. apply Sorted_take, sorted_desc_sorted.
  - rewrite E, En. transitivity (sorted_desc sel).
    + apply sublist_submseteq, sublist_take.
    + rewrite sorted_desc_perm. apply sublist_submseteq, Hsub.
  - rewrite E, En. intros t e Ht Hne He.
    apply (Hin e); [|exact Ht|exact Hne].
    rewrite <- (sorted_desc_perm sel).
    eapply elem_of_sublist; [exact He | apply sublist_take].
  - rewrite E, En. intros H. rewrite length_take. specialize (Hpos H). lia.
  - intros Hc e He Ht. apply selected_entry_is_returned; assumption.
  - intros Hlt. cbv zeta. rewrite !E.
    assert (Hall : slice_to (get_prediction_count_24h LOGS) (sorted_desc sel) =
                   sorted_desc sel).
    { unfold slice_to, get_prediction_count_24h.
      destruct (Z.leb_spec 0 (Z.of_nat (length LOGS))); [|lia].
      apply take_ge. lia. }
    rewrite Hall, En, (Hneg Hlt). reflexivity.
Qed.

(** Storing a prediction adds one to the count; the entry stored is
    returned by a query for its type, and by a query for every type, when
    the limit exceeds the number of entries there were; queries for another
    type are not affected. *)
Theorem stored_prediction_is_retrievable :
  forall uuid now LOGS t input_data prediction_result model_version limit,
    let LOGS' :=
      store_prediction_log uuid now LOGS t input_data prediction_result
        model_version in
    let entry := mk_log uuid now t input_data prediction_result model_version in
    get_prediction_count_24h LOGS' = get_prediction_count_24h LOGS + 1 /\
    (get_prediction_count_24h LOGS < limit ->
     entry ∈ get_prediction_logs LOGS' (Some t) limit /\
     entry ∈ get_prediction_logs LOGS' None limit) /\
    (forall t', t' <> t -> t' <> "" ->
       get_prediction_logs LOGS' (Some t') limit =
       get_prediction_logs LOGS (Some t') limit).
Proof.
  intros uuid now LOGS t input_data prediction_result model_version limit
    LOGS' entry.
  assert (Hc : get_prediction_count_24h LOGS' = get_prediction_count_24h LOGS + 1).
  { unfold LOGS', store_prediction_log, get_prediction_count_24h.
    rewrite length_app. simpl. lia. }
  assert (He : entry ∈ LOGS').
  { unfold LOGS', store_prediction_log. apply elem_of_app. right.
    apply list_elem_of_singleton. reflexivity. }
  split; [exact Hc|]. split.
  - intros Hl.
    split; apply selected_entry_is_returned; try lia; try exact He.
    + intros t' [= <-] _. reflexivity.
    + discriminate.
  - intros t' Hne Hnz. unfold get_prediction_logs, LOGS', store_prediction_log.
    destruct (String.eqb_spec t' "") as [E|_]; [contradiction|].
    rewrite List.filter_app. simpl.
    destruct (String.eqb_spec t t') as [E|_]; [congruence|].
    rewrite app_nil_r. reflexivity.
Qed.

(** ** Resources *)








(** ** Tool calls and the prediction log *)

(** A call of the tools [get_conversion_insights] and [detect_churn_risk]
    answers with one text content and never raises.  When the arguments
    hold an account id, [get_account] finds its account (on the trial plan,
    for the conversion tool) and the engine returns a result on that
    account, the document of the answer is that result, with no error key,
    and the prediction log has grown by exactly one entry, of the tool's
    prediction type and of the current model version, which holds that same
    document and the account id asked for.  In every other case the document
    is an error object and the prediction log is left as it was. *)
Theorem tool_calls_log_exactly_their_results :
  forall float_repr exn_str now log_now uuid ACCOUNTS LOGS arguments,
    let answered prediction_type (served : pyobj -> json -> Prop) out :=
      exists doc,
        out.1 = [Server.mk_text "text" doc] /\
        ((exists account_id,
            arguments !! "account_id" = Some account_id /\
            served account_id doc /\
            Doc.json_field "error" doc = None /\
            out.2 = LOGS ++
              [mk_log uuid log_now prediction_type
                 (JObj [("account_id", json_of_obj account_id)]) doc
                 MODEL_VERSION]) \/
         ((forall account_id result,
             arguments !! "account_id" = Some account_id ->
             ~ served account_id result) /\
          (exists msg, Doc.json_field "error" doc = Some (JStr msg)) /\
          out.2 = LOGS)) in
    answered "conversion_probability"
      (fun account_id doc =>
         exists account r,
           get_account ACCOUNTS account_id = Some account /\
           Account.plan account = "trial" /\
           calculate_conversion_probability float_repr now account = Ok r /\
           doc = Server.json_of_conversion r)
      (Server.call_tool_get_conversion_insights float_repr exn_str now log_now
         uuid ACCOUNTS LOGS arguments) /\
    answered "churn_risk"
      (fun account_id doc =>
         exists account r,
           get_account ACCOUNTS account_id = Some account /\
           detect_churn_risk now account = Ok r /\
           doc = Tools.json_of_churn r)
      (Tools.call_tool_detect_churn_risk float_repr exn_str now log_now uuid
         ACCOUNTS LOGS arguments).
Proof.
  intros float_repr exn_str now log_now uuid ACCOUNTS LOGS arguments answered.
  subst answered. cbv beta. split.
  - unfold Server.call_tool_get_conversion_insights,
      Server.get_conversion_insights, dict_item.
    destruct (arguments !! "account_id") as [account_id|] eqn:Harg; cbn [bind].
    2:{ eexists. split; [reflexivity|]. right.
        split; [intros ? ? [=]|]. split; [eexists|]; reflexivity. }
    destruct (get_account ACCOUNTS account_id) as [account|] eqn:Hacc.
    2:{ eexists. split; [reflexivity|]. right. split.
        - intros id result [= <-] (account & r & Ha & _). congruence.
        - split; [eexists|]; reflexivity. }
    destruct (String.eqb_spec (Account.plan account) "trial") as [Hplan|Hplan];
      cbn [negb].
    2:{ eexists. split; [reflexivity|]. right. split.
        - intros id result [= <-] (account' & r & Ha & Hp & _). congruence.
        - split; [eexists|]; reflexivity. }
    destruct (calculate_conversion_probability _ _ _) as [r|e] eqn:Er;
      cbn [bind].
    2:{ eexists. split; [reflexivity|]. right. split.
        - intros id result [= <-] (account' & r & Ha & _ & Hr & _). congruence.
        - split; [eexists|]; reflexivity. }
    eexists. split; [reflexivity|]. left. exists account_id.
    split; [reflexivity|]. split; [|split; reflexivity].
    exists account, r. auto.
  - unfold Tools.call_tool_detect_churn_risk, Tools.detect_churn_risk_arm,
      dict_item.
    destruct (arguments !! "account_id") as [account_id|] eqn:Harg; cbn [bind].
    2:{ eexists. split; [reflexivity|]. right.
        split; [intros ? ? [=]|]. split; [eexists|]; reflexivity. }
    destruct (get_account ACCOUNTS account_id) as [account|] eqn:Hacc.
    2:{ eexists. split; [reflexivity|]. right. split.
        - intros id result [= <-] (account & r & Ha & _). congruence.
        - split; [eexists|]; reflexivity. }
    destruct (detect_churn_risk _ _) as [r|e] eqn:Er; cbn [bind].
    2:{ eexists. split; [reflexivity|]. right. split.
        - intros id result [= <-] (account' & r & Ha & Hr & _). congruence.
        - split; [eexists|]; reflexivity. }
    eexists. split; [reflexivity|]. left. exists account_id.
    split; [reflexivity|]. split; [|split; reflexivity].
    exists account, r. auto.
Qed.



(** The two drift indicators read the same count with different
    comparisons: the metadata resource reports "warning" from 1000 logged
    predictions on, the health check detects drift (and raises its alert)
    above 1000 only.  At exactly 1000 the resource warns and the health
    check does not.  The health check reports the count of the log. *)
Theorem drift_indicators_differ_at_one_thousand :
  forall ACCOUNTS LEADS LOGS uptime_seconds,
    let count := get_prediction_count_24h LOGS in
    exists metadata health,
      read_resource ACCOUNTS LEADS LOGS "models://lead_scorer/metadata" =
        Ok (MetadataDoc metadata) /\
      Doc.document (Tools.check_model_health uptime_seconds LOGS) = Some health /\
      Doc.json_field "drift_status" metadata =
        Some (JStr (if 1000 <=? count then "warning" else "normal")) /\
      Doc.json_field "drift_detected" health = Some (JBool (1000 <? count)) /\
      Doc.json_field "alerts" health =
        Some (JList (if 1000 <? count
                     then [JStr "High prediction volume - monitoring for drift"]
                     else [])) /\
      Doc.json_field "prediction_count_24h" health = Some (JInt count) /\
      (count = 1000 ->
       Doc.json_field "drift_status" metadata = Some (JStr "warning") /\
       Doc.json_field "drift_detected" health = Some (JBool false)).
Proof.
  intros ACCOUNTS LEADS LOGS uptime_seconds count.
  eexists. eexists. split; [reflexivity|]. split; [reflexivity|].
  fold count. cbn [Doc.json_field List.find String.eqb Ascii.eqb Bool.eqb fst snd].
  assert (E : (if count <? 1000 then "normal" else "warning") =
              (if 1000 <=? count then "warning" else "normal")).
  { destruct (Z.ltb_spec count 1000), (Z.leb_spec 1000 count);
      try reflexivity; lia. }
  repeat split; try (rewrite E; reflexivity).
  - rewrite E, H. reflexivity.
  - rewrite H. reflexivity.
Qed.

(** ** Company size *)

(** [get_company_size_score] returns a score between 30 and 100 for every
    integer, 100 from 1000 employees on and 30 below 20 (zero and negative
    counts included); a larger count never gets a smaller score; [None] or
    a string in place of the count raises [TypeError]. *)
Theorem company_size_score_is_monotone :
  (forall n, exists s,
      get_company_size_score (VInt n) = Ok s /\ 30 <= s <= 100 /\
      (s = 100 <-> 1000 <= n) /\ (s = 30 <-> n < 20)) /\
  (forall n n' s s',
      n <= n' ->
      get_company_size_score (VInt n) = Ok s ->
      get_company_size_score (VInt n') = Ok s' -> s <= s') /\
  get_company_size_score VNone = Raise TypeError /\
  (forall t, get_company_size_score (VStr t) = Raise TypeError).
Proof.
  unfold get_company_size_score. cbn [ge_int bind].
  split; [|split; [|split; reflexivity]].
  - intros n.
    destruct (Z.leb_spec 1000 n); [eexists; split; [reflexivity|lia]|].
    destruct (Z.leb_spec 500 n); [eexists; split; [reflexivity|lia]|].
    destruct (Z.leb_spec 200 n); [eexists; split; [reflexivity|lia]|].
    destruct (Z.leb_spec 100 n); [eexists; split; [reflexivity|lia]|].
    destruct (Z.leb_spec 50 n); [eexists; split; [reflexivity|lia]|].
    destruct (Z.leb_spec 20 n); eexists; (split; [reflexivity|lia]).
  - intros n n' s s' Hn.
    destruct (Z.leb_spec 1000 n), (Z.leb_spec 500 n), (Z.leb_spec 200 n),
      (Z.leb_spec 100 n), (Z.leb_spec 50 n), (Z.leb_spec 20 n);
      try lia; intros [= <-];
      destruct (Z.leb_spec 1000 n'), (Z.leb_spec 500 n'), (Z.leb_spec 200 n'),
        (Z.leb_spec 100 n'), (Z.leb_spec 50 n'), (Z.leb_spec 20 n');
      try lia; intros [= <-]; lia.
Qed.

(** ** Keys the engines do not read *)

Lemma dict_get_insert_ne (d : gmap string pyobj) k k' v dflt :
  k <> k' -> dict_get (<[k := v]> d) k' dflt = dict_get d k' dflt.
Proof. intros H. unfold dict_get. rewrite lookup_insert_ne by exact H. reflexivity. Qed.

Ltac other_key H :=
  let E := fresh in
  intros E; apply H; rewrite E; unfold Rank.LEAD_KEYS, Rank.CHURN_KEYS,
    Rank.CONVERSION_KEYS; repeat (first [left | right]).

(** A key that is not one of the six the scorer reads has no effect on
    [score_lead], whatever its value; nor has a key other than its five on
    [detect_churn_risk], or other than its four on
    [calculate_conversion_probability]. *)
Theorem engines_ignore_other_keys :
  forall (k : string) (v : pyobj),
    (k ∉ Rank.LEAD_KEYS ->
     forall now company_name signals industry employee_count,
       score_lead now company_name (<[k := v]> signals) industry employee_count =
       score_lead now company_name signals industry employee_count) /\
    (k ∉ Rank.CHURN_KEYS ->
     forall now id company plan usage,
       detect_churn_risk now (Account.mk id company plan (<[k := v]> usage)) =
       detect_churn_risk now (Account.mk id company plan usage)) /\
    (k ∉ Rank.CONVERSION_KEYS ->
     forall float_repr now id company plan usage,
       calculate_conversion_probability float_repr now
         (Account.mk id company plan (<[k := v]> usage)) =
       calculate_conversion_probability float_repr now
         (Account.mk id company plan usage)).
Proof.
  intros k v. split; [|split]; intros Hk.
  - intros now company_name signals industry employee_count.
    unfold score_lead, lead_sub_scores, calculate_engagement_score,
      calculate_intent_score, generate_lead_explanation.
    rewrite !dict_get_insert_ne by other_key Hk. reflexivity.
  - intros now id company plan usage.
    unfold detect_churn_risk, churn_rules. cbn [Account.usage_signals].
    rewrite !dict_get_insert_ne by other_key Hk. reflexivity.
  - intros float_repr now id company plan usage.
    unfold calculate_conversion_probability, conversion_score.
    cbn [Account.usage_signals].
    rewrite !dict_get_insert_ne by other_key Hk. reflexivity.
Qed.

Lemma engines_ignore_other_keys_witness :
  score_lead "2024-11-01T00:00:00Z" "Test Corp"
    (<["website_visits" := VInt 60]> Examples.hot_signals) "technology"
    (VInt 1000) =
  score_lead "2024-11-01T00:00:00Z" "Test Corp" Examples.hot_signals
    "technology" (VInt 1000).
Proof.
  apply (proj1 (engines_ignore_other_keys "website_visits" (VInt 60))).
  unfold Rank.LEAD_KEYS. rewrite !elem_of_cons, elem_of_nil.
  intros H. repeat (destruct H as [H|H]; [discriminate H|]). exact H.
Defined.

(** ** Churn risk: interventions and order *)

Lemma elem_of_suggestions s factors account :
  s ∈ generate_intervention_suggestions factors account <->
  Exists (fun factor => s ∈ interventions_of_factor factor) factors \/
  (s = Spec.UPSELL /\ Account.plan account = "starter").
Proof.
  unfold generate_intervention_suggestions, list_set.
  rewrite elem_of_elements, elem_of_list_to_set, Exists_exists.
  destruct (String.eqb_spec (Account.plan account) "starter") as [Hp|Hp].
  - rewrite elem_of_app, elem_of_interventions_loop, elem_of_nil,
      elem_of_cons, elem_of_nil.
    unfold Spec.UPSELL. tauto.
  - rewrite elem_of_interventions_loop, elem_of_nil. tauto.
Qed.

Lemma Exists_one {A : Type} (P : A -> Prop) x : Exists P [x] <-> P x.
Proof. rewrite Exists_cons, Exists_nil. tauto. Qed.

Ltac factor_cases :=
  repeat match goal with
         | |- context [if Z.ltb ?x ?y then _ else _] => destruct (Z.ltb_spec0 x y)
         | |- context [if Z.leb ?x ?y then _ else _] => destruct (Z.leb_spec0 x y)
         end;
  cbn [snd]; rewrite ?Exists_one, ?Exists_nil;
  rewrite ?elem_of_interventions_of_factor.

Lemma substring_literal needle s : str_in needle s = true -> Spec.substring needle s.
Proof. apply str_in_substring. Qed.

Lemma not_substring_literal needle s :
  str_in needle s = false -> ~ Spec.substring needle s.
Proof. rewrite <- str_in_substring. congruence. Qed.

Ltac literal_substrings :=
  repeat match goal with
         | |- context [Spec.substring ?n ?s] =>
             first
               [ let H := fresh in
                 assert (H : Spec.substring n s)
                   by (apply substring_literal; vm_compute; reflexivity);
                 revert H; generalize (Spec.substring n s); intros ? ?
               | let H := fresh in
                 assert (H : ~ Spec.substring n s)
                   by (apply not_substring_literal; vm_compute; reflexivity);
                 revert H; generalize (Spec.substring n s); intros ? ? ]
         end.

Lemma dau_suggestions s dau :
  Exists (fun factor => s ∈ interventions_of_factor factor) (Spec.dau_risk dau).2 <->
  s = Spec.TRAINING /\ dau < 10.
Proof.
  unfold Spec.dau_risk. factor_cases; literal_substrings;
    unfold Spec.REVIEW, Spec.TRAINING, Spec.FEATURES;
    intuition (try lia; try discriminate; try congruence).
Qed.

Lemma nps_suggestions s nps :
  Exists (fun factor => s ∈ interventions_of_factor factor) (Spec.nps_risk nps).2 <->
  s = Spec.REVIEW /\ exists n, nps = Some n /\ n <= 6.
Proof.
  unfold Spec.nps_risk. destruct nps as [n|].
  - factor_cases; literal_substrings;
      unfold Spec.REVIEW, Spec.TRAINING, Spec.FEATURES; split.
    all: try (intros [Hs (m & Hm & Hle)]; injection Hm as <-).
    all: try (intros HH; split; [|exists n; split; [reflexivity|]]).
    all: intuition (try lia; try discriminate; try congruence).
  - cbn [snd]. rewrite Exists_nil. split; [tauto|].
    intros [_ (n & H & _)]. discriminate H.
Qed.

Lemma tickets_suggestions s tickets :
  Exists (fun factor => s ∈ interventions_of_factor factor)
    (Spec.tickets_risk tickets).2 <->
  s = Spec.REVIEW /\ 3 < tickets.
Proof.
  unfold Spec.tickets_risk. factor_cases; literal_substrings;
    unfold Spec.REVIEW, Spec.TRAINING, Spec.FEATURES;
    intuition (try lia; try discriminate; try congruence).
Qed.

Lemma login_suggestions s login :
  Exists (fun factor => s ∈ interventions_of_factor factor)
    (Spec.login_risk login).2 <->
  s = Spec.TRAINING /\ login < 5.
Proof.
  unfold Spec.login_risk. factor_cases; literal_substrings;
    unfold Spec.REVIEW, Spec.TRAINING, Spec.FEATURES;
    intuition (try lia; try discriminate; try congruence).
Qed.

Lemma features_suggestions s features :
  Exists (fun factor => s ∈ interventions_of_factor factor)
    (Spec.features_risk features).2 <->
  s = Spec.FEATURES /\ features < 3.
Proof.
  unfold Spec.features_risk. factor_cases; literal_substrings;
    unfold Spec.REVIEW, Spec.TRAINING, Spec.FEATURES;
    intuition (try lia; try discriminate; try congruence).
Qed.

Lemma Z2F_zero p : 0 <= p <= 100 -> (Z2F p = 0%float <-> p = 0).
Proof.
  intros Hp.
  pose (P := fun p => (p =? 0) || negb (PrimFloat.Leibniz.eqb (Z2F p) 0)).
  assert (H : P p = true).
  { apply (forall_range P 0 101); [vm_compute; reflexivity | lia]. }
  unfold P in H. split.
  - intros E. rewrite E in H. destruct (Z.eqb_spec p 0); [assumption|].
    discriminate H.
  - intros ->. reflexivity.
Qed.

Lemma churn_factors_none usage :
  Spec.churn_factors usage = [] <-> Spec.churn_points usage = 0.
Proof.
  unfold Spec.churn_factors, Spec.churn_points, Spec.churn_bands, Spec.dau_risk,
    Spec.nps_risk, Spec.tickets_risk, Spec.login_risk, Spec.features_risk.
  destruct (Spec.nps usage) as [n|];
    repeat match goal with
           | |- context [if ?b then _ else _] => destruct b
           end;
    cbn; split; intros H; try discriminate H; try reflexivity; lia.
Qed.

(** For an account with well-typed usage signals, the interventions that
    [detect_churn_risk] suggests are, without duplicates: the business
    review when the NPS is at most 6 or there are more than 3 tickets; the
    training session when there are fewer than 10 daily users or fewer than
    5 logins; the feature demonstration below 3 adopted features; the upsell
    for the starter plan; and nothing else.  There is no declining signal
    exactly when the risk score is 0. *)
Theorem churn_interventions_follow_the_bands :
  forall now account,
    let usage := Account.usage_signals account in
    Spec.usage_ok usage ->
    exists r,
      detect_churn_risk now account = Ok r /\
      NoDup (ChurnResult.suggested_interventions r) /\
      (forall s,
          s ∈ ChurnResult.suggested_interventions r <->
          (s = Spec.REVIEW /\
           ((exists n, Spec.nps usage = Some n /\ n <= 6) \/
            3 < Spec.count usage "support_tickets_30d")) \/
          (s = Spec.TRAINING /\
           (Spec.count usage "daily_active_users" < 10 \/
            Spec.count usage "login_frequency_7d" < 5)) \/
          (s = Spec.FEATURES /\ Spec.count usage "features_adopted" < 3) \/
          (s = Spec.UPSELL /\ Account.plan account = "starter")) /\
      (ChurnResult.declining_signals r = [] <->
       ChurnResult.risk_score r = 0%float).
Proof.
  intros now account usage Hok.
  unfold detect_churn_risk. fold usage.
  rewrite (churn_rules_spec usage Hok). cbn [bind].
  destruct (churn_score_exact _ (churn_points_range usage)) as [Hround _].
  eexists. split; [reflexivity|].
  cbn [ChurnResult.suggested_interventions ChurnResult.declining_signals
         ChurnResult.risk_score].
  split; [unfold generate_intervention_suggestions, list_set;
          apply NoDup_elements|].
  split.
  - intros s. rewrite elem_of_suggestions.
    unfold Spec.churn_factors, Spec.churn_bands. cbn [map concat].
    rewrite !Exists_app, Exists_nil.
    rewrite dau_suggestions, nps_suggestions, tickets_suggestions,
      login_suggestions, features_suggestions.
    tauto.
  - rewrite Hround, (Z2F_zero _ (churn_points_range usage)).
    apply churn_factors_none.
Qed.

Lemma churn_interventions_witness :
  exists r,
    detect_churn_risk "2024-11-01T00:00:00Z" Examples.at_risk_account = Ok r /\
    Spec.REVIEW ∈ ChurnResult.suggested_interventions r /\
    Spec.UPSELL ∉ ChurnResult.suggested_interventions r.
Proof.
  destruct (churn_interventions_follow_the_bands "2024-11-01T00:00:00Z"
              Examples.at_risk_account) as (r & Er & _ & Hs & _).
  - vm_compute. intuition discriminate.
  - exists r. split; [exact Er|]. split.
    + apply Hs. left. split; [reflexivity|]. right. vm_compute. reflexivity.
    + intros H. apply Hs in H.
      destruct H as [[H _]|[[H _]|[[H _]|[_ H]]]]; discriminate H.
Defined.

(** ** Churn risk falls as usage gets healthier *)

Lemma Z2F_mono a b : 0 <= a <= b -> b <= 100 -> (Z2F a <=? Z2F b)%float = true.
Proof.
  intros Ha Hb.
  pose (Q := fun a =>
    forallb (fun b => implb (a <=? b) (Z2F a <=? Z2F b)%float)
      (map Z.of_nat (seq 0 101))).
  assert (H : Q a = true).
  { apply (forall_range Q 0 101); [vm_compute; reflexivity | lia]. }
  unfold Q in H. rewrite forallb_forall in H.
  specialize (H b). rewrite (proj2 (Z.leb_le a b)) in H by lia.
  apply H. apply in_map_iff. exists (Z.to_nat b). split; [lia|].
  apply in_seq. lia.
Qed.

Ltac band_cases :=
  repeat match goal with
         | |- context [if Z.ltb ?x ?y then _ else _] => destruct (Z.ltb_spec x y)
         | |- context [if Z.leb ?x ?y then _ else _] => destruct (Z.leb_spec x y)
         end;
  cbn [fst]; lia.

Lemma dau_risk_mono a b : a <= b -> (Spec.dau_risk b).1 <= (Spec.dau_risk a).1.
Proof. intros H. unfold Spec.dau_risk. band_cases. Qed.

Lemma tickets_risk_mono a b :
  b <= a -> (Spec.tickets_risk b).1 <= (Spec.tickets_risk a).1.
Proof. intros H. unfold Spec.tickets_risk. band_cases. Qed.

Lemma login_risk_mono a b : a <= b -> (Spec.login_risk b).1 <= (Spec.login_risk a).1.
Proof. intros H. unfold Spec.login_risk. band_cases. Qed.

Lemma features_risk_mono a b :
  a <= b -> (Spec.features_risk b).1 <= (Spec.features_risk a).1.
Proof. intros H. unfold Spec.features_risk. band_cases. Qed.

Lemma nps_risk_mono n n' :
  match n' with
  | None => True
  | Some b => match n with Some a => a <= b | None => False end
  end ->
  (Spec.nps_risk n').1 <= (Spec.nps_risk n).1.
Proof.
  unfold Spec.nps_risk. destruct n' as [b|], n as [a|]; try contradiction;
    intros H; band_cases.
Qed.

Lemma churn_points_mono usage usage' :
  Rank.healthier usage usage' ->
  Spec.churn_points usage' <= Spec.churn_points usage.
Proof.
  intros (Hdau & Hlogin & Hfeat & Htick & Hnps).
  unfold Spec.churn_points, Spec.churn_bands. cbn [map foldr].
  pose proof (dau_risk_mono _ _ Hdau).
  pose proof (login_risk_mono _ _ Hlogin).
  pose proof (features_risk_mono _ _ Hfeat).
  pose proof (tickets_risk_mono _ _ Htick).
  pose proof (nps_risk_mono _ _ Hnps).
  lia.
Qed.

Lemma churn_tier_mono p p' :
  p' <= p ->
  Rank.risk_tier_rank (Spec.churn_tier p') <= Rank.risk_tier_rank (Spec.churn_tier p).
Proof.
  intros H. unfold Spec.churn_tier.
  repeat match goal with
         | |- context [if Z.leb ?x ?y then _ else _] => destruct (Z.leb_spec x y)
         end;
    try lia; vm_compute; congruence.
Qed.

(** When the usage signals of an account get healthier (not fewer daily
    users, logins and features, not more tickets, an NPS that is not lower,
    or no NPS at all), the risk score [detect_churn_risk] returns does not
    rise and the risk tier does not get worse. *)
Theorem healthier_usage_never_raises_churn_risk :
  forall now account account',
    Spec.usage_ok (Account.usage_signals account) ->
    Spec.usage_ok (Account.usage_signals account') ->
    Rank.healthier (Account.usage_signals account) (Account.usage_signals account') ->
    exists r r',
      detect_churn_risk now account = Ok r /\
      detect_churn_risk now account' = Ok r' /\
      (ChurnResult.risk_score r' <=? ChurnResult.risk_score r)%float = true /\
      Rank.risk_tier_rank (ChurnResult.risk_tier r') <=
      Rank.risk_tier_rank (ChurnResult.risk_tier r).
Proof.
  intros now account account' Hok Hok' Hh.
  pose proof (churn_points_mono _ _ Hh) as Hp.
  pose proof (churn_points_range (Account.usage_signals account)) as Hr.
  pose proof (churn_points_range (Account.usage_signals account')) as Hr'.
  unfold detect_churn_risk.
  rewrite (churn_rules_spec _ Hok), (churn_rules_spec _ Hok'). cbn [bind].
  destruct (churn_score_exact _ Hr) as [Hround Htier].
  destruct (churn_score_exact _ Hr') as [Hround' Htier'].
  eexists. eexists. split; [reflexivity|]. split; [reflexivity|].
  cbn [ChurnResult.risk_score ChurnResult.risk_tier].
  rewrite Hround, Hround', Htier, Htier'. split.
  - apply Z2F_mono; lia.
  - apply churn_tier_mono, Hp.
Qed.

Lemma healthier_usage_witness :
  exists r r',
    detect_churn_risk "2024-11-01T00:00:00Z" Examples.at_risk_account = Ok r /\
    detect_churn_risk "2024-11-01T00:00:00Z" Examples.active_trial = Ok r' /\
    (ChurnResult.risk_score r' <=? ChurnResult.risk_score r)%float = true.
Proof.
  destruct (healthier_usage_never_raises_churn_risk "2024-11-01T00:00:00Z"
              Examples.at_risk_account Examples.active_trial)
    as (r & r' & Er & Er' & Hs & _).
  - vm_compute. intuition discriminate.
  - vm_compute. intuition discriminate.
  - vm_compute. intuition discriminate.
  - exists r, r'. auto.
Defined.

(** ** Trial conversion: bands, order and advice *)

Lemma band_bonus_index v t1 t2 t3 b1 b2 b3 p :
  band_bonus (VInt v) t1 t2 t3 b1 b2 b3 p =
  Ok (Rank.add_bonus b1 b2 b3 (Rank.band_index v t1 t2 t3) p).
Proof.
  unfold band_bonus, Rank.add_bonus, Rank.band_index. cbn [ge_int bind].
  destruct (t1 <=? v); [reflexivity|]. cbn [bind].
  destruct (t2 <=? v); [reflexivity|]. cbn [bind].
  destruct (t3 <=? v); reflexivity.
Qed.

Lemma conversion_score_bands usage :
  Spec.usage_ok usage ->
  conversion_score usage =
  Ok (Rank.probability_of_bands
        (Rank.band_index (Spec.count usage "daily_active_users") 15 10 5)
        (Rank.band_index (Spec.count usage "features_adopted") 5 3 2)
        (Rank.band_index (Spec.count usage "api_calls_per_day") 300 150 50)
        (Rank.band_index (Spec.count usage "login_frequency_7d") 14 10 5)).
Proof.
  intros (Hdau & Hfeat & Hapi & _ & _ & Hlogin).
  unfold conversion_score, Rank.probability_of_bands.
  rewrite !dict_get_count by assumption.
  repeat (rewrite band_bonus_index; cbn [bind]). reflexivity.
Qed.

Lemma band_index_range v t1 t2 t3 : 0 <= Rank.band_index v t1 t2 t3 <= 3.
Proof.
  unfold Rank.band_index.
  destruct (t1 <=? v), (t2 <=? v), (t3 <=? v); lia.
Qed.

Lemma band_index_mono v v' t1 t2 t3 :
  v <= v' -> t3 <= t2 <= t1 ->
  Rank.band_index v t1 t2 t3 <= Rank.band_index v' t1 t2 t3.
Proof.
  intros Hv Ht. unfold Rank.band_index.
  destruct (Z.leb_spec t1 v), (Z.leb_spec t2 v), (Z.leb_spec t3 v),
    (Z.leb_spec t1 v'), (Z.leb_spec t2 v'), (Z.leb_spec t3 v'); lia.
Qed.

Lemma in_bands i : 0 <= i <= 3 -> In i Rank.BANDS.
Proof.
  intros H. assert (E : i = 0 \/ i = 1 \/ i = 2 \/ i = 3) by lia.
  unfold Rank.BANDS. simpl. intuition.
Qed.

(** A statement about all combinations of bands, settled by evaluation. *)
Lemma forall_bands (P : Z -> Z -> Z -> Z -> bool) :
  forallb (fun a =>
    forallb (fun b =>
      forallb (fun c => forallb (P a b c) Rank.BANDS) Rank.BANDS) Rank.BANDS)
    Rank.BANDS = true ->
  forall a b c d,
    0 <= a <= 3 -> 0 <= b <= 3 -> 0 <= c <= 3 -> 0 <= d <= 3 ->
    P a b c d = true.
Proof.
  intros H a b c d Ha Hb Hc Hd.
  rewrite forallb_forall in H. specialize (H a (in_bands a Ha)).
  rewrite forallb_forall in H. specialize (H b (in_bands b Hb)).
  rewrite forallb_forall in H. specialize (H c (in_bands c Hc)).
  rewrite forallb_forall in H. exact (H d (in_bands d Hd)).
Qed.

(** The result on a well-typed account, by the bands its signals reach. *)
Lemma conversion_result float_repr now account r :
  let usage := Account.usage_signals account in
  Spec.usage_ok usage ->
  calculate_conversion_probability float_repr now account = Ok r ->
  let p := Rank.probability_of_bands
             (Rank.band_index (Spec.count usage "daily_active_users") 15 10 5)
             (Rank.band_index (Spec.count usage "features_adopted") 5 3 2)
             (Rank.band_index (Spec.count usage "api_calls_per_day") 300 150 50)
             (Rank.band_index (Spec.count usage "login_frequency_7d") 14 10 5) in
  ConversionResult.conversion_probability r = py_round p 3 /\
  ConversionResult.probability_tier r = get_probability_tier p /\
  ConversionResult.key_engagement_signals r = Spec.engagement_summary usage.
Proof.
  intros usage Hok H p.
  destruct (conversion_returns float_repr now account r Hok H) as (p' & Ep' & ->).
  fold usage in Ep'. rewrite (conversion_score_bands usage Hok) in Ep'.
  pose proof (f_equal (fun x => match x with Ok v => v | Raise _ => p end) Ep')
    as Hp.
  cbv beta iota in Hp. fold p in Hp. subst p'.
  repeat split.
Qed.

Lemma conversion_order a b c d a' b' c' d' :
  0 <= a <= a' -> a' <= 3 -> 0 <= b <= b' -> b' <= 3 ->
  0 <= c <= c' -> c' <= 3 -> 0 <= d <= d' -> d' <= 3 ->
  (py_round (Rank.probability_of_bands a b c d) 3 <=?
   py_round (Rank.probability_of_bands a' b' c' d') 3)%float = true /\
  Rank.probability_tier_rank
    (get_probability_tier (Rank.probability_of_bands a b c d)) <=
  Rank.probability_tier_rank
    (get_probability_tier (Rank.probability_of_bands a' b' c' d')).
Proof.
  intros Ha Ha' Hb Hb' Hc Hc' Hd Hd'.
  assert (H : Rank.conversion_order_check a b c d a' b' c' d' = true).
  { apply (forall_bands (Rank.conversion_order_check a b c d)); try lia.
    apply (forall_bands
             (fun a b c d =>
                forallb (fun a' =>
                  forallb (fun b' =>
                    forallb (fun c' =>
                      forallb (Rank.conversion_order_check a b c d a' b' c')
                        Rank.BANDS) Rank.BANDS) Rank.BANDS) Rank.BANDS));
      try lia.
    vm_cast_no_check (eq_refl true). }
  unfold Rank.conversion_order_check in H.
  rewrite (proj2 (Z.leb_le a a')), (proj2 (Z.leb_le b b')),
    (proj2 (Z.leb_le c c')), (proj2 (Z.leb_le d d')) in H by lia.
  cbn [andb implb] in H.
  apply andb_true_iff in H as [H1 H2]. apply Z.leb_le in H2. auto.
Qed.

(** When the usage of a trial grows (not fewer daily users, adopted
    features, API calls and logins), the conversion probability returned
    does not fall and the probability tier does not drop, for any two calls
    that return. *)
Theorem more_usage_never_lowers_conversion :
  forall float_repr now now' account account' r r',
    Spec.usage_ok (Account.usage_signals account) ->
    Spec.usage_ok (Account.usage_signals account') ->
    Rank.more_active (Account.usage_signals account)
      (Account.usage_signals account') ->
    calculate_conversion_probability float_repr now account = Ok r ->
    calculate_conversion_probability float_repr now' account' = Ok r' ->
    (ConversionResult.conversion_probability r <=?
     ConversionResult.conversion_probability r')%float = true /\
    Rank.probability_tier_rank (ConversionResult.probability_tier r) <=
    Rank.probability_tier_rank (ConversionResult.probability_tier r').
Proof.
  intros float_repr now now' account account' r r' Hok Hok'
    (Hdau & Hfeat & Hapi & Hlogin) Er Er'.
  destruct (conversion_result float_repr now account r Hok Er) as (Hp & Ht & _).
  destruct (conversion_result float_repr now' account' r' Hok' Er')
    as (Hp' & Ht' & _).
  rewrite Hp, Hp', Ht, Ht'.
  apply conversion_order;
    first [ apply band_index_range
          | split; [apply band_index_range | apply band_index_mono; lia] ].
Qed.

Lemma more_usage_witness :
  exists r r',
    calculate_conversion_probability (fun _ => "") "2024-11-01T00:00:00Z"
      Examples.forty_percent_trial = Ok r /\
    calculate_conversion_probability (fun _ => "") "2024-11-01T00:00:00Z"
      Examples.active_trial = Ok r' /\
    (ConversionResult.conversion_probability r <=?
     ConversionResult.conversion_probability r')%float = true.
Proof.
  eexists. eexists. split; [vm_compute; reflexivity|].
  split; [vm_compute; reflexivity|].
  apply (more_usage_never_lowers_conversion (fun _ => "")
           "2024-11-01T00:00:00Z" "2024-11-01T00:00:00Z"
           Examples.forty_percent_trial Examples.active_trial).
  - vm_compute. intuition discriminate.
  - vm_compute. intuition discriminate.
  - vm_compute. intuition discriminate.
  - reflexivity.
  - reflexivity.
Defined.

Lemma high_tier_needs_two_signals a b c d :
  0 <= a <= 3 -> 0 <= b <= 3 -> 0 <= c <= 3 -> 0 <= d <= 3 ->
  get_probability_tier (Rank.probability_of_bands a b c d) = "high" ->
  2 <= Z.b2z (2 <=? a) + Z.b2z (2 <=? b) + Z.b2z (2 <=? c).
Proof.
  intros Ha Hb Hc Hd.
  pose (P := fun a b c d =>
    implb (String.eqb (get_probability_tier (Rank.probability_of_bands a b c d))
             "high")
      (2 <=? Z.b2z (2 <=? a) + Z.b2z (2 <=? b) + Z.b2z (2 <=? c))).
  assert (H : P a b c d = true).
  { apply forall_bands; try assumption. vm_compute. reflexivity. }
  unfold P in H. intros E. rewrite E in H. cbn [String.eqb implb] in H.
  change (String.eqb "high" "high") with true in H. cbn [implb] in H.
  apply Z.leb_le in H. exact H.
Qed.

Lemma summary_length usage :
  length (Spec.engagement_summary usage) =
  Z.to_nat (Z.b2z (10 <=? Spec.count usage "daily_active_users") +
            Z.b2z (3 <=? Spec.count usage "features_adopted") +
            Z.b2z (150 <=? Spec.count usage "api_calls_per_day")).
Proof.
  unfold Spec.engagement_summary.
  destruct (10 <=? _), (3 <=? _), (150 <=? _); reflexivity.
Qed.

(** The advice of [calculate_conversion_probability] goes with the tier, on
    any account: the upgrade prompt and onboarding call for "high", the
    tutorial and case study for "medium", outreach and blocker removal for
    "low".  On a well-typed account the engine returns when the counts it
    prints have at most 4300 digits, and the key engagement signals of a
    result are exactly these lines, in this order: "Strong daily usage (<n>
    DAU)" when daily users >= 10, "Good feature adoption (<n> features)"
    when features >= 3, "Active API integration (<n> calls/day)" when API
    calls >= 150, each with its count in decimal.  A "high" tier never
    comes with fewer than two of them. *)
Theorem conversion_advice_goes_with_the_tier :
  forall float_repr now account,
    (forall r,
        calculate_conversion_probability float_repr now account = Ok r ->
        (ConversionResult.probability_tier r = "high" /\
         ConversionResult.recommended_actions r =
           [ "Send upgrade prompt with success stories";
             "Offer onboarding call to ensure success" ]) \/
        (ConversionResult.probability_tier r = "medium" /\
         ConversionResult.recommended_actions r =
           [ "Provide feature tutorial to drive adoption";
             "Share case study from similar customer" ]) \/
        (ConversionResult.probability_tier r = "low" /\
         ConversionResult.recommended_actions r =
           [ "Increase engagement with personalized outreach";
             "Identify and remove adoption blockers" ])) /\
    (let usage := Account.usage_signals account in
     let dau := Spec.count usage "daily_active_users" in
     let features := Spec.count usage "features_adopted" in
     let api := Spec.count usage "api_calls_per_day" in
     Spec.usage_ok usage ->
     (Spec.printable_usage usage ->
      exists r, calculate_conversion_probability float_repr now account = Ok r) /\
     (forall r,
         calculate_conversion_probability float_repr now account = Ok r ->
         ConversionResult.key_engagement_signals r =
           (if 10 <=? dau
            then ["Strong daily usage (" +:+ pretty dau +:+ " DAU)"] else []) ++
           (if 3 <=? features
            then ["Good feature adoption (" +:+ pretty features +:+ " features)"]
            else []) ++
           (if 150 <=? api
            then ["Active API integration (" +:+ pretty api +:+ " calls/day)"]
            else []) /\
         (ConversionResult.probability_tier r = "high" ->
          (2 <= length (ConversionResult.key_engagement_signals r))%nat))).
Proof.
  intros float_repr now account. split.
  - intros r H. unfold calculate_conversion_probability in H.
    destruct (conversion_score _) as [p|]; [|discriminate H]. cbn [bind] in H.
    repeat match type of H with
           | context [bind (ge_int ?v ?c) _] =>
               destruct (ge_int v c) as [[]|]; cbn [bind] in H;
               [| |discriminate H]
           | context [bind (format_field ?f ?v) _] =>
               destruct (format_field f v); cbn [bind] in H; [|discriminate H]
           end;
      pose proof (f_equal (fun x => match x with Ok v => v | Raise _ => r end) H)
        as Hr;
      cbv beta iota in Hr; clear H; subst r;
      cbn [ConversionResult.probability_tier ConversionResult.recommended_actions];
      unfold get_probability_tier;
      (destruct (_ <=? p)%float; [left; split; reflexivity|]);
      (destruct (_ <=? p)%float; [right; left | right; right]); split; reflexivity.
  - intros usage dau features api Hok.
    split; [intros Hprint; apply conversion_total; assumption|].
    intros r H.
    destruct (conversion_result float_repr now account r Hok H) as (_ & Ht & Hs).
    fold usage in Hs. split; [exact Hs|].
    rewrite Ht, Hs, summary_length. intros Hhigh.
    apply high_tier_needs_two_signals in Hhigh; try apply band_index_range.
    revert Hhigh. unfold Rank.band_index. subst dau features api usage.
    generalize (Spec.count (Account.usage_signals account) "daily_active_users").
    generalize (Spec.count (Account.usage_signals account) "features_adopted").
    generalize (Spec.count (Account.usage_signals account) "api_calls_per_day").
    clear. intros api features dau.
    destruct (Z.leb_spec 15 dau), (Z.leb_spec 10 dau), (Z.leb_spec 5 dau),
      (Z.leb_spec 5 features), (Z.leb_spec 3 features), (Z.leb_spec 2 features),
      (Z.leb_spec 300 api), (Z.leb_spec 150 api), (Z.leb_spec 50 api);
      try lia; cbn; lia.
Qed.

Lemma conversion_advice_witness :
  exists r,
    calculate_conversion_probability (fun _ => "") "2024-11-01T00:00:00Z"
      Examples.active_trial = Ok r /\
    ConversionResult.key_engagement_signals r =
      [ "Strong daily usage (20 DAU)";
        "Good feature adoption (6 features)";
        "Active API integration (500 calls/day)" ].
Proof.
  destruct (proj2 (conversion_advice_goes_with_the_tier (fun _ => "")
                     "2024-11-01T00:00:00Z" Examples.active_trial))
    as (Hex & Hall).
  - vm_compute. intuition discriminate.
  - destruct Hex as (r & Er); [repeat split; vm_compute; reflexivity|].
    exists r. split; [exact Er|].
    rewrite (proj1 (Hall r Er)). vm_compute. reflexivity.
Defined.

(** ** The order of doubles through the weighted sums *)

Lemma leb_trans x y z :
  endpoint x = true -> endpoint y = true -> endpoint z = true ->
  (x <=? y)%float = true -> (y <=? z)%float = true -> (x <=? z)%float = true.
Proof.
  intros Hx Hy Hz. rewrite !leb_ulps by auto using endpoint_nonneg.
  rewrite !Z.leb_le. lia.
Qed.

Lemma ordered_intro lo hi x x' :
  within lo hi x -> within lo hi x' -> (x <=? x')%float = true ->
  Rank.ordered lo hi x x'.
Proof. unfold Rank.ordered. auto. Qed.

Lemma ordered_refl lo hi x :
  endpoint lo = true -> endpoint hi = true -> within lo hi x ->
  Rank.ordered lo hi x x.
Proof.
  intros Hlo Hhi Hw. apply ordered_intro; try assumption.
  pose proof (within_endpoint _ _ _ Hlo Hhi Hw) as Hx.
  apply (within_refl x Hx).
Qed.

Lemma ordered_mul lo hi c x x' :
  endpoint lo = true -> endpoint hi = true -> endpoint c = true ->
  Rank.ordered lo hi x x' ->
  Rank.ordered (lo * c) (hi * c) (x * c) (x' * c).
Proof.
  intros Hlo Hhi Hc (Hx & Hx' & Hle).
  pose proof (within_endpoint _ _ _ Hlo Hhi Hx) as Ex.
  pose proof (within_endpoint _ _ _ Hlo Hhi Hx') as Ex'.
  apply ordered_intro; try (apply within_mul; assumption).
  assert (W : within x x' x) by (split; [apply (within_refl x Ex) | exact Hle]).
  apply (within_mul x x' c x Ex Ex' Hc W).
Qed.

Lemma ordered_add lo1 hi1 x x' lo2 hi2 y y' :
  endpoint lo1 = true -> endpoint hi1 = true ->
  endpoint lo2 = true -> endpoint hi2 = true ->
  Rank.ordered lo1 hi1 x x' -> Rank.ordered lo2 hi2 y y' ->
  Rank.ordered (lo1 + lo2) (hi1 + hi2) (x + y) (x' + y').
Proof.
  intros Hlo1 Hhi1 Hlo2 Hhi2 (Hx & Hx' & Hlx) (Hy & Hy' & Hly).
  pose proof (within_endpoint _ _ _ Hlo1 Hhi1 Hx) as Ex.
  pose proof (within_endpoint _ _ _ Hlo1 Hhi1 Hx') as Ex'.
  pose proof (within_endpoint _ _ _ Hlo2 Hhi2 Hy) as Ey.
  pose proof (within_endpoint _ _ _ Hlo2 Hhi2 Hy') as Ey'.
  apply ordered_intro; try (apply within_add; assumption).
  assert (Wx : within x x' x) by (split; [apply (within_refl x Ex) | exact Hlx]).
  assert (Wy : within y y' y) by (split; [apply (within_refl y Ey) | exact Hly]).
  apply (within_add x x' x y y' y Ex Ex' Ey Ey' Wx Wy).
Qed.

Ltac ordered_scaled H c M :=
  match type of H with
  | Rank.ordered ?l ?h ?x ?x' =>
      assert (M : Rank.ordered (l * c)%float (h * c)%float (x * c)%float
                    (x' * c)%float)
        by (apply ordered_mul; solve [by_eval | assumption])
  end.

Ltac ordered_sum H1 H2 A :=
  match type of H1 with
  | Rank.ordered ?l1 ?h1 ?x ?x' =>
      match type of H2 with
      | Rank.ordered ?l2 ?h2 ?y ?y' =>
          assert (A : Rank.ordered (l1 + l2)%float (h1 + h2)%float
                        (x + y)%float (x' + y')%float)
            by (apply ordered_add; solve [by_eval | assumption])
      end
  end.

Lemma ordered_weaken lo hi x x' :
  endpoint lo = true -> endpoint hi = true ->
  (0 <=? lo)%float = true -> (hi <=? 100)%float = true ->
  Rank.ordered lo hi x x' -> Rank.ordered 0 100 x x'.
Proof.
  intros Hlo Hhi H0 H100 (Hx & Hx' & Hle).
  apply ordered_intro; try exact Hle;
    apply (within_weaken lo hi 0 100); try assumption; by_eval.
Qed.

Lemma engagement_sum_mono (w e d t p w' e' d' t' p' : float) :
  Rank.ordered 0 100 w w' -> Rank.ordered 0 100 e e' ->
  Rank.ordered 0 100 d d' -> Rank.ordered 0 100 t t' ->
  Rank.ordered 0 100 p p' ->
  Rank.ordered 0 100
    (w * 0.25 + e * 0.30 + d * 0.20 + t * 0.15 + p * 0.10)%float
    (w' * 0.25 + e' * 0.30 + d' * 0.20 + t' * 0.15 + p' * 0.10)%float.
Proof.
  intros Ww We Wd Wt Wp.
  ordered_scaled Ww 0.25%float M1.
  ordered_scaled We 0.30%float M2.
  ordered_scaled Wd 0.20%float M3.
  ordered_scaled Wt 0.15%float M4.
  ordered_scaled Wp 0.10%float M5.
  ordered_sum M1 M2 A1.
  ordered_sum A1 M3 A2.
  ordered_sum A2 M4 A3.
  ordered_sum A3 M5 A4.
  revert A4. apply ordered_weaken; by_eval.
Qed.

Lemma Z2F_ordered a b : 0 <= a <= b -> b <= 100 -> Rank.ordered 0 100 (Z2F a) (Z2F b).
Proof.
  intros Ha Hb. apply ordered_intro.
  - apply Z2F_percent. lia.
  - apply Z2F_percent. lia.
  - apply Z2F_mono; assumption.
Qed.

Lemma weighted_score_mono size engagement fit intent size' engagement' fit' intent' :
  0 <= size <= size' -> size' <= 100 ->
  Rank.ordered 0 100 engagement engagement' ->
  0 <= fit <= fit' -> fit' <= 100 ->
  0 <= intent <= intent' -> intent' <= 100 ->
  Rank.ordered 0 100 (weighted_score size engagement fit intent)
    (weighted_score size' engagement' fit' intent').
Proof.
  intros Hs Hs' We Hf Hf' Hi Hi'.
  pose proof (Z2F_ordered _ _ Hs Hs') as Ws.
  pose proof (Z2F_ordered _ _ Hf Hf') as Wf.
  pose proof (Z2F_ordered _ _ Hi Hi') as Wi.
  unfold weighted_score.
  replace (LEAD_SCORE_WEIGHTS !!! "company_size") with 0.20%float by by_eval.
  replace (LEAD_SCORE_WEIGHTS !!! "engagement_signals") with 0.40%float by by_eval.
  replace (LEAD_SCORE_WEIGHTS !!! "industry_fit") with 0.20%float by by_eval.
  replace (LEAD_SCORE_WEIGHTS !!! "intent_signals") with 0.20%float by by_eval.
  revert Ws We Wf Wi.
  generalize (Z2F size) (Z2F fit) (Z2F intent) (Z2F size') (Z2F fit') (Z2F intent').
  intros s f i s' f' i' Ws We Wf Wi.
  ordered_scaled Ws 0.20%float M1.
  ordered_scaled We 0.40%float M2.
  ordered_scaled Wf 0.20%float M3.
  ordered_scaled Wi 0.20%float M4.
  ordered_sum M1 M2 A1.
  ordered_sum A1 M3 A2.
  ordered_sum A2 M4 A3.
  revert A3. apply ordered_weaken; by_eval.
Qed.

(** *** Rounding to two decimals keeps the order *)

Lemma decimal_scaled_ulps m e :
  -1074 <= e ->
  decimal_scaled 2 m e =
  round_half_even_div (Z.pos m * 2 ^ (e + 1074) * 100) (2 ^ 1074).
Proof.
  intros He. unfold decimal_scaled. change (10 ^ 2) with 100.
  pose proof (pow2_pos 1074 ltac:(lia)) as H1074.
  destruct (Z.leb_spec 0 e) as [H0|H0].
  - rewrite (pow2_split e 1074) by lia.
    rewrite rhe_exact; [|lia|].
    + replace (Z.pos m * (2 ^ e * 2 ^ 1074) * 100)
        with (Z.pos m * 2 ^ e * 100 * 2 ^ 1074) by ring.
      rewrite Z.div_mul by lia. reflexivity.
    + replace (Z.pos m * (2 ^ e * 2 ^ 1074) * 100)
        with (Z.pos m * 2 ^ e * 100 * 2 ^ 1074) by ring.
      apply Z.mod_mul. lia.
  - pose proof (pow2_pos (- e) ltac:(lia)) as Hp.
    pose proof (pow2_pos (e + 1074) ltac:(lia)) as Hq.
    rewrite <- (rhe_scale (Z.pos m * 100) (2 ^ (- e)) (2 ^ (e + 1074)) Hp Hq).
    rewrite <- (pow2_split (- e) (e + 1074)) by lia.
    replace (- e + (e + 1074)) with 1074 by lia.
    f_equal. ring.
Qed.

(** The magnitude of [round(x, 2)] is that of the double nearest to the
    number of hundredths [x] rounds to. *)
Lemma py_round_hundredths x :
  within 0 100 x ->
  let N := round_half_even_div (ulps (Prim2SF x) * 100) (2 ^ 1074) in
  0 <= N <= 10000 /\
  ulps (Prim2SF (py_round x 2)) = ulps (Prim2SF (Rank.hundredths N)).
Proof.
  intros Hw N.
  pose proof (within_endpoint 0 100 x ltac:(by_eval) ltac:(by_eval) Hw) as Hx.
  pose proof (within_ulps 0 100 x ltac:(by_eval) ltac:(by_eval) Hw) as [Hu0 Hu].
  replace (ulps (Prim2SF 100)) with (100 * 2 ^ 1074) in Hu by by_eval.
  pose proof (prim_ulps_nonneg x) as Hn.
  pose proof (pow2_pos 1074 ltac:(lia)) as H1074.
  assert (HN : 0 <= N <= 10000).
  { subst N. split.
    - pose proof (rhe_bounds (ulps (Prim2SF x) * 100) (2 ^ 1074) H1074) as [Hl _].
      pose proof (Z.div_pos (ulps (Prim2SF x) * 100) (2 ^ 1074) ltac:(lia) H1074).
      lia.
    - pose proof (rhe_mono (ulps (Prim2SF x) * 100) (10000 * 2 ^ 1074)
                    (2 ^ 1074) H1074 ltac:(lia)) as Hle.
      rewrite (rhe_exact (10000 * 2 ^ 1074)) in Hle
        by (try assumption; apply Z.mod_mul; lia).
      rewrite Z.div_mul in Hle by lia. exact Hle. }
  split; [exact HN|].
  pose proof (Prim2SF_valid x) as V.
  subst N. unfold py_round, endpoint, Rank.hundredths in *.
  destruct (Prim2SF x) as [s| | |[] m e] eqn:E; try discriminate Hx.
  - rewrite E. cbn [ulps]. reflexivity.
  - cbn [valid_binary] in V. apply bounded_bounds in V as (_ & He & _).
    cbn [ulps]. rewrite (decimal_scaled_ulps m e) by lia. reflexivity.
Qed.

Lemma hundredths_step N :
  0 <= N < 10000 ->
  ulps (Prim2SF (Rank.hundredths N)) <= ulps (Prim2SF (Rank.hundredths (N + 1))).
Proof.
  intros HN.
  pose (P := fun N =>
    endpoint (Rank.hundredths N) && endpoint (Rank.hundredths (N + 1)) &&
    (Rank.hundredths N <=? Rank.hundredths (N + 1))%float).
  assert (H : P N = true).
  { apply (forall_range P 0 (Z.to_nat 10000)); [by_eval | lia]. }
  unfold P in H. apply andb_true_iff in H as [H H3].
  apply andb_true_iff in H as [H1 H2].
  rewrite leb_ulps in H3 by auto using endpoint_nonneg.
  apply Z.leb_le, H3.
Qed.

Lemma hundredths_mono N M :
  0 <= N <= M -> M <= 10000 ->
  ulps (Prim2SF (Rank.hundredths N)) <= ulps (Prim2SF (Rank.hundredths M)).
Proof.
  intros HN HM.
  assert (H : forall k : nat, N + Z.of_nat k <= 10000 ->
            ulps (Prim2SF (Rank.hundredths N)) <=
            ulps (Prim2SF (Rank.hundredths (N + Z.of_nat k)))).
  { induction k as [|k IH]; intros Hk.
    - rewrite Z.add_0_r. lia.
    - specialize (IH ltac:(lia)).
      pose proof (hundredths_step (N + Z.of_nat k) ltac:(lia)) as Hs.
      replace (N + Z.of_nat (S k)) with (N + Z.of_nat k + 1) by lia. lia. }
  specialize (H (Z.to_nat (M - N)) ltac:(lia)).
  replace (N + Z.of_nat (Z.to_nat (M - N))) with M in H by lia. exact H.
Qed.

Lemma py_round_mono x y :
  Rank.ordered 0 100 x y -> Rank.ordered 0 100 (py_round x 2) (py_round y 2).
Proof.
  intros (Hx & Hy & Hle).
  pose proof (py_round_within x Hx) as Wx. pose proof (py_round_within y Hy) as Wy.
  apply ordered_intro; try assumption.
  pose proof (within_endpoint 0 100 _ ltac:(by_eval) ltac:(by_eval) Hx) as Ex.
  pose proof (within_endpoint 0 100 _ ltac:(by_eval) ltac:(by_eval) Hy) as Ey.
  pose proof (within_endpoint 0 100 _ ltac:(by_eval) ltac:(by_eval) Wx) as Erx.
  pose proof (within_endpoint 0 100 _ ltac:(by_eval) ltac:(by_eval) Wy) as Ery.
  rewrite leb_ulps in Hle by auto using endpoint_nonneg. apply Z.leb_le in Hle.
  rewrite leb_ulps by auto using endpoint_nonneg. apply Z.leb_le.
  destruct (py_round_hundredths x Hx) as [HNx ->].
  destruct (py_round_hundredths y Hy) as [HNy ->].
  apply hundredths_mono; [|lia]. split; [lia|].
  apply rhe_mono; [apply pow2_pos; lia | lia].
Qed.

Lemma lead_tier_mono x y :
  Rank.ordered 0 100 x y ->
  Rank.lead_tier_rank (lead_tier x) <= Rank.lead_tier_rank (lead_tier y).
Proof.
  intros (Hx & Hy & Hle).
  pose proof (within_endpoint 0 100 _ ltac:(by_eval) ltac:(by_eval) Hx) as Ex.
  pose proof (within_endpoint 0 100 _ ltac:(by_eval) ltac:(by_eval) Hy) as Ey.
  unfold lead_tier, fge_int.
  replace (LEAD_TIER_THRESHOLDS !!! "hot") with 70 by by_eval.
  replace (LEAD_TIER_THRESHOLDS !!! "warm") with 40 by by_eval.
  pose proof (fun c Hc => leb_trans (Z2F c) x y Hc Ex Ey) as T.
  destruct (Z2F 70 <=? x)%float eqn:E70.
  - rewrite (T 70 ltac:(by_eval) E70 Hle). reflexivity.
  - destruct (Z2F 40 <=? x)%float eqn:E40.
    + rewrite (T 40 ltac:(by_eval) E40 Hle).
      destruct (Z2F 70 <=? y)%float; vm_compute; congruence.
    + destruct (Z2F 70 <=? y)%float; [vm_compute; congruence|].
      destruct (Z2F 40 <=? y)%float; vm_compute; congruence.
Qed.

(** ** The lead score grows with engagement and size *)

Lemma score_lead_inv now company_name signals industry employee_count r :
  score_lead now company_name signals industry employee_count = Ok r ->
  exists size engagement fit intent attrs,
    lead_sub_scores signals industry employee_count =
      Ok (size, engagement, fit, intent, attrs) /\
    PredictionResult.score r =
      py_round (weighted_score size engagement fit intent) 2 /\
    PredictionResult.tier r = lead_tier (weighted_score size engagement fit intent) /\
    exists explanation,
      generate_lead_explanation company_name
        (weighted_score size engagement fit intent)
        (lead_tier (weighted_score size engagement fit intent))
        signals industry employee_count = Ok explanation /\
      PredictionResult.explanation r = explanation.
Proof.
  intros H.
  apply score_lead_returns in H
    as (size & engagement & fit & intent & attrs & s & _ & E & Es & ->).
  exists size, engagement, fit, intent, attrs.
  split; [exact E|]. split; [reflexivity|]. split; [reflexivity|].
  exists s. split; [exact Es | reflexivity].
Qed.

Lemma lead_sub_scores_inv signals industry employee_count size engagement fit
    intent attrs :
  lead_sub_scores signals industry employee_count =
    Ok (size, engagement, fit, intent, attrs) ->
  get_company_size_score employee_count = Ok size /\
  (exists engagement_attrs,
      calculate_engagement_score signals = Ok (engagement, engagement_attrs)) /\
  fit = default (INDUSTRY_FIT_SCORES !!! "default") (INDUSTRY_FIT_SCORES !! industry) /\
  intent = (calculate_intent_score signals).1.
Proof.
  intros H. unfold lead_sub_scores in H.
  destruct (get_company_size_score employee_count) as [s|]; [|discriminate H].
  destruct (calculate_engagement_score signals) as [[e ea]|]; [|discriminate H].
  cbn [bind] in H.
  destruct (calculate_intent_score signals) as [i ia].
  pose proof (f_equal (fun r => match r with
                                | Ok (a, _, _, _, _) => a | Raise _ => s end) H) as H1.
  pose proof (f_equal (fun r => match r with
                                | Ok (_, b, _, _, _) => b | Raise _ => e end) H) as H2.
  pose proof (f_equal (fun r => match r with
                                | Ok (_, _, c, _, _) => c | Raise _ => s end) H) as H3.
  pose proof (f_equal (fun r => match r with
                                | Ok (_, _, _, d, _) => d | Raise _ => s end) H) as H4.
  cbv beta iota in H1, H2, H3, H4. clear H. subst size engagement fit intent.
  split; [reflexivity|]. split; [eauto|]. split; reflexivity.
Qed.

(** The engagement score as the weighted sum of the five signal scores. *)
Lemma engagement_score_inv signals s attrs :
  Spec.count_ok signals "website_visits_30d" ->
  Spec.count_ok signals "whitepaper_downloads" ->
  calculate_engagement_score signals = Ok (s, attrs) ->
  exists q1 q2 e,
    int_truediv (Spec.count signals "website_visits_30d") 50 = Ok q1 /\
    int_truediv (Spec.count signals "whitepaper_downloads") 5 = Ok q2 /\
    float_of (dict_get signals "email_engagement_score" (VInt 0)) = Ok e /\
    s = (py_min 100 (q1 * 100) * 0.25 + e * 0.30 +
         (if Rank.flag signals "demo_requested" then 100 else 0) * 0.20 +
         (if Rank.flag signals "free_trial_started" then 100 else 0) * 0.15 +
         py_min 100 (q2 * 100) * 0.10)%float.
Proof.
  intros Hv Hw H. unfold calculate_engagement_score in H.
  rewrite !(dict_get_count signals "website_visits_30d" Hv),
    !(dict_get_count signals "whitepaper_downloads" Hw) in H.
  cbn [truediv as_int gt_int] in H.
  destruct (int_truediv (Spec.count signals "website_visits_30d") 50) as [q1|];
    [|discriminate H].
  cbn [bind] in H.
  destruct (gt_int (dict_get signals "email_engagement_score" (VInt 0)) 60);
    [|discriminate H].
  cbn [bind] in H.
  destruct (int_truediv (Spec.count signals "whitepaper_downloads") 5) as [q2|];
    [|discriminate H].
  cbn [bind] in H.
  destruct (float_of (dict_get signals "email_engagement_score" (VInt 0))) as [e|];
    [|discriminate H].
  cbn [bind] in H.
  exists q1, q2, e. split; [reflexivity|]. split; [reflexivity|].
  split; [reflexivity|].
  pose proof (f_equal (fun r => match r with Ok (x, _) => x | Raise _ => s end) H)
    as Hs.
  cbv beta iota in Hs. symmetry. exact Hs.
Qed.

Lemma count_same (signals signals' : gmap string pyobj) k :
  signals' !! k = signals !! k -> Spec.count signals' k = Spec.count signals k.
Proof. unfold Spec.count. intros ->. reflexivity. Qed.

Lemma flag_ordered (b b' : bool) (lo : float) :
  (b = true -> b' = true) ->
  endpoint lo = true -> (lo <=? 100)%float = true -> (0 <=? lo)%float = true ->
  Rank.ordered 0 100 (if b then 100 else lo) (if b' then 100 else lo).
Proof.
  intros Hb Hlo H100 H0.
  destruct b, b'; try (discriminate (Hb eq_refl));
    apply ordered_intro; try (split; assumption); try (split; reflexivity);
    try assumption; try reflexivity.
  - apply (within_refl lo Hlo).
Qed.

Lemma email_ordered signals signals' :
  Spec.signals_ok signals' ->
  Spec.count_ok signals "email_engagement_score" ->
  Spec.count_ok signals' "email_engagement_score" ->
  Spec.count signals "email_engagement_score" <=
    Spec.count signals' "email_engagement_score" ->
  forall e e',
    float_of (dict_get signals "email_engagement_score" (VInt 0)) = Ok e ->
    float_of (dict_get signals' "email_engagement_score" (VInt 0)) = Ok e' ->
    Rank.ordered 0 100 e e'.
Proof.
  intros (_ & _ & He' & _) Hc Hc' Hle e e'.
  rewrite (dict_get_count _ _ Hc), (dict_get_count _ _ Hc').
  pose proof (count_nonneg _ _ Hc) as Hn.
  assert (H100 : Spec.count signals' "email_engagement_score" <= 100).
  { unfold Spec.email_ok in He'. unfold Spec.count.
    destruct (signals' !! "email_engagement_score") as [[]|]; lia. }
  cbn [float_of].
  rewrite (proj1 (Z2F_percent (Spec.count signals "email_engagement_score")
                    ltac:(lia))),
    (proj1 (Z2F_percent (Spec.count signals' "email_engagement_score")
              ltac:(lia))).
  intros [= <-] [= <-]. apply Z2F_ordered; lia.
Qed.

Lemma engagement_score_mono signals signals' s s' attrs attrs' :
  Spec.signals_ok signals -> Spec.signals_ok signals' ->
  Rank.no_less_engaged signals signals' ->
  calculate_engagement_score signals = Ok (s, attrs) ->
  calculate_engagement_score signals' = Ok (s', attrs') ->
  Rank.ordered 0 100 s s'.
Proof.
  intros Hok Hok' (Hv & Hw & Hc & Hc' & Hle & Hdemo & Htrial & _) H H'.
  pose proof Hok as (Cv & Cw & _). pose proof Hok' as (Cv' & Cw' & _).
  apply (engagement_score_inv signals s attrs Cv Cw) in H
    as (q1 & q2 & e & E1 & E2 & Ee & ->).
  apply (engagement_score_inv signals' s' attrs' Cv' Cw') in H'
    as (q1' & q2' & e' & E1' & E2' & Ee' & ->).
  rewrite (count_same _ _ _ Hv), E1 in E1'. injection E1' as <-.
  rewrite (count_same _ _ _ Hw), E2 in E2'. injection E2' as <-.
  pose proof (count_nonneg _ _ Cv) as Nv. pose proof (count_nonneg _ _ Cw) as Nw.
  assert (W1 : within 0 100 (py_min 100 (q1 * 100))).
  { apply capped_score_within.
    eapply int_truediv_ok; [| | eassumption]; [exact Nv | lia]. }
  assert (W2 : within 0 100 (py_min 100 (q2 * 100))).
  { apply capped_score_within.
    eapply int_truediv_ok; [| | eassumption]; [exact Nw | lia]. }
  apply engagement_sum_mono.
  - apply ordered_refl; [by_eval | by_eval | exact W1].
  - exact (email_ordered signals signals' Hok' Hc Hc' Hle e e' Ee Ee').
  - apply flag_ordered; [exact Hdemo | by_eval | by_eval | by_eval].
  - apply flag_ordered; [exact Htrial | by_eval | by_eval | by_eval].
  - apply ordered_refl; [by_eval | by_eval | exact W2].
Qed.

(** All else equal, a lead with more employees, a higher (integer) email
    engagement score, or a flag switched on (demo requested, trial started,
    LinkedIn engagement) never gets a lower score from [score_lead], nor a
    lower tier. *)
Theorem more_engagement_never_lowers_the_lead_score :
  forall now now' company_name company_name' signals signals' industry n n' r r',
    Spec.signals_ok signals -> Spec.signals_ok signals' ->
    Rank.no_less_engaged signals signals' -> n <= n' ->
    score_lead now company_name signals industry (VInt n) = Ok r ->
    score_lead now' company_name' signals' industry (VInt n') = Ok r' ->
    (PredictionResult.score r <=? PredictionResult.score r')%float = true /\
    Rank.lead_tier_rank (PredictionResult.tier r) <=
    Rank.lead_tier_rank (PredictionResult.tier r').
Proof.
  intros now now' company_name company_name' signals signals' industry n n' r r'
    Hok Hok' Hmore Hn H H'.
  apply score_lead_inv in H as (a & b & c & d & attrs & E & -> & -> & _).
  apply score_lead_inv in H' as (a' & b' & c' & d' & attrs' & E' & -> & -> & _).
  apply lead_sub_scores_inv in E as (Ea & (ea & Eb) & -> & ->).
  apply lead_sub_scores_inv in E' as (Ea' & (ea' & Eb') & -> & ->).
  pose proof (engagement_score_mono _ _ _ _ _ _ Hok Hok' Hmore Eb Eb') as Hb.
  pose proof (company_size_range _ _ Ea) as Ra.
  pose proof (company_size_range _ _ Ea') as Ra'.
  assert (Haa : a <= a').
  { revert Ea Ea'. unfold get_company_size_score. cbn [ge_int bind].
    destruct (Z.leb_spec 1000 n), (Z.leb_spec 500 n), (Z.leb_spec 200 n),
      (Z.leb_spec 100 n), (Z.leb_spec 50 n), (Z.leb_spec 20 n);
      try lia; intros [= <-];
      destruct (Z.leb_spec 1000 n'), (Z.leb_spec 500 n'), (Z.leb_spec 200 n'),
        (Z.leb_spec 100 n'), (Z.leb_spec 50 n'), (Z.leb_spec 20 n');
      try lia; intros [= <-]; lia. }
  pose proof (industry_score_range industry) as Rc.
  assert (Hd : 0 <= (calculate_intent_score signals).1 <=
               (calculate_intent_score signals').1 /\
               (calculate_intent_score signals').1 <= 100).
  { destruct Hmore as (_ & _ & _ & _ & _ & _ & _ & Hl).
    unfold calculate_intent_score, Rank.flag in *. cbn [fst].
    destruct (truthy (dict_get signals "linkedin_engagement" (VBool false)));
      [rewrite (Hl eq_refl); lia|].
    destruct (truthy (dict_get signals' "linkedin_engagement" (VBool false))); lia. }
  assert (W : Rank.ordered 0 100
                (weighted_score a b
                   (default (INDUSTRY_FIT_SCORES !!! "default")
                      (INDUSTRY_FIT_SCORES !! industry))
                   (calculate_intent_score signals).1)
                (weighted_score a' b'
                   (default (INDUSTRY_FIT_SCORES !!! "default")
                      (INDUSTRY_FIT_SCORES !! industry))
                   (calculate_intent_score signals').1)).
  { apply weighted_score_mono; try lia; assumption. }
  split; [apply py_round_mono, W | apply lead_tier_mono, W].
Qed.

Lemma more_engagement_witness :
  exists r r',
    score_lead "2024-11-01T00:00:00Z" "Test Corp" Examples.hot_signals
      "technology" (VInt 100) = Ok r /\
    score_lead "2024-11-01T00:00:00Z" "Test Corp" Examples.hot_signals
      "technology" (VInt 1000) = Ok r' /\
    (PredictionResult.score r <=? PredictionResult.score r')%float = true.
Proof.
  eexists. eexists. split; [vm_compute; reflexivity|].
  split; [vm_compute; reflexivity|].
  apply (more_engagement_never_lowers_the_lead_score "2024-11-01T00:00:00Z"
           "2024-11-01T00:00:00Z" "Test Corp" "Test Corp" Examples.hot_signals
           Examples.hot_signals "technology" 100 1000).
  - bag_ok.
  - bag_ok.
  - unfold Rank.no_less_engaged. repeat split; vm_compute; try reflexivity;
      try (intros ?; discriminate).
  - lia.
  - reflexivity.
  - reflexivity.
Defined.

(** ** The part of the scale a lead score can take *)

Lemma Z2F_between lo hi n :
  0 <= lo <= n -> n <= hi -> hi <= 100 -> within (Z2F lo) (Z2F hi) (Z2F n).
Proof.
  intros Hlo Hn Hhi. split; apply Z2F_mono; lia.
Qed.

Lemma company_size_at_least_30 employee_count s :
  get_company_size_score employee_count = Ok s -> 30 <= s <= 100.
Proof.
  unfold get_company_size_score. intros H. bind_inv H.
  repeat match type of H with
         | (if ?b then _ else _) = _ => destruct b
         | match ?m with Ok _ => _ | Raise _ => _ end = Ok _ =>
             destruct m; [|discriminate H]
         end;
  injection H as <-; lia.
Qed.

Lemma industry_score_bounds industry :
  30 <= default (INDUSTRY_FIT_SCORES !!! "default") (INDUSTRY_FIT_SCORES !! industry)
     <= 95.
Proof.
  destruct (INDUSTRY_FIT_SCORES !! industry) as [z|] eqn:E;
    cbn [default from_option id].
  - apply elem_of_list_to_map_2, list_elem_of_In in E.
    assert (H : forallb (fun kv => (30 <=? snd kv) && (snd kv <=? 95))
                  INDUSTRY_FIT_TABLE = true) by by_eval.
    rewrite forallb_forall in H. apply H in E. cbn [snd] in E.
    apply andb_true_iff in E as [E1 E2]. apply Z.leb_le in E1, E2. lia.
  - replace (INDUSTRY_FIT_SCORES !!! "default") with 50 by by_eval. lia.
Qed.

Lemma weighted_score_bounds size engagement fit intent :
  30 <= size <= 100 -> within 0 100 engagement ->
  30 <= fit <= 95 -> 40 <= intent <= 100 ->
  within 20 99 (weighted_score size engagement fit intent).
Proof.
  intros Hs We Hf Hi.
  pose proof (Z2F_between 30 100 size ltac:(lia) ltac:(lia) ltac:(lia)) as Ws.
  pose proof (Z2F_between 30 95 fit ltac:(lia) ltac:(lia) ltac:(lia)) as Wf.
  pose proof (Z2F_between 40 100 intent ltac:(lia) ltac:(lia) ltac:(lia)) as Wi.
  unfold weighted_score.
  replace (LEAD_SCORE_WEIGHTS !!! "company_size") with 0.20%float by by_eval.
  replace (LEAD_SCORE_WEIGHTS !!! "engagement_signals") with 0.40%float by by_eval.
  replace (LEAD_SCORE_WEIGHTS !!! "industry_fit") with 0.20%float by by_eval.
  replace (LEAD_SCORE_WEIGHTS !!! "intent_signals") with 0.20%float by by_eval.
  revert Ws We Wf Wi.
  generalize (Z2F size) (Z2F fit) (Z2F intent). intros s f i Ws We Wf Wi.
  within_scaled Ws 0.20%float M1.
  within_scaled We 0.40%float M2.
  within_scaled Wf 0.20%float M3.
  within_scaled Wi 0.20%float M4.
  within_sum M1 M2 A1.
  within_sum A1 M3 A2.
  within_sum A2 M4 A3.
  revert A3. apply within_weaken; by_eval.
Qed.

(** For well-typed signals the score [score_lead] returns is never below
    20 nor above 99: the smallest company size, industry and intent scores
    are 30, 30 and 40, and no industry scores more than 95. *)
Theorem lead_score_is_between_20_and_99 :
  forall now company_name signals industry employee_count r,
    Spec.signals_ok signals ->
    score_lead now company_name signals industry employee_count = Ok r ->
    within 20 99 (PredictionResult.score r).
Proof.
  intros now company_name signals industry employee_count r Hok H.
  apply score_lead_inv in H as (a & b & c & d & attrs & E & -> & _).
  apply lead_sub_scores_inv in E as (Ea & (ea & Eb) & -> & ->).
  pose proof (company_size_at_least_30 _ _ Ea) as Ra.
  pose proof (engagement_score_within _ _ _ Hok Eb) as Wb.
  pose proof (industry_score_bounds industry) as Rc.
  assert (Rd : 40 <= (calculate_intent_score signals).1 <= 100).
  { unfold calculate_intent_score. cbn [fst]. destruct (truthy _); lia. }
  pose proof (weighted_score_bounds _ _ _ _ Ra Wb Rc Rd) as W.
  assert (W100 : within 0 100 (weighted_score a b
                   (default (INDUSTRY_FIT_SCORES !!! "default")
                      (INDUSTRY_FIT_SCORES !! industry))
                   (calculate_intent_score signals).1)).
  { revert W. apply within_weaken; by_eval. }
  destruct W as [Wlo Whi].
  assert (Hlo : Rank.ordered 0 100 20 _)
    by (apply (ordered_intro 0 100 20 _ ltac:(split; by_eval) W100 Wlo)).
  assert (Hhi : Rank.ordered 0 100 _ 99)
    by (apply (ordered_intro 0 100 _ 99 W100 ltac:(split; by_eval) Whi)).
  apply py_round_mono in Hlo as (_ & _ & Hlo).
  apply py_round_mono in Hhi as (_ & _ & Hhi).
  split; [exact Hlo | exact Hhi].
Qed.

(** Both ends are reached: 20.0 by a one-person nonprofit without signals,
    99.0 by a large data-analytics company with every signal at its cap. *)
Lemma lead_score_is_between_witness :
  exists r r',
    score_lead "2024-11-01T00:00:00Z" "Small Co" ∅ "nonprofit" (VInt 1) = Ok r /\
    PredictionResult.score r = 20%float /\
    score_lead "2024-11-01T00:00:00Z" "Big Co"
      (<["website_visits_30d" := VInt 50]>
         (<["whitepaper_downloads" := VInt 5]>
            (<["email_engagement_score" := VInt 100]> Examples.hot_signals)))
      "data_analytics" (VInt 1000) = Ok r' /\
    PredictionResult.score r' = 99%float /\
    within 20 99 (PredictionResult.score r).
Proof.
  eexists. eexists. split; [vm_compute; reflexivity|].
  split; [reflexivity|]. split; [vm_compute; reflexivity|].
  split; [reflexivity|].
  apply (lead_score_is_between_20_and_99 "2024-11-01T00:00:00Z" "Small Co" ∅
           "nonprofit" (VInt 1)); [bag_ok | reflexivity].
Defined.

(** ** Two calls in a row *)

Lemma deref_app_l h h' r :
  (r < length h)%nat -> Objects.deref (h ++ h') r = Objects.deref h r.
Proof.
  intros H. unfold Objects.deref, Objects.heap, Objects.ref in *.
  rewrite lookup_app_l by exact H. reflexivity.
Qed.

Lemma deref_app_r h h' (i : nat) :
  Objects.deref (h ++ h') (length h + i)%nat = Objects.deref h' i.
Proof.
  unfold Objects.deref, Objects.heap, Objects.ref in *.
  rewrite lookup_app_r by lia.
  replace (length h + i - length h)%nat with i by lia. reflexivity.
Qed.

(** The references to objects allocated in a row find these objects,
    whatever is allocated later. *)
Lemma follow_seq h objs h' :
  map (Objects.deref (h ++ objs ++ h')) (seq (length h) (length objs)) = objs.
Proof.
  revert h. induction objs as [|d objs IH]; intros h; [reflexivity|].
  cbn [length seq map]. f_equal.
  - replace (length h) with (length h + 0)%nat at 1 by lia.
    rewrite deref_app_r. reflexivity.
  - specialize (IH (h ++ [d])). rewrite length_app in IH. cbn [length] in IH.
    replace (length h + 1)%nat with (S (length h)) in IH by lia.
    rewrite <- app_assoc in IH. exact IH.
Qed.

(** One step of a computation on the heap. *)
Lemma bind_lift {A B : Type} (m : result A) (k : A -> Objects.run B) h :
  Objects.bind (Objects.lift m) k h =
  match m with Ok a => k a h | Raise e => (Raise e, h) end.
Proof. unfold Objects.bind, Objects.lift. destruct m; reflexivity. Qed.

Lemma bind_new {B : Type} d (k : Objects.ref -> Objects.run B) h :
  Objects.bind (Objects.new d) k h = k (length h) (h ++ [d]).
Proof. reflexivity. Qed.

Lemma bind_get {B : Type} r key dflt (k : pyobj -> Objects.run B) h :
  Objects.bind (Objects.get r key dflt) k h =
  k (dict_get (Objects.deref h r) key dflt) h.
Proof. reflexivity. Qed.

Lemma bind_read {B : Type} r (k : gmap string pyobj -> Objects.run B) h :
  Objects.bind (Objects.read r) k h = k (Objects.deref h r) h.
Proof. reflexivity. Qed.

Lemma bind_item {B : Type} r key (k : pyobj -> Objects.run B) h :
  Objects.bind (Objects.item r key) k h =
  match dict_item (Objects.deref h r) key with
  | Ok v => k v h
  | Raise e => (Raise e, h)
  end.
Proof. unfold Objects.bind, Objects.item. destruct (dict_item _ _); reflexivity. Qed.

Lemma bind_set_item {B : Type} r key v (k : unit -> Objects.run B) h :
  Objects.bind (Objects.set_item r key v) k h = k tt (alter (insert key v) r h).
Proof. reflexivity. Qed.

Ltac run_step H :=
  first
    [ rewrite bind_get in H
    | rewrite bind_new in H
    | rewrite bind_read in H
    | rewrite bind_lift in H
    | rewrite deref_app_l in H by (rewrite ?length_app; cbn [length]; lia)
    | match type of H with
      | match ?m with Ok _ => _ | Raise _ => _ end = _ => destruct m eqn:?
      end ].

(** The engagement scorer on the heap computes what the scorer computes on
    the contents of the bag, and allocates the dictionaries of its
    attributions, in their order, after the objects there are. *)
Lemma engagement_run signals h o h' :
  (signals < length h)%nat ->
  Objects.calculate_engagement_score signals h = (o, h') ->
  o = Spec.map_result
        (fun '(s, attrs) => (s, seq (length h) (length attrs)))
        (calculate_engagement_score (Objects.deref h signals)) /\
  exists objs,
    h' = h ++ objs /\
    forall s attrs,
      calculate_engagement_score (Objects.deref h signals) = Ok (s, attrs) ->
      objs = map Objects.dict_of attrs.
Proof.
  intros Hs H.
  unfold Objects.calculate_engagement_score in H.
  unfold calculate_engagement_score.
  repeat run_step H.
  all: unfold Objects.ret in H.
  all: pose proof (f_equal fst H) as Ho; pose proof (f_equal snd H) as Hh;
    cbn [fst snd] in Ho, Hh; clear H; subst o h'.
  all: cbn [bind Spec.map_result].
  all: split;
    [ first [ reflexivity
            | do 2 f_equal; cbn [app length seq]; rewrite !length_app;
              cbn [length]; repeat (apply (f_equal2 cons); [lia|]);
              reflexivity ]
    | rewrite <- ?app_assoc; eexists;
      (split; [first [reflexivity | symmetry; apply app_nil_r]|]);
      intros s attrs E; try discriminate E ].
  pose proof (f_equal (fun r => match r with
                                | Ok (_, attrs') => attrs'
                                | Raise _ => attrs
                                end) E) as Ha.
  cbv beta iota in Ha. subst attrs. reflexivity.
Qed.

Lemma intent_run signals h :
  Objects.calculate_intent_score signals h =
  (Ok ((calculate_intent_score (Objects.deref h signals)).1,
       seq (length h)
         (length (calculate_intent_score (Objects.deref h signals)).2)),
   h ++ map Objects.dict_of (calculate_intent_score (Objects.deref h signals)).2).
Proof. reflexivity. Qed.

Lemma explanation_run company_name score tier signals industry employee_count h :
  Objects.generate_lead_explanation company_name score tier signals industry
    employee_count h =
  (generate_lead_explanation company_name score tier (Objects.deref h signals)
     industry employee_count, h).
Proof. reflexivity. Qed.

Lemma dict_of_contribution a :
  dict_item (Objects.dict_of a) "contribution" =
  Ok (VFloat (Attribution.contribution a)).
Proof.
  unfold dict_item, Objects.dict_of, Objects.attribution.
  by simplify_map_eq.
Qed.

Lemma dict_of_scaled w a :
  <[ "contribution" := VFloat (Attribution.contribution a * w) ]>
    (Objects.dict_of a) =
  Objects.dict_of (scale_contribution w a).
Proof.
  unfold Objects.dict_of, Objects.attribution, scale_contribution.
  cbn [Attribution.feature_name Attribution.contribution Attribution.value
         Attribution.impact].
  rewrite insert_insert_ne by discriminate.
  rewrite insert_insert_eq. reflexivity.
Qed.

(** The loop over the dictionaries just allocated rescales each of them
    where it is, and touches nothing else. *)
Lemma scale_run w attrs :
  forall pre all_attributions,
    Objects.scale_into w (seq (length pre) (length attrs)) all_attributions
      (pre ++ map Objects.dict_of attrs) =
    (Ok (all_attributions ++ seq (length pre) (length attrs)),
     pre ++ map Objects.dict_of (map (scale_contribution w) attrs)).
Proof.
  induction attrs as [|a attrs IH]; intros pre all_attributions.
  - cbn. rewrite !app_nil_r. reflexivity.
  - cbn [length seq map Objects.scale_into].
    rewrite bind_item.
    replace (length pre) with (length pre + 0)%nat at 1 by lia.
    rewrite deref_app_r. unfold Objects.deref at 1.
    cbn [lookup list_lookup default from_option id].
    rewrite dict_of_contribution, bind_lift. cbn [float_of].
    rewrite bind_set_item.
    unfold Objects.heap, Objects.ref in *.
    rewrite alter_app_r_alt by lia. rewrite Nat.sub_diag.
    cbn [alter list_alter]. rewrite dict_of_scaled.
    specialize (IH (pre ++ [Objects.dict_of (scale_contribution w a)])
                  (all_attributions ++ [length pre])).
    rewrite length_app in IH. cbn [length] in IH.
    replace (length pre + 1)%nat with (S (length pre)) in IH by lia.
    rewrite <- !app_assoc in IH. exact IH.
Qed.

Lemma allocation_refs (n k m : nat) :
  [n] ++ seq (S n) k ++ [S (n + k)] ++ seq (S (S (n + k))) m =
  seq n (S (k + S m)).
Proof.
  cbn [seq app]. f_equal. rewrite seq_app. f_equal.
Qed.

Lemma bind_call {A B : Type} (m : Objects.run A) (k : A -> Objects.run B) h o h' :
  m h = (o, h') ->
  Objects.bind m k h =
  match o with Ok a => k a h' | Raise e => (Raise e, h') end.
Proof. intros E. unfold Objects.bind. rewrite E. reflexivity. Qed.

(** The end of a run that has raised. *)
Ltac run_raised H :=
  pose proof (f_equal fst H) as Ho; pose proof (f_equal snd H) as Hh;
  cbn [fst snd] in Ho, Hh; clear H; subst;
  cbn [bind Spec.map_result];
  (split; [reflexivity|]); rewrite <- ?app_assoc; eexists;
  (split; [first [reflexivity | symmetry; apply app_nil_r]|]);
  intros v E; discriminate E.

(** [score_lead] on the heap computes what [Scoring.score_lead] computes on
    the contents of the bag; its attributions are the dictionaries it has
    allocated, in their order, after the objects there were. *)
Lemma score_lead_run now company_name signals industry employee_count h o h' :
  (signals < length h)%nat ->
  Objects.score_lead now company_name signals industry employee_count h =
    (o, h') ->
  o = Spec.map_result
        (fun v =>
           Objects.mk_lead (PredictionResult.score v) (PredictionResult.tier v)
             (seq (length h) (length (PredictionResult.feature_attributions v)))
             (PredictionResult.explanation v)
             (PredictionResult.model_version v) (PredictionResult.timestamp v))
        (score_lead now company_name (Objects.deref h signals) industry
           employee_count) /\
  exists objs,
    h' = h ++ objs /\
    forall v,
      score_lead now company_name (Objects.deref h signals) industry
        employee_count = Ok v ->
      objs = map Objects.dict_of (PredictionResult.feature_attributions v).
Proof.
  intros Hs H.
  unfold Objects.score_lead in H. unfold score_lead, lead_sub_scores.
  rewrite bind_lift in H.
  destruct (check_str employee_count) as [[]|e] eqn:Ec; [|run_raised H].
  rewrite bind_lift in H.
  destruct (get_company_size_score employee_count) as [size|e] eqn:Es;
    [|run_raised H].
  rewrite bind_new in H.
  match type of H with
  | Objects.bind (Objects.calculate_engagement_score signals) _ ?h1 = _ =>
      destruct (Objects.calculate_engagement_score signals h1) as [oe he] eqn:Ee
  end.
  rewrite (bind_call _ _ _ _ _ Ee) in H.
  apply engagement_run in Ee as (-> & objs & -> & Hobjs);
    [|rewrite length_app; cbn [length]; lia].
  rewrite deref_app_l in H, Hobjs by exact Hs.
  destruct (calculate_engagement_score (Objects.deref h signals))
    as [[engagement attrs]|e] eqn:Ep; cbn [Spec.map_result bind] in H |- *;
    [|run_raised H].
  rewrite (Hobjs _ _ eq_refl) in H. clear Hobjs.
  rewrite (bind_call _ _ _ _ _ (scale_run _ _ _ _)) in H.
  rewrite bind_new in H.
  rewrite (bind_call _ _ _ _ _ (intent_run _ _)) in H. cbv beta iota in H.
  rewrite (bind_call _ _ _ _ _ (scale_run _ _ _ _)) in H.
  rewrite (bind_call _ _ _ _ _ (explanation_run _ _ _ _ _ _ _)) in H.
  rewrite <- !app_assoc in H.
  rewrite !deref_app_l in H by exact Hs.
  destruct (calculate_intent_score (Objects.deref h signals)) as [intent iattrs].
  cbn [fst snd bind] in H |- *.
  destruct (generate_lead_explanation _ _ _ _ _ _) as [s|e] eqn:Ex;
    [|run_raised H].
  unfold Objects.ret in H.
  pose proof (f_equal fst H) as Ho. pose proof (f_equal snd H) as Hh.
  cbn [fst snd] in Ho, Hh. clear H. subst o h'.
  cbn [bind Spec.map_result PredictionResult.score PredictionResult.tier
         PredictionResult.feature_attributions PredictionResult.explanation
         PredictionResult.model_version PredictionResult.timestamp].
  split.
  - do 2 f_equal.
    rewrite !length_app, !length_map. cbn [length app].
    generalize (length h), (length attrs), (length iattrs). intros n k m.
    transitivity ([n] ++ seq (S n) k ++ [S (n + k)] ++ seq (S (S (n + k))) m).
    + cbn [app]. repeat (f_equal; try lia).
    + rewrite allocation_refs. f_equal. lia.
  - eexists. split; [reflexivity|]. intros v E.
    pose proof (f_equal (fun r => match r with Ok x => x | Raise _ => v end) E)
      as Hv.
    cbv beta iota in Hv. subst v.
    cbn [PredictionResult.feature_attributions].
    rewrite !map_app, <- !app_assoc. reflexivity.
Qed.

Lemma churn_run set_order now account h :
  Objects.detect_churn_risk set_order now account h =
  (match churn_rules (Objects.deref h (Objects.usage_signals account)) with
   | Ok (risk_score, risk_factors) =>
       Ok (ChurnResult.mk (Objects.id account) (Objects.company account)
             (py_round risk_score 2) (churn_tier risk_score) risk_factors
             (Objects.generate_intervention_suggestions set_order risk_factors
                (Objects.plan account))
             MODEL_VERSION now)
   | Raise e => Raise e
   end, h).
Proof.
  unfold Objects.detect_churn_risk. rewrite bind_read, bind_lift.
  destruct (churn_rules _) as [[risk_score risk_factors]|e]; reflexivity.
Qed.

Lemma conversion_run float_repr now account h :
  Objects.calculate_conversion_probability float_repr now account h =
  (calculate_conversion_probability float_repr now (Objects.account_in h account),
   h).
Proof. reflexivity. Qed.

(** C8.  Two calls of an engine in a row, in one process, on the same
    input, the second at a later reading of the clock.

    [score_lead] works on dictionaries that it updates in place.  The bag is
    a dictionary of the heap [h] on which the first call runs, and the
    second call runs on the heap the first has left.  Both calls return or
    both raise the same exception; when they return, the two results, read
    by following the references of their attribution lists, hold the same
    score, tier, explanation and model version and the same attribution
    dictionaries in the same order, and differ in the timestamp only.  They
    are the result of [Scoring.score_lead] on the contents of the bag.  The
    second call changes nothing in what the first has returned (the two
    lists share no object), and neither call changes an object that was
    there before, the bag among them.

    [detect_churn_risk] and [calculate_conversion_probability] read their
    usage signals and leave the heap as it is; the second result is the
    first with the later timestamp, the declining signals and engagement
    signals being the same lists in the same order.  The order of the
    suggested interventions is the order in which the process iterates over
    a set: it is the same in both calls, and in a process with another
    order the result differs in the order of that list only. *)
Theorem repeated_calls_agree_up_to_timestamp :
  forall (set_order : list string -> list string)
         (float_repr : float -> string) (now1 now2 : string)
         (h : Objects.heap) (bag : Objects.ref),
    (bag < length h)%nat ->
    (forall company_name industry employee_count,
        let '(o1, h1) :=
          Objects.score_lead now1 company_name bag industry employee_count h in
        let '(o2, h2) :=
          Objects.score_lead now2 company_name bag industry employee_count h1 in
        take (length h) h2 = h /\
        match o1, o2 with
        | Ok r1, Ok r2 =>
            exists v,
              score_lead now1 company_name (Objects.deref h bag) industry
                employee_count = Ok v /\
              Objects.follow h1 r1 = Objects.shown v /\
              Objects.follow h2 r1 = Objects.shown v /\
              Objects.follow h2 r2 = Objects.shown (Spec.lead_at now2 v) /\
              forall a, a ∈ Objects.feature_attributions r1 ->
                        a ∉ Objects.feature_attributions r2
        | Raise e1, Raise e2 =>
            e1 = e2 /\
            score_lead now1 company_name (Objects.deref h bag) industry
              employee_count = Raise e1
        | _, _ => False
        end) /\
    (forall id company plan,
        let account := Objects.mk_account id company plan bag in
        let '(o1, h1) := Objects.detect_churn_risk set_order now1 account h in
        let '(o2, h2) := Objects.detect_churn_risk set_order now2 account h1 in
        h1 = h /\ h2 = h /\
        o2 = Spec.map_result (Spec.churn_at now2) o1 /\
        Objects.detect_churn_risk list_set now1 account h =
          (detect_churn_risk now1 (Objects.account_in h account), h) /\
        forall set_order',
          (forall l, set_order' l ≡ₚ set_order l) ->
          match o1, (Objects.detect_churn_risk set_order' now1 account h).1 with
          | Ok r, Ok r' =>
              ChurnResult.risk_score r' = ChurnResult.risk_score r /\
              ChurnResult.risk_tier r' = ChurnResult.risk_tier r /\
              ChurnResult.declining_signals r' = ChurnResult.declining_signals r /\
              ChurnResult.suggested_interventions r' ≡ₚ
                ChurnResult.suggested_interventions r
          | Raise e, Raise e' => e' = e
          | _, _ => False
          end) /\
    (forall id company plan,
        let account := Objects.mk_account id company plan bag in
        let '(o1, h1) :=
          Objects.calculate_conversion_probability float_repr now1 account h in
        let '(o2, h2) :=
          Objects.calculate_conversion_probability float_repr now2 account h1 in
        h1 = h /\ h2 = h /\
        o2 = Spec.map_result (Spec.conversion_at now2) o1 /\
        o1 = calculate_conversion_probability float_repr now1
               (Objects.account_in h account)).
Proof.
  intros set_order float_repr now1 now2 h bag Hbag.
  split; [|split].
  - intros company_name industry employee_count.
    destruct (Objects.score_lead now1 company_name bag industry employee_count h)
      as [o1 h1] eqn:E1.
    destruct (Objects.score_lead now2 company_name bag industry employee_count h1)
      as [o2 h2] eqn:E2.
    apply score_lead_run in E1 as (-> & objs1 & -> & Hobjs1); [|exact Hbag].
    apply score_lead_run in E2 as (-> & objs2 & -> & Hobjs2);
      [|rewrite length_app; lia].
    rewrite deref_app_l in Hobjs2 |- * by exact Hbag.
    rewrite (score_lead_clock now1 now2) in Hobjs2 |- *.
    split; [apply take_app3_length|].
    destruct (score_lead now1 company_name (Objects.deref h bag) industry
                employee_count) as [v|e]; cbn [Spec.map_result] in *;
      [|split; reflexivity].
    specialize (Hobjs1 v eq_refl). specialize (Hobjs2 _ eq_refl).
    cbn [Spec.lead_at PredictionResult.feature_attributions] in Hobjs2.
    exists v. split; [reflexivity|].
    unfold Objects.follow, Objects.shown.
    cbn [Objects.score Objects.tier Objects.feature_attributions
           Objects.explanation Objects.model_version Objects.timestamp
           Spec.lead_at PredictionResult.score PredictionResult.tier
           PredictionResult.feature_attributions PredictionResult.explanation
           PredictionResult.model_version PredictionResult.timestamp].
    assert (L1 : length (PredictionResult.feature_attributions v) = length objs1)
      by (rewrite Hobjs1, length_map; reflexivity).
    assert (L2 : length (PredictionResult.feature_attributions v) = length objs2)
      by (rewrite Hobjs2, length_map; reflexivity).
    split; [|split; [|split]].
    + f_equal. rewrite L1, <- Hobjs1.
      rewrite <- (app_nil_r objs1) at 1. apply follow_seq.
    + f_equal. rewrite L1, <- Hobjs1, <- app_assoc. apply follow_seq.
    + f_equal. rewrite L2, <- Hobjs2.
      rewrite <- (app_nil_r objs2) at 1. apply follow_seq.
    + intros a Ha Ha'. apply elem_of_seq in Ha, Ha'.
      rewrite length_app in Ha'. lia.
  - intros id company plan account.
    rewrite (churn_run set_order now1 account h). cbv beta iota.
    rewrite (churn_run set_order now2 account h). cbv beta iota.
    split; [reflexivity|]. split; [reflexivity|].
    split; [|split].
    + destruct (churn_rules _) as [[risk_score risk_factors]|e]; reflexivity.
    + rewrite churn_run.
      unfold detect_churn_risk, Objects.account_in, account.
      cbn [Account.usage_signals Account.company Account.id Objects.id
             Objects.company Objects.plan Objects.usage_signals].
      destruct (churn_rules _) as [[risk_score risk_factors]|e]; reflexivity.
    + intros set_order' Hperm. rewrite churn_run. cbn [fst].
      destruct (churn_rules _) as [[risk_score risk_factors]|e];
        [|reflexivity].
      cbn [ChurnResult.risk_score ChurnResult.risk_tier
             ChurnResult.declining_signals ChurnResult.suggested_interventions].
      repeat split. apply Hperm.
  - intros id company plan account.
    rewrite (conversion_run float_repr now1 account h). cbv beta iota.
    rewrite (conversion_run float_repr now2 account h). cbv beta iota.
    split; [reflexivity|]. split; [reflexivity|].
    split; [apply conversion_clock | reflexivity].
Qed.

Lemma repeated_calls_witness :
  let h := [Examples.hot_signals] in
  (0 < length h)%nat /\
  let '(o1, h1) :=
    Objects.score_lead "2024-11-01T00:00:00Z" "Test Corp" 0%nat "technology"
      (VInt 1000) h in
  let '(o2, h2) :=
    Objects.score_lead "2024-11-01T00:00:05Z" "Test Corp" 0%nat "technology"
      (VInt 1000) h1 in
  take (length h) h2 = h /\
  exists r1 r2, o1 = Ok r1 /\ o2 = Ok r2 /\
    Objects.follow h2 r2 =
    Objects.mk_lead (Objects.score (Objects.follow h1 r1))
      (Objects.tier (Objects.follow h1 r1))
      (Objects.feature_attributions (Objects.follow h1 r1))
      (Objects.explanation (Objects.follow h1 r1))
      (Objects.model_version (Objects.follow h1 r1)) "2024-11-01T00:00:05Z".
Proof.
  intros h.
  assert (Hbag : (0 < length h)%nat) by (cbn; lia).
  split; [exact Hbag|].
  pose proof (proj1 (repeated_calls_agree_up_to_timestamp list_set (fun _ => "")
                       "2024-11-01T00:00:00Z" "2024-11-01T00:00:05Z" h 0%nat Hbag)
                "Test Corp" "technology" (VInt 1000)) as H.
  destruct (Objects.score_lead "2024-11-01T00:00:00Z" _ _ _ _ h) as [o1 h1].
  destruct (Objects.score_lead "2024-11-01T00:00:05Z" _ _ _ _ h1) as [o2 h2].
  destruct H as [Hh H]. split; [exact Hh|].
  destruct o1 as [r1|e1], o2 as [r2|e2]; try contradiction.
  - destruct H as (v & _ & H1 & _ & H2 & _).
    exists r1, r2. split; [reflexivity|]. split; [reflexivity|].
    rewrite H1, H2. reflexivity.
  - exfalso. destruct H as [_ H]. vm_compute in H. discriminate H.
Defined.
